(** * Re-ranking and education disambiguation layer of the resume search tool

    A shallow embedding of the education matcher ([fixed_education_matcher.py],
    duplicated verbatim as [EnhancedEducationMatcher] in [enhanced_web_app.py]),
    of the skill and experience scorer, and of the four search handlers of
    [enhanced_web_app.py] and [hiresight_engine.py], followed by the
    properties of the specification that hold of them.

    Conventions of the embedding.
    - A Python [str] is a [string]; the development covers ASCII text: case
      folding, white space and the word class of [\b] are the ASCII ones.
    - A Python [float] is an IEEE-754 binary64 number, [spec_float] at
      precision 53, with round-to-nearest-even operations.
    - A Python [int] is a [Z]; the conversions between [int] and [str] have
      the digit limit of the interpreter, 4300 digits.
    - Calls to the vector index and raised exceptions are the nodes of a small
      free monad, [handler]. *)

From Stdlib Require Import ZArith NArith List String Ascii Bool Lia.
From Stdlib Require Import Permutation Sorted DecimalString.
From Stdlib Require DecimalFacts DecimalPos.
From Stdlib Require Import Floats.SpecFloat.
Import ListNotations.

Open Scope string_scope.
Open Scope list_scope.

(* ================================================================= *)
(** ** Python strings *)

Module PyStr.

Definition code (c : ascii) : N := N_of_ascii c.

Definition in_range (lo hi : N) (c : ascii) : bool :=
  ((lo <=? code c) && (code c <=? hi))%N.

Definition is_upper : ascii -> bool := in_range 65 90.
Definition is_lower : ascii -> bool := in_range 97 122.
Definition is_digit : ascii -> bool := in_range 48 57.

(** [str.isspace] on ASCII: tab to carriage return, the four separators
    0x1c..0x1f, and the blank. *)
Definition is_space (c : ascii) : bool :=
  in_range 9 13 c || in_range 28 31 c || (code c =? 32)%N.

(** The class [\w] of the [re] module on ASCII. *)
Definition is_word (c : ascii) : bool :=
  is_upper c || is_lower c || is_digit c || (code c =? 95)%N.

Definition lower_char (c : ascii) : ascii :=
  if is_upper c then ascii_of_N (code c + 32) else c.

(** [s.lower()] *)
Fixpoint lower (s : string) : string :=
  match s with
  | EmptyString => EmptyString
  | String c s' => String (lower_char c) (lower s')
  end.

Fixpoint lstrip (s : string) : string :=
  match s with
  | EmptyString => EmptyString
  | String c s' => if is_space c then lstrip s' else s
  end.

Fixpoint rstrip (s : string) : string :=
  match s with
  | EmptyString => EmptyString
  | String c s' =>
      match rstrip s' with
      | EmptyString => if is_space c then EmptyString else String c EmptyString
      | r => String c r
      end
  end.

(** [s.strip()] *)
Definition strip (s : string) : string := rstrip (lstrip s).

(** [needle in hay] *)
Fixpoint contains (needle hay : string) : bool :=
  prefix needle hay ||
  match hay with
  | EmptyString => false
  | String _ hay' => contains needle hay'
  end.

(** [s.split(sep)] for a one-character separator: never the empty list. *)
Fixpoint split (sep : ascii) (s : string) : list string :=
  match s with
  | EmptyString => [EmptyString]
  | String c s' =>
      if Ascii.eqb c sep then EmptyString :: split sep s'
      else match split sep s' with
           | [] => [String c EmptyString]
           | h :: t => String c h :: t
           end
  end.

(** [sep.join(parts)] *)
Definition join (sep : string) (parts : list string) : string :=
  String.concat sep parts.

(** [any(k in s for k in keys)] *)
Definition any_in (keys : list string) (s : string) : bool :=
  existsb (fun k => contains k s) keys.

(** [x in xs] on a list of strings *)
Definition mem (x : string) (xs : list string) : bool :=
  existsb (String.eqb x) xs.

(** A text has [kw] as a substring. *)
Definition substring_of (kw text : string) : Prop :=
  exists pre post, text = String.append pre (String.append kw post).

(** Truth value of a string: non-empty. *)
Definition truthy (s : string) : bool :=
  match s with EmptyString => false | _ => true end.

(** [str(n)] for a non-negative integer. *)
Definition of_N (n : N) : string := NilEmpty.string_of_uint (N.to_uint n).

(** [str(n)] for any integer: a minus sign before the digits of a negative
    one. *)
Definition of_int (n : Z) : string := NilEmpty.string_of_int (Z.to_int n).

Definition digit_value (c : ascii) : N := (code c - 48)%N.

(** The number a run of ASCII digits writes. *)
Definition int_of_digits (s : string) : N :=
  (fix go (acc : N) (s : string) : N :=
     match s with
     | EmptyString => acc
     | String c s' => go (10 * acc + digit_value c)%N s'
     end) 0%N s.

(** The limit on the conversions between [int] and [str]
    ([sys.get_int_max_str_digits()], 4300 unless the interpreter is told
    otherwise): [int] raises [ValueError] on more digit characters, leading
    zeros counted, and [str] on an integer of more digits. *)
Definition max_str_digits : N := 4300.

(** [int(s)] on a run of ASCII digits; [None] is the [ValueError]. *)
Definition int_exn (s : string) : option N :=
  if (N.of_nat (String.length s) <=? max_str_digits)%N
  then Some (int_of_digits s) else None.

(** [str(n)] raises [ValueError]: [n] has more digits than the limit. *)
Definition str_raises (n : Z) : bool :=
  (max_str_digits <? N.of_nat (String.length (of_N (Z.abs_N n))))%N.

End PyStr.

(* ================================================================= *)
(** ** The fragment of [re] the program uses *)

Module Re.
Import PyStr.

Inductive regex : Type :=
  | Eps
  | Chr (c : ascii)
  | Cls (p : ascii -> bool)
  | Seq (r1 r2 : regex)
  | Alt (r1 r2 : regex)
  | Opt (r : regex)
  | Star (p : ascii -> bool)
  | WordB.

(** [\b] holds between a word character and a non-word character, the ends
    of the text counting as non-word. *)
Definition word_before (prev : option ascii) : bool :=
  match prev with Some c => is_word c | None => false end.

Definition word_here (s : string) : bool :=
  match s with String c _ => is_word c | EmptyString => false end.

Definition at_boundary (prev : option ascii) (s : string) : bool :=
  xorb (word_before prev) (word_here s).

Fixpoint last_char (prev : option ascii) (m : string) : option ascii :=
  match m with
  | EmptyString => prev
  | String c m' => last_char (Some c) m'
  end.

(** Greedy [c*] over a class: the longest run first, then each shorter one. *)
Fixpoint star_runs (p : ascii -> bool) (s : string) : list (string * string) :=
  match s with
  | String c s' =>
      if p c
      then map (fun mr => (String c (fst mr), snd mr)) (star_runs p s')
             ++ [(EmptyString, s)]
      else [(EmptyString, s)]
  | EmptyString => [(EmptyString, EmptyString)]
  end.

(** [run r prev s]: every way [r] matches a prefix of [s], as pairs
    (matched text, remaining text), in the order a backtracking matcher
    tries them; [prev] is the character before [s]. *)
Fixpoint run (r : regex) (prev : option ascii) (s : string)
  : list (string * string) :=
  match r with
  | Eps => [(EmptyString, s)]
  | Chr c =>
      match s with
      | String d s' => if Ascii.eqb c d then [(String d EmptyString, s')] else []
      | EmptyString => []
      end
  | Cls p =>
      match s with
      | String d s' => if p d then [(String d EmptyString, s')] else []
      | EmptyString => []
      end
  | Seq r1 r2 =>
      flat_map
        (fun m1 =>
           map (fun m2 => (String.append (fst m1) (fst m2), snd m2))
               (run r2 (last_char prev (fst m1)) (snd m1)))
        (run r1 prev s)
  | Alt r1 r2 => run r1 prev s ++ run r2 prev s
  | Opt r1 => run r1 prev s ++ [(EmptyString, s)]
  | Star p => star_runs p s
  | WordB => if at_boundary prev s then [(EmptyString, s)] else []
  end.

(** [kw] is a match of [r] in [text]: it is the text [r] consumes at the
    position where [pre] ends. *)
Definition matched_at (r : regex) (text kw : string) : Prop :=
  exists pre post,
    text = String.append pre (String.append kw post) /\
    In (kw, post) (run r (last_char None pre) (String.append kw post)).

Definition nonempty_match (mr : string * string) : bool := truthy (fst mr).

(** [re.findall(r, text)] for a pattern without capture groups: the matched
    texts, left to right, without overlap. [skip] counts the characters of
    the last match that are still to be passed over. After an empty match
    the same position is tried again for a non-empty one. *)
Fixpoint scan (r : regex) (prev : option ascii) (s : string) (skip : nat)
  : list string :=
  match skip with
  | S n =>
      match s with
      | EmptyString => []
      | String c s' => scan r (Some c) s' n
      end
  | O =>
      let res := run r prev s in
      let first :=
        match res with
        | (EmptyString, _) :: _ => find nonempty_match res
        | _ => hd_error res
        end in
      let lead :=
        match res with
        | (EmptyString, _) :: _ => [EmptyString]
        | _ => []
        end in
      lead ++
      match first with
      | Some (String a m, _) =>
          String a m ::
          match s with
          | EmptyString => []
          | String c s' => scan r (Some c) s' (String.length m)
          end
      | _ =>
          match s with
          | EmptyString => []
          | String c s' => scan r (Some c) s' 0
          end
      end
  end.

Definition findall (r : regex) (text : string) : list string :=
  scan r None text 0.

(** *** Reading the alternations of the pattern table

    One alternative is a sequence of characters, each possibly escaped with
    a backslash and possibly followed by [?]. *)
Fixpoint parse_items (s : string) : regex :=
  match s with
  | EmptyString => Eps
  | String "\" (String c (String "?" s')) => Seq (Opt (Chr c)) (parse_items s')
  | String "\" (String c s') => Seq (Chr c) (parse_items s')
  | String c (String "?" s') => Seq (Opt (Chr c)) (parse_items s')
  | String c s' => Seq (Chr c) (parse_items s')
  end.

Fixpoint alternation (alts : list string) : regex :=
  match alts with
  | [] => Eps
  | [a] => parse_items a
  | a :: rest => Alt (parse_items a) (alternation rest)
  end.

(** [\b(?:body)\b] *)
Definition word_pattern (body : string) : regex :=
  Seq WordB (Seq (alternation (split "|" body)) WordB).

End Re.

(* ================================================================= *)
(** ** Python floats: IEEE-754 binary64 *)

Module Float.

Definition prec : Z := 53.
Definition emax : Z := 1024.

Definition float : Type := spec_float.

Definition add : float -> float -> float := SFadd prec emax.
Definition sub : float -> float -> float := SFsub prec emax.
Definition mul : float -> float -> float := SFmul prec emax.
Definition div : float -> float -> float := SFdiv prec emax.
Definition ltb : float -> float -> bool := SFltb.
Definition leb : float -> float -> bool := SFleb.
Definition eqb : float -> float -> bool := SFeqb.

(** [float(n)] for an integer [n]. *)
Definition of_Z (n : Z) : float := binary_normalize prec emax n 0 false.

(** The decimal literal [n/d], correctly rounded as the Python parser does. *)
Definition dec (n d : Z) : float := div (of_Z n) (of_Z d).

Definition f0_0 : float := Eval vm_compute in of_Z 0.
Definition f1_0 : float := Eval vm_compute in of_Z 1.
Definition f2_0 : float := Eval vm_compute in of_Z 2.
Definition f0_1 : float := Eval vm_compute in dec 1 10.
Definition f0_2 : float := Eval vm_compute in dec 2 10.
Definition f0_3 : float := Eval vm_compute in dec 3 10.
Definition f0_4 : float := Eval vm_compute in dec 4 10.
Definition f0_5 : float := Eval vm_compute in dec 5 10.
Definition f0_6 : float := Eval vm_compute in dec 6 10.
Definition f0_7 : float := Eval vm_compute in dec 7 10.
Definition f0_8 : float := Eval vm_compute in dec 8 10.
Definition f0_9 : float := Eval vm_compute in dec 9 10.
Definition f1_1 : float := Eval vm_compute in dec 11 10.

(** [max(a, b)] and [min(a, b)] of Python: the first argument unless the
    second is strictly greater (smaller). *)
Definition py_max (a b : float) : float := if ltb a b then b else a.
Definition py_min (a b : float) : float := if ltb b a then b else a.

(** A number, as opposed to NaN. *)
Definition is_number (x : float) : bool :=
  match x with S754_nan => false | _ => true end.

End Float.

(* ================================================================= *)
(** ** [list.sort(reverse=True)]

    The sort is stable and, with [reverse=True], descending: elements that
    do not compare smaller than one another keep the order of the input.
    Where [<] is not a strict weak order on the elements (a NaN among the
    scores) Python leaves the result unspecified; the properties below that
    speak of the order assume scores that are numbers. *)

Module PySort.

Section Total.
Context {A : Type} (lt : A -> A -> bool).

(** [x] is the element that came before all of [sorted] in the input: it
    goes in front of the first element it is not smaller than, so equal
    elements keep their input order. *)
Fixpoint insert_desc (x : A) (sorted : list A) : list A :=
  match sorted with
  | [] => [x]
  | y :: rest => if lt x y then y :: insert_desc x rest else x :: sorted
  end.

Fixpoint sort_desc (l : list A) : list A :=
  match l with
  | [] => []
  | x :: l' => insert_desc x (sort_desc l')
  end.
End Total.

Section Fallible.
Context {A : Type} (lt : A -> A -> option bool).

(** The same sort when a comparison can raise: [None] is the exception. *)
Fixpoint insert_desc_exn (x : A) (sorted : list A) : option (list A) :=
  match sorted with
  | [] => Some [x]
  | y :: rest =>
      match lt x y with
      | None => None
      | Some true => option_map (cons y) (insert_desc_exn x rest)
      | Some false => Some (x :: sorted)
      end
  end.

Fixpoint sort_desc_exn (l : list A) : option (list A) :=
  match l with
  | [] => Some []
  | x :: l' =>
      match sort_desc_exn l' with
      | None => None
      | Some sorted => insert_desc_exn x sorted
      end
  end.

(** The comparison with the exception read as false. *)
Definition decided (a b : A) : bool :=
  match lt a b with Some true => true | _ => false end.

(** Each element can be compared with every later one. *)
Fixpoint comparable (l : list A) : Prop :=
  match l with
  | [] => True
  | x :: l' => (forall y, In y l' -> lt x y <> None) /\ comparable l'
  end.
End Fallible.

End PySort.

(* ================================================================= *)
(** ** The education matcher

    [FixedEducationMatcher] of [fixed_education_matcher.py]; the class
    [EnhancedEducationMatcher] of [enhanced_web_app.py] has the same tables
    and the same method bodies, with a dict in place of the dataclass. *)

Module Matcher.
Import PyStr Re Float PySort.

Record EducationMatch : Type := {
    level : string;
    confidence : float;
    context : string;
    keywords_found : list string
  }.

(** [d.get(key)] on a table written as its list of items. *)
Fixpoint dict_get {V : Type} (d : list (string * V)) (key : string) : option V :=
  match d with
  | [] => None
  | (k, v) :: d' => if String.eqb key k then Some v else dict_get d' key
  end.

Definition education_patterns : list (string * list regex) :=
  [ ("phd",
     [ word_pattern "ph\.?d\.?|doctor of philosophy|doctorate|doctoral|d\.phil|dphil";
       word_pattern "phd|ph\.d|ph\.d\.|doctor of philosophy|doctorate|doctoral|d\.phil|dphil" ]);
    ("masters",
     [ word_pattern "m\.?s\.?|m\.?tech|mtech|m\.?sc|msc|master of|mba|m\.?e\.?|me|mca|m\.?com|mcom|m\.?a\.?|ma|master\'s|master degree";
       word_pattern "m\.s\.|ms|m\.tech|mtech|m\.sc|msc|master of|mba|m\.e\.|me|mca|m\.com|mcom|m\.a\.|ma|master\'s|master degree" ]);
    ("bachelors",
     [ word_pattern "b\.?e\.?|btech|b\.?tech|b\.?sc|bsc|bca|b\.?eng|bachelor of|bachelor\'s|b\.?com|bcom|b\.?a\.?|ba|bachelor degree|bachelor of technology|bachelor of engineering";
       word_pattern "b\.e\.|btech|b\.tech|b\.sc|bsc|bca|b\.eng|bachelor of|bachelor\'s|b\.com|bcom|b\.a\.|ba|bachelor degree|bachelor of technology|bachelor of engineering" ]) ].

Definition education_hierarchy : list (string * Z) :=
  [ ("bachelors", 1%Z); ("masters", 2%Z); ("phd", 3%Z) ].

Definition education_keywords : list string :=
  [ "education"; "qualification"; "degree"; "academic";
    "university"; "college"; "institute"; "school" ].

Definition section_keywords : list string :=
  [ "experience"; "work history"; "professional experience"; "skills";
    "projects"; "certification"; "achievements" ].

Definition newline : ascii := "010"%char.

(** The loop of [extract_education_section]: the lines appended to
    [education_lines] from [lines] on, [in_education] being the flag on
    entry; [break] ends the recursion. *)
Fixpoint collect_lines (in_education : bool) (lines : list string) : list string :=
  match lines with
  | [] => []
  | line :: rest =>
      let line_lower := strip (lower line) in
      if any_in education_keywords line_lower then line :: collect_lines true rest
      else if in_education then
        if any_in section_keywords line_lower then []
        else line :: collect_lines true rest
      else collect_lines false rest
  end.

Definition extract_education_section (text : string) : string :=
  join (String newline EmptyString) (collect_lines false (split newline text)).

Definition specific_keywords : list string :=
  [ "phd"; "doctorate"; "masters"; "mba"; "btech"; "bachelor" ].

(** The argument [level] is not used by the body, as in the source. *)
Definition calculate_confidence
  (keywords_found : list string) (education_section : string) (level : string)
  : float :=
  let base_confidence := f0_5 in
  let base_confidence :=
    if existsb (fun keyword => contains keyword education_section) keywords_found
    then add base_confidence f0_3 else base_confidence in
  let base_confidence :=
    if existsb (fun keyword => mem keyword keywords_found) specific_keywords
    then add base_confidence f0_2 else base_confidence in
  let base_confidence :=
    if contains "experience" education_section || contains "work" education_section
    then sub base_confidence f0_1 else base_confidence in
  py_min f1_0 (py_max f0_0 base_confidence).

Definition default_levels : list string := [ "phd"; "masters"; "bachelors" ].

(** [target_levels if target_levels else [...]]: [None] and the empty list
    are both false. *)
Definition levels_to_check (target_levels : option (list string)) : list string :=
  match target_levels with
  | Some (l :: ls) => l :: ls
  | _ => default_levels
  end.

Definition keywords_of (patterns : list regex) (text_lower : string) : list string :=
  flat_map (fun pattern => findall pattern text_lower) patterns.

Definition match_level (text_lower education_section : string) (level : string)
  : list EducationMatch :=
  match dict_get education_patterns level with
  | None => []
  | Some patterns =>
      match keywords_of patterns text_lower with
      | [] => []
      | keywords =>
          [ {| level := level;
               confidence := calculate_confidence keywords (lower education_section) level;
               context := education_section;
               keywords_found := keywords |} ]
      end
  end.

Definition find_education_matches
  (text : string) (target_levels : option (list string)) : list EducationMatch :=
  let text_lower := lower text in
  let education_section := extract_education_section text in
  flat_map (match_level text_lower education_section) (levels_to_check target_levels).

(** [self.education_hierarchy.get(x.level, 0)] *)
Definition ordinal (m : EducationMatch) : Z :=
  match dict_get education_hierarchy (level m) with
  | Some n => n
  | None => 0%Z
  end.

Definition good_confidence (m : EducationMatch) : bool := ltb f0_6 (confidence m).

Definition get_highest_education
  (text : string) (target_levels : option (list string)) : option EducationMatch :=
  let matches := find_education_matches text target_levels in
  match matches with
  | [] => None
  | [m] => Some m
  | _ =>
      let matches := sort_desc (fun a b => (ordinal a <? ordinal b)%Z) matches in
      match find good_confidence matches with
      | Some m => Some m
      | None => hd_error matches
      end
  end.

Definition strict_education_filter (text : string) (target_levels : list string) : bool :=
  match get_highest_education text (Some target_levels) with
  | None => false
  | Some highest_education => mem (level highest_education) (map lower target_levels)
  end.

Definition get_education_keywords_found (text : string) (target_levels : list string)
  : list string :=
  match get_highest_education text (Some target_levels) with
  | None => []
  | Some highest_education => keywords_found highest_education
  end.

End Matcher.

(* ================================================================= *)
(** ** The skill and experience scorer *)

Module Scorer.
Import PyStr Re Float.

Definition digits : regex := Seq (Cls is_digit) (Star is_digit).

(** What follows the group of digits in [YEARS_PATTERN]: optional white
    space, an optional group of an optional plus sign and white space, one
    of years, yrs, year, and a word boundary. The pattern is compiled with
    [re.IGNORECASE] and applied to lower-cased text. *)
Definition years_tail : regex :=
  Seq (Star is_space)
    (Seq (Opt (Seq (Opt (Chr "+")) (Star is_space)))
       (Seq (alternation ["years"; "yrs"; "year"]) WordB)).

(** The matches of [(g)t] at one position, in backtracking order, as
    (text of group 1, whole matched text). *)
Definition run_group (g t : regex) (prev : option ascii) (s : string)
  : list (string * string) :=
  flat_map
    (fun m1 =>
       map (fun m2 => (fst m1, String.append (fst m1) (fst m2)))
           (run t (last_char prev (fst m1)) (snd m1)))
    (run g prev s).

(** [m.group(1)] for each [m] of [finditer]; every match of [YEARS_PATTERN]
    has at least one character. *)
Fixpoint scan_group (g t : regex) (prev : option ascii) (s : string) (skip : nat)
  : list string :=
  match skip with
  | S n =>
      match s with
      | EmptyString => []
      | String c s' => scan_group g t (Some c) s' n
      end
  | O =>
      match s with
      | EmptyString => []
      | String c s' =>
          match find (fun gm => truthy (snd gm)) (run_group g t prev s) with
          | Some (g1, whole) =>
              g1 :: scan_group g t (Some c) s' (String.length whole - 1)
          | None => scan_group g t (Some c) s' 0
          end
      end
  end.

(** The values [int(m.group(1))] the loop takes the maximum of: a match
    on which [int] raises [ValueError] is passed over ([continue]). *)
Definition years_found (text_lower : string) : list Z :=
  flat_map
    (fun g1 =>
       match int_exn g1 with
       | Some n => [Z.of_N n]
       | None => []
       end)
    (scan_group digits years_tail None text_lower 0).

Definition score_skills_and_experience
  (text : string) (required_skills : list string) (min_years : Z) : float :=
  let text_lower := lower text in
  let score :=
    fold_left
      (fun score skill =>
         if contains (lower skill) text_lower then add score f1_0 else score)
      required_skills f0_0 in
  let years := fold_left Z.max (years_found text_lower) 0%Z in
  if (min_years <=? years)%Z then add score f0_5 else score.

End Scorer.

(* ================================================================= *)
(** ** Candidates, re-scored rows and the handler monad *)

Module Engine.
Import PyStr Re Float PySort.

(** A metadata entry of the index is a dict or [None]. *)
Definition metadata : Type := option (list (string * string)).

(** One tuple of [search_profiles]: [(rid, doc, dist, meta)]. *)
Record candidate : Type := {
    rid : string;
    doc : string;
    dist : float;
    meta : metadata
  }.

(** One tuple of [rescored]: [(combined, rid, doc, dist, meta)]. *)
Record row : Type := {
    combined : float;
    cand : candidate
  }.

(** [a == b] on two dicts given by their items, the keys of each being
    distinct: as many items, and every item of [a] is one of [b], in
    whatever order. *)
Definition items_eqb (a b : list (string * string)) : bool :=
  Nat.eqb (List.length a) (List.length b) &&
  forallb
    (fun item =>
       match Matcher.dict_get b (fst item) with
       | Some v => String.eqb (snd item) v
       | None => false
       end)
    a.

Definition meta_eqb (a b : metadata) : bool :=
  match a, b with
  | None, None => true
  | Some x, Some y => items_eqb x y
  | _, _ => false
  end.

(** [a < b] on the tuples: the first component on which they differ
    decides; two dicts, or [None]s, that differ cannot be ordered and the
    comparison raises [TypeError], here [None]. *)
Definition row_lt (a b : row) : option bool :=
  if negb (eqb (combined a) (combined b)) then Some (ltb (combined a) (combined b))
  else if negb (String.eqb (rid (cand a)) (rid (cand b)))
       then Some (String.ltb (rid (cand a)) (rid (cand b)))
  else if negb (String.eqb (doc (cand a)) (doc (cand b)))
       then Some (String.ltb (doc (cand a)) (doc (cand b)))
  else if negb (eqb (dist (cand a)) (dist (cand b)))
       then Some (ltb (dist (cand a)) (dist (cand b)))
  else if meta_eqb (meta (cand a)) (meta (cand b)) then Some false
  else None.

(** [rescored.sort(reverse=True)] *)
Definition sort_rows (rescored : list row) : option (list row) :=
  sort_desc_exn row_lt rescored.

(** [TypeError] is raised by the sort, [ValueError] by [str] on an integer
    beyond the digit limit. *)
Inductive exn : Type := TypeError | ValueError.

(** A handler returns, raises, or asks the vector index
    ([search_profiles(query, top_k, include_notes)]) and goes on with the
    candidates it is given. *)
Inductive handler (A : Type) : Type :=
  | Ret (a : A)
  | Raise (e : exn)
  | Query (query : string) (top_k : nat) (include_notes : bool)
          (k : list candidate -> handler A).

Arguments Ret {A} a.
Arguments Raise {A} e.
Arguments Query {A} query top_k include_notes k.

Record call : Type := {
    c_query : string;
    c_top_k : nat;
    c_include_notes : bool
  }.

(** Running a handler against an index: the calls made, in order, and the
    outcome. *)
Fixpoint exec {A : Type} (index : string -> nat -> bool -> list candidate)
  (h : handler A) : list call * (A + exn) :=
  match h with
  | Ret a => ([], inl a)
  | Raise e => ([], inr e)
  | Query q n notes k =>
      let (calls, out) := exec index (k (index q n notes)) in
      ({| c_query := q; c_top_k := n; c_include_notes := notes |} :: calls, out)
  end.

(** One element of the [results] list of a response. The fields [name],
    [preview], [type], [resume] and [full_text] are presentation of the
    same candidate and are left out. *)
Record entry : Type := {
    e_id : string;
    e_score : option float;
    e_similarity : float;
    e_search_type : option string;
    e_education_keywords : option string;
    e_found_keywords : list string
  }.

Record response : Type := {
    results : list entry;
    search_type : option string
  }.

(** [request.form.get(key, default)] *)
Definition form_get (form : list (string * string)) (key default : string) : string :=
  match Matcher.dict_get form key with
  | Some v => v
  | None => default
  end.

(** [[s.strip() for s in text.split(",") if s.strip()]] *)
Definition comma_list (text : string) : list string :=
  filter truthy (map strip (split "," text)).

End Engine.

(* ================================================================= *)
(** ** The handlers of [enhanced_web_app.py] *)

Module WebApp.
Import PyStr Re Float PySort Matcher Scorer Engine.

(** [score_education]: the confidence of the dominant level, 0.0 without one. *)
Definition score_education (text : string) (levels : list string) : float :=
  match get_highest_education text (Some levels) with
  | None => f0_0
  | Some highest_education => confidence highest_education
  end.

Definition keyword_filter_education (text : string) (levels : list string) : bool :=
  strict_education_filter text levels.

Definition find_education_keywords (text : string) (levels : list string) : list string :=
  get_education_keywords_found text levels.

Definition semantic_search_type : string :=
  "Enhanced Semantic Search (No exact keyword matches)".

Definition keyword_search_type (found : nat) : string :=
  String.append "Enhanced Keyword Match ("
    (String.append (of_N (N.of_nat found)) " found)").

Section Handlers.
(** [round(x, 4)], the built-in. *)
Variable round4 : float -> float.

Definition similarity (c : candidate) : float := round4 (sub f1_0 (dist c)).

(** The payload element of the JD and general searches. *)
Definition plain_entry (c : candidate) : entry :=
  {| e_id := rid c;
     e_score := None;
     e_similarity := similarity c;
     e_search_type := None;
     e_education_keywords := None;
     e_found_keywords := [] |}.

Definition api_search_jd (form : list (string * string)) : handler response :=
  let jd := strip (form_get form "jd" EmptyString) in
  if negb (truthy jd) then Ret {| results := []; search_type := None |}
  else
    Query jd 5 false (fun results =>
      Ret {| results := map plain_entry results; search_type := None |}).

(** [int(re.findall(r"\d+", years_input)[0]) if years_input else 0] under
    [try], with [except Exception: min_years = 0]: the [IndexError] of a
    field without a digit and the [ValueError] of [int] both give 0. *)
Definition parse_years (years_input : string) : Z :=
  if truthy years_input then
    match findall digits years_input with
    | d :: _ =>
        match int_exn d with
        | Some n => Z.of_N n
        | None => 0%Z
        end
    | [] => 0%Z
    end
  else 0%Z.

Definition skills_row (skills : list string) (min_years : Z) (c : candidate) : row :=
  let skill_score := score_skills_and_experience (doc c) skills min_years in
  {| combined := add (sub f1_0 (dist c)) (mul f0_3 skill_score); cand := c |}.

Definition scored_entry (r : row) : entry :=
  {| e_id := rid (cand r);
     e_score := Some (round4 (combined r));
     e_similarity := similarity (cand r);
     e_search_type := None;
     e_education_keywords := None;
     e_found_keywords := [] |}.

(** The f-string [f", {min_years} years"] is evaluated only for years other
    than 0 and raises when [str] does; with the years of [parse_years]
    it never does (lemma [parse_years_printable]). *)
Definition api_search_skills (form : list (string * string)) : handler response :=
  let skills_input := strip (form_get form "skills" EmptyString) in
  let years_input := strip (form_get form "years" "0") in
  let min_years := parse_years years_input in
  let skills := comma_list skills_input in
  if negb (min_years =? 0)%Z && str_raises min_years then Raise ValueError
  else
  let semantic_query :=
    String.append (join ", " skills)
      (if (min_years =? 0)%Z then EmptyString
       else String.append ", " (String.append (of_int min_years) " years")) in
  Query semantic_query 10 false (fun candidates =>
    let rescored := map (skills_row skills min_years) candidates in
    match sort_rows rescored with
    | None => Raise TypeError
    | Some rescored =>
        Ret {| results := map scored_entry (firstn 5 rescored);
               search_type := None |}
    end).

Definition education_row (levels : list string) (c : candidate) : row :=
  let edu_score := score_education (doc c) levels in
  {| combined := add (sub f1_0 (dist c)) (mul f0_4 edu_score); cand := c |}.

Definition education_entry (levels : list string) (search_type : string) (r : row)
  : entry :=
  let found_keywords := find_education_keywords (doc (cand r)) levels in
  {| e_id := rid (cand r);
     e_score := Some (round4 (combined r));
     e_similarity := similarity (cand r);
     e_search_type := Some search_type;
     e_education_keywords :=
       Some (match found_keywords with
             | [] => "No specific education keywords found"
             | _ => join ", " found_keywords
             end);
     e_found_keywords := found_keywords |}.

Definition api_search_education (form : list (string * string)) : handler response :=
  let edu_input := strip (form_get form "levels" EmptyString) in
  let levels := comma_list edu_input in
  let semantic_query := String.append "candidates with " (join ", " levels) in
  Query semantic_query 30 false (fun candidates =>
    let keyword_filtered :=
      filter (fun c => keyword_filter_education (doc c) levels) candidates in
    let branch :=
      match keyword_filtered with
      | _ :: _ =>
          (sort_rows (map (education_row levels) keyword_filtered),
           keyword_search_type (List.length keyword_filtered))
      | [] =>
          (sort_rows (map (education_row levels) candidates),
           semantic_search_type)
      end in
    match fst branch with
    | None => Raise TypeError
    | Some rescored =>
        Ret {| results := map (education_entry levels (snd branch)) (firstn 5 rescored);
               search_type := Some (snd branch) |}
    end).

Definition api_search_general (form : list (string * string)) : handler response :=
  let q := strip (form_get form "q" EmptyString) in
  let include_notes := String.eqb (lower (form_get form "include_notes" "n")) "y" in
  Query q 5 include_notes (fun results =>
    Ret {| results := map plain_entry results; search_type := None |}).

End Handlers.

End WebApp.

(* ================================================================= *)
(** ** The search functions of [hiresight_engine.py] *)

Module HireSight.
Import PyStr Re Float PySort Scorer Engine.

Definition keywords : list (string * list string) :=
  [ ("phd", ["phd"; "doctor of philosophy"]);
    ("masters", ["masters"; "m.s."; "ms "; "m.tech"; "mtech"; "m.sc"; "msc"]);
    ("bachelors", ["bachelors"; "b.e."; "btech"; "b.tech"; "b.sc"; "bsc"; "bca"; "b.eng"]) ].

(** One point for each requested level one of whose keywords occurs. *)
Definition score_education (text : string) (levels : list string) : float :=
  let text_lower := lower text in
  fold_left
    (fun score level =>
       let kws := match Matcher.dict_get keywords (lower level) with
                  | Some kws => kws
                  | None => []
                  end in
       if any_in kws text_lower then add score f1_0 else score)
    levels f0_0.

Section Searches.
Variable round4 : float -> float.

Definition search_by_jd (jd : string) (top_k : nat) : handler (list entry) :=
  Query jd top_k false (fun results =>
    Ret (map (WebApp.plain_entry round4) results)).

(** [", ".join(skills) + (f", {min_years} years" if min_years else "")],
    when the f-string does not raise. *)
Definition skills_query (skills : list string) (min_years : Z) : string :=
  String.append (join ", " skills)
    (if (min_years =? 0)%Z then EmptyString
     else String.append ", " (String.append (of_int min_years) " years")).

(** [top_k] is a count, as every caller gives it; [min_years] is any
    integer. *)
Definition search_by_skills (skills : list string) (min_years : Z) (top_k : nat)
  : handler (list entry) :=
  if negb (min_years =? 0)%Z && str_raises min_years then Raise ValueError
  else
  Query (skills_query skills min_years) top_k false (fun candidates =>
    let rescored := map (WebApp.skills_row skills min_years) candidates in
    match sort_rows rescored with
    | None => Raise TypeError
    | Some rescored => Ret (map (WebApp.scored_entry round4) (firstn top_k rescored))
    end).

Definition education_row (levels : list string) (c : candidate) : row :=
  let edu_score := score_education (doc c) levels in
  {| combined := add (sub f1_0 (dist c)) (mul f0_4 edu_score); cand := c |}.

Definition search_by_education (levels : list string) (top_k : nat)
  : handler (list entry) :=
  let semantic_query := String.append "candidates with " (join ", " levels) in
  Query semantic_query top_k false (fun candidates =>
    let rescored := map (education_row levels) candidates in
    match sort_rows rescored with
    | None => Raise TypeError
    | Some rescored => Ret (map (WebApp.scored_entry round4) (firstn top_k rescored))
    end).
End Searches.

End HireSight.

(* ================================================================= *)
(** ** Vocabulary of the properties *)

Import PyStr Re Matcher Engine WebApp.

Definition by_ordinal (a b : EducationMatch) : bool := (ordinal a <? ordinal b)%Z.

Definition ordinal_descending (a b : EducationMatch) : Prop := (ordinal b <= ordinal a)%Z.

(** The keywords the patterns of one level find in a text, and the
    confidence [find_education_matches] gives that level. *)
Definition surface_forms (lvl text : string) : list string :=
  match dict_get education_patterns lvl with
  | Some patterns => keywords_of patterns (lower text)
  | None => []
  end.

Definition level_confidence (lvl text : string) : Float.float :=
  calculate_confidence (surface_forms lvl text)
    (lower (extract_education_section text)) lvl.

(** A line contains one of the header keywords, or one of the closing
    keywords, as a substring whatever the case. *)
Definition has_header (line : string) : bool := any_in education_keywords (lower line).
Definition has_closing (line : string) : bool := any_in section_keywords (lower line).

(** The section the specification describes: from the first header line to
    the line before the next line with a closing keyword. *)
Fixpoint until_closing (lines : list string) : list string :=
  match lines with
  | [] => []
  | line :: rest => if has_closing line then [] else line :: until_closing rest
  end.

Fixpoint described_lines (lines : list string) : list string :=
  match lines with
  | [] => []
  | line :: rest =>
      if has_header line then line :: until_closing rest else described_lines rest
  end.

Definition described_section (text : string) : string :=
  join (String newline EmptyString) (described_lines (split newline text)).

(** A keyword that begins and ends with a character that is not white space. *)
Definition solid (k : string) : bool :=
  match k with
  | EmptyString => false
  | String c _ =>
      negb (is_space c) &&
      match last_char None k with
      | Some d => negb (is_space d)
      | None => false
      end
  end.

(** A number as a triple of integers whose lexicographic order is the order
    of [SFcompare]. *)
Definition rank (x : Float.float) : Z * Z * Z :=
  match x with
  | S754_infinity true => (-2, 0, 0)%Z
  | S754_finite true m e => (-1, - e, - Z.pos m)%Z
  | S754_zero _ => (0, 0, 0)%Z
  | S754_finite false m e => (1, e, Z.pos m)%Z
  | S754_infinity false => (2, 0, 0)%Z
  | S754_nan => (3, 0, 0)%Z
  end.

Definition lt3 (p q : Z * Z * Z) : Prop :=
  let '(p1, p2, p3) := p in
  let '(q1, q2, q3) := q in
  (p1 < q1 \/ (p1 = q1 /\ (p2 < q2 \/ (p2 = q2 /\ p3 < q3))))%Z.

Definition row_id (r : row) : string := rid (cand r).

(** A row whose composite score is a number. *)
Definition is_scored (r : row) : Prop := Float.is_number (combined r) = true.

(** [row_before a b]: [a] has the greater composite score, or the two scores
    are equal and [a] has the greater id. *)
Definition row_before (a b : row) : Prop :=
  Float.ltb (combined b) (combined a) = true \/
  (Float.eqb (combined a) (combined b) = true /\
   String.ltb (row_id b) (row_id a) = true).

(** The order the specification describes: by composite score descending,
    equal scores in the order of the pool. *)
Definition stable_by_composite (rows : list row) : list row :=
  PySort.sort_desc (fun a b => Float.ltb (combined a) (combined b)) rows.

(** What the handlers read from the form. *)
Definition skills_of (form : list (string * string)) : list string :=
  comma_list (strip (form_get form "skills" EmptyString)).

Definition years_of (form : list (string * string)) : Z :=
  parse_years (strip (form_get form "years" "0")).

Definition levels_of (form : list (string * string)) : list string :=
  comma_list (strip (form_get form "levels" EmptyString)).

Definition education_query (levels : list string) : string :=
  String.append "candidates with " (join ", " levels).

(** The composite score of the specification. *)
Definition composite (weight distance heuristic : Float.float) : Float.float :=
  Float.add (Float.sub Float.f1_0 distance) (Float.mul weight heuristic).

Definition one_call (q : string) (n : nat) (notes : bool) : list call :=
  [ {| c_query := q; c_top_k := n; c_include_notes := notes |} ].

(** The row the specification describes for a candidate: the composite of
    a weight and of a heuristic score of the text of the candidate. *)
Definition scored_by (weight : Float.float) (heuristic : string -> Float.float)
  (c : candidate) : row :=
  {| combined := composite weight (dist c) (heuristic (doc c)); cand := c |}.

(** An entry carries the id of a candidate, its rounded composite score and
    its rounded similarity. *)
Definition scores (round4 : Float.float -> Float.float) (weight : Float.float)
  (heuristic : string -> Float.float) (e : entry) (c : candidate) : Prop :=
  e_id e = rid c /\
  e_score e = Some (round4 (composite weight (dist c) (heuristic (doc c)))) /\
  e_similarity e = round4 (Float.sub Float.f1_0 (dist c)).

(** [entries] is the re-ranking of [pool] with a weight and a heuristic:
    the rows of the pool, each with its composite score, are sorted by
    [sort_rows], and the entries are made by [mk] from the first [n] of
    them; so there are as many entries as the smaller of [n] and the size of
    the pool, each carries the composite score of a candidate of the pool,
    and every candidate of a pool of at most [n] has its entry. *)
Definition composite_ranking (round4 : Float.float -> Float.float)
  (weight : Float.float) (heuristic : string -> Float.float)
  (pool : list candidate) (n : nat) (mk : row -> entry) (entries : list entry) : Prop :=
  exists sorted,
    sort_rows (map (scored_by weight heuristic) pool) = Some sorted /\
    Permutation sorted (map (scored_by weight heuristic) pool) /\
    entries = map mk (firstn n sorted) /\
    List.length entries = Nat.min n (List.length pool) /\
    (forall e, In e entries ->
       exists c, In c pool /\ scores round4 weight heuristic e c) /\
    (List.length pool <= n ->
     forall c, In c pool ->
       exists e, In e entries /\ scores round4 weight heuristic e c).

(** [entries] are made by [mk] from the first [n] rows of [rescored] put in
    order: greater composite score first, and of two rows with equal
    composite scores the one with the greater id first. *)
Definition ranked_output (rescored : list row) (n : nat) (mk : row -> entry)
  (entries : list entry) : Prop :=
  exists sorted,
    entries = map mk (firstn n sorted) /\
    Permutation sorted rescored /\
    StronglySorted row_before sorted /\
    StronglySorted row_before (firstn n sorted).

(** The candidates the education search of the web application re-ranks,
    and the tag it gives the response: the candidates that pass the strict
    filter, or the whole pool when none does. *)
Definition passing (levels : list string) (pool : list candidate) : list candidate :=
  filter (fun c => strict_education_filter (doc c) levels) pool.

Definition reranked_pool (levels : list string) (pool : list candidate) : list candidate :=
  match passing levels pool with
  | [] => pool
  | kept => kept
  end.

Definition path_tag (levels : list string) (pool : list candidate) : string :=
  match passing levels pool with
  | [] => semantic_search_type
  | kept => keyword_search_type (List.length kept)
  end.

(* ================================================================= *)
(** ** Cleaning of resume text ([clean_resume_text], [clean_resume]) *)

Module Cleaner.
Import PyStr Re.

(** [re.sub(r, repl, text)] for a pattern that cannot match the empty
    string: each match, left to right and without overlap, gives way to
    [repl]; [skip] counts the characters of the last match still to pass. *)
Fixpoint sub_scan (r : regex) (repl : string) (prev : option ascii) (s : string)
  (skip : nat) : string :=
  match skip with
  | S n =>
      match s with
      | EmptyString => EmptyString
      | String c s' => sub_scan r repl (Some c) s' n
      end
  | O =>
      match s with
      | EmptyString => EmptyString
      | String c s' =>
          match hd_error (run r prev s) with
          | Some (String a m, _) =>
              String.append repl (sub_scan r repl (Some c) s' (String.length m))
          | _ => String c (sub_scan r repl (Some c) s' 0)
          end
      end
  end.

Definition sub (r : regex) (repl text : string) : string :=
  sub_scan r repl None text 0.

(** The pattern of one or more white-space characters. *)
Definition white_space_run : regex := Seq (Cls is_space) (Star is_space).

(** The characters the second pattern leaves: word characters, white space,
    the full stop and the comma. The classes are the ASCII ones: the
    properties of the cleaner that depend on them are stated of ASCII
    text. *)
Definition kept (c : ascii) : bool :=
  is_word c || is_space c || Ascii.eqb c "." || Ascii.eqb c ",".

Definition not_kept : regex := Cls (fun c => negb (kept c)).

Definition clean_resume_text (text : string) : string :=
  let text := sub white_space_run " " text in
  let text := sub not_kept EmptyString text in
  strip text.

End Cleaner.

(* ================================================================= *)
(** ** Loading the documents and the bootstrap of the index

    [load_documents] and [index_if_needed] of [enhanced_web_app.py] (the
    same in [app.py] and [web_app.py]; [hiresight_engine.py] also asks for
    the suffix [.txt], here [txt_only], and returns whether it indexed).
    The file system is read only: a folder is absent, or a list of entries,
    each a name with the text of the file or with nothing when the entry is
    not a file. The three lists the source appends to side by side are one
    list of records. *)

Module Indexer.
Import PyStr.

Definition folder : Type := option (list (string * option string)).

Record loaded : Type := {
  l_doc : string;
  l_id : string;
  l_meta : list (string * string)
}.

(** [s.endswith(suffix)] *)
Fixpoint ends_with (suffix s : string) : bool :=
  String.eqb suffix s ||
  match s with
  | EmptyString => false
  | String _ s' => ends_with suffix s'
  end.

Definition load_entry (txt_only : bool) (doc_type : string) (e : string * option string)
  : list loaded :=
  match snd e with
  | None => []
  | Some content =>
      if negb txt_only || ends_with ".txt" (fst e) then
        let text := strip content in
        if truthy text
        then [ {| l_doc := text;
                  l_id := fst e;
                  l_meta := [("type", doc_type); ("filename", fst e)] |} ]
        else []
      else []
  end.

Definition load_folder (txt_only : bool) (doc_type : string) (f : folder) : list loaded :=
  match f with
  | None => []
  | Some entries => flat_map (load_entry txt_only doc_type) entries
  end.

Definition load_documents (txt_only : bool) (cleaned_folder interview_folder : folder)
  : list loaded :=
  load_folder txt_only "resume" cleaned_folder ++ load_folder txt_only "note" interview_folder.

(** The arguments of one [collection.add]. *)
Record item : Type := {
  it_document : string;
  it_embedding : list Float.float;
  it_id : string;
  it_metadata : list (string * string)
}.

Section Bootstrap.
(** The collection of the vector store, the ids [collection.get()] reports,
    [collection.add] and the embedding model. *)
Variable collection : Type.
Variable get_ids : collection -> list string.
Variable add : collection -> item -> collection.
Variable embed_text : string -> list Float.float.

Definition add_document (c : collection) (d : loaded) : collection :=
  add c {| it_document := l_doc d;
           it_embedding := embed_text (l_doc d);
           it_id := l_id d;
           it_metadata := l_meta d |}.

Definition index_if_needed (txt_only : bool) (cleaned_folder interview_folder : folder)
  (c : collection) : collection * bool :=
  match get_ids c with
  | [] =>
      (fold_left add_document (load_documents txt_only cleaned_folder interview_folder) c,
       true)
  | _ => (c, false)
  end.

End Bootstrap.

End Indexer.

(* ================================================================= *)
(** ** Vocabulary of the further properties *)

(** The patterns of a level find something in the text. *)
Definition has_forms (text lvl : string) : bool :=
  match surface_forms lvl text with
  | [] => false
  | _ => true
  end.

(** The match [find_education_matches] builds for a level. *)
Definition match_of (text lvl : string) : EducationMatch :=
  {| level := lvl;
     confidence := level_confidence lvl text;
     context := extract_education_section text;
     keywords_found := surface_forms lvl text |}.

(** The character [c] occurs in [s]. *)
Definition char_in (c : ascii) (s : string) : Prop := In c (list_ascii_of_string s).

(** The body of [get_highest_education] after the matches are found. *)
Definition resolve (found : list EducationMatch) : option EducationMatch :=
  match found with
  | [] => None
  | [m] => Some m
  | _ =>
      let sorted := PySort.sort_desc by_ordinal found in
      match find good_confidence sorted with
      | Some m => Some m
      | None => hd_error sorted
      end
  end.

(** A match with another context. *)
Definition with_context (ctx : string) (m : EducationMatch) : EducationMatch :=
  {| level := level m;
     confidence := confidence m;
     context := ctx;
     keywords_found := keywords_found m |}.

(** The part of the skill score that counts the required skills found. *)
Definition skill_hits (text : string) (required_skills : list string) : Float.float :=
  fold_left
    (fun score skill =>
       if contains (lower skill) (lower text) then Float.add score Float.f1_0 else score)
    required_skills Float.f0_0.

(** A text that is empty or begins with a character that is no digit. *)
Definition no_digit_ahead (s : string) : Prop :=
  match s with
  | EmptyString => True
  | String c _ => is_digit c = false
  end.

(** A text of ASCII characters. On such a text the classes [\w] and [\s]
    of [re] and the white space of [str.strip] are those of [PyStr]; beyond
    ASCII Python also counts accented letters as word characters and the
    no-break space as white space. *)
Definition ascii_text (s : string) : Prop :=
  forall c, char_in c s -> (code c < 128)%N.

(** Each maximal run of white space gives way to one blank; [in_run] tells
    that the character before was white space. *)
Fixpoint squeeze (in_run : bool) (s : string) : string :=
  match s with
  | EmptyString => EmptyString
  | String c s' =>
      if is_space c
      then if in_run then squeeze true s' else String " " (squeeze true s')
      else String c (squeeze false s')
  end.

(** The characters of [s] that satisfy [p], in order. *)
Fixpoint only (p : ascii -> bool) (s : string) : string :=
  match s with
  | EmptyString => EmptyString
  | String c s' => if p c then String c (only p s') else only p s'
  end.

(* ================================================================= *)
(** * Properties *)

Example findall_phd :
  findall (word_pattern "ph\.?d\.?|doctorate") "a ph.d. and phd, doctorates ph.d"
  = ["ph.d"; "phd"; "ph.d"].
Proof. vm_compute. reflexivity. Qed.

(** The literals are the doubles Python reads: 0.3 is 0x1.3333333333333p-2,
    0.1 is 0x1.999999999999ap-4, 0.6 is 0x1.3333333333333p-1. *)
Example literal_bits :
  Float.f0_3 = S754_finite false 0x13333333333333 (-54) /\
  Float.f0_1 = S754_finite false 0x1999999999999a (-56) /\
  Float.f0_6 = S754_finite false 0x13333333333333 (-53) /\
  Float.f0_5 = S754_finite false 0x10000000000000 (-53) /\
  Float.f1_1 = S754_finite false 0x1199999999999a (-52).
Proof. vm_compute. repeat split. Qed.

(** The texts of [test_fixed_matcher] and [test_education_fixes.py]. The
    third text has no form the masters patterns accept ("masters" is not one
    of the alternatives), so the filter is false there although the script
    prints an expectation of true. *)
Example repository_test_cases :
  strict_education_filter
    "2015 B.T ech. ECE from ITER, NAME O NAME with 7.21 CGPA 2011 12thf rom NAME School"
    ["phd"] = false /\
  strict_education_filter
    "Mtech In Artificial Intelligence Data Science Engineering JULY 2024 present P UNJABI UNIVERSITY Patiala,Punjab,india Btech In Computer Science Engineering 2015 2019"
    ["masters"] = true /\
  strict_education_filter
    "Masters in Computer Science from University of Texas, B.Sc in Mathematics from State University"
    ["masters"] = false /\
  strict_education_filter
    "PhD in Computer Science from MIT, Masters in Mathematics from Stanford"
    ["phd"] = true.
Proof. vm_compute. repeat split. Qed.

(** The matcher on texts with many forms, as [re.findall] returns them. *)
Example surface_forms_masters :
  surface_forms "masters" "M.S. in CS; m.e. (hons), me and ma. B.E. b.a. be m.a"
  = ["m.s"; "m.e"; "me"; "ma"; "m.a"; "me"; "ma"] /\
  surface_forms "bachelors" "M.S. in CS; m.e. (hons), me and ma. B.E. b.a. be m.a"
  = ["b.e"; "b.a"; "be"] /\
  surface_forms "masters"
    "I did my M.Tech. at IIT and B.Com, MCA. master's degree, master of arts"
  = ["m.tech"; "mca"; "master's"; "master of"; "m.tech"; "mca"; "master's"; "master of"] /\
  surface_forms "phd" "a ph.d. and phd, doctorates ph.d"
  = ["ph.d"; "phd"; "ph.d"; "ph.d"; "phd"; "ph.d"].
Proof. vm_compute. repeat split. Qed.

Example years_pattern_matches :
  Scorer.years_found
    "5+ years in ml, 12 yrs, 3years, 20year, 9 yearss 4  +  yrs 7 + years"
  = [5%Z; 12%Z; 3%Z; 20%Z; 4%Z; 7%Z].
Proof. vm_compute. reflexivity. Qed.

Example keyword_tag : keyword_search_type 12 = "Enhanced Keyword Match (12 found)".
Proof. vm_compute. reflexivity. Qed.

(** The query of the skills searches, as the f-string writes the years. *)
Example skills_query_sign :
  HireSight.skills_query ["python"; "sql"] (-3) = "python, sql, -3 years" /\
  HireSight.skills_query ["python"] 0 = "python" /\
  HireSight.skills_query [] 12 = ", 12 years".
Proof. vm_compute. repeat split. Qed.

(** The conversions between [int] and [str]: leading zeros are read and
    count towards the limit of [int], and [str] writes the sign. *)
Example digit_limit :
  int_exn "007" = Some 7%N /\
  int_exn (string_of_list_ascii (repeat "0"%char 4300)) = Some 0%N /\
  int_exn (string_of_list_ascii (repeat "0"%char 4301)) = None /\
  of_int (-3) = "-3" /\ of_int 0 = "0" /\ of_int 120 = "120" /\
  str_raises (-3) = false.
Proof. vm_compute. repeat split. Qed.

(* ================================================================= *)
(** ** Facts about strings *)

Section StringFacts.

Lemma append_empty_r (s : string) : String.append s EmptyString = s.
Proof. induction s as [|c s IH]; simpl; [reflexivity | now rewrite IH]. Qed.

Lemma append_assoc (a b c : string) :
  String.append (String.append a b) c = String.append a (String.append b c).
Proof. induction a as [|x a IH]; simpl; [reflexivity | now rewrite IH]. Qed.

Lemma prefix_append (k s : string) :
  prefix k s = true <-> exists post, s = String.append k post.
Proof.
  revert s. induction k as [|a k IH]; intros s.
  - destruct s; simpl; split; intros; try reflexivity; eexists; reflexivity.
  - destruct s as [|b s]; simpl.
    + split; [discriminate | intros [post H]; discriminate].
    + destruct (ascii_dec a b) as [->|Hne].
      * rewrite IH. split; intros [post H]; exists post.
        -- now rewrite H.
        -- now inversion H.
      * split; [discriminate | intros [post H]; congruence].
Qed.

Lemma contains_substring (k s : string) :
  contains k s = true <-> substring_of k s.
Proof.
  unfold substring_of. induction s as [|c s IH]; cbn [contains].
  - rewrite orb_false_r, prefix_append. split.
    + intros [post H]. exists EmptyString, post. exact H.
    + intros [pre [post H]]. destruct pre; simpl in H.
      * now exists post.
      * discriminate.
  - rewrite orb_true_iff, prefix_append, IH. split.
    + intros [[post H] | [pre [post H]]].
      * exists EmptyString, post. exact H.
      * exists (String c pre), post. simpl. now rewrite H.
    + intros [pre [post H]]. destruct pre as [|x pre]; simpl in H.
      * left. now exists post.
      * right. inversion H. now exists pre, post.
Qed.

End StringFacts.

(* ================================================================= *)
(** ** Facts about the matcher of regular expressions *)

Section RegexFacts.

Lemma last_char_append (prev : option ascii) (a : string) (c : ascii) :
  last_char prev (String.append a (String c EmptyString)) = Some c.
Proof. revert prev. induction a as [|x a IH]; intros prev; simpl; auto. Qed.

Lemma star_runs_split (p : ascii -> bool) (s : string) (mr : string * string) :
  In mr (star_runs p s) -> s = String.append (fst mr) (snd mr).
Proof.
  revert mr. induction s as [|c s IH]; intros mr; simpl.
  - intros [<-|[]]. reflexivity.
  - destruct (p c).
    + rewrite in_app_iff, in_map_iff. intros [[x [<- Hx]] | [<-|[]]]; simpl.
      * now rewrite <- (IH x Hx).
      * reflexivity.
    + intros [<-|[]]. reflexivity.
Qed.

(** Every result of [run] splits the text it was given. *)
Lemma run_split (r : regex) :
  forall prev s mr, In mr (run r prev s) -> s = String.append (fst mr) (snd mr).
Proof.
  induction r as [|c|p|r1 IH1 r2 IH2|r1 IH1 r2 IH2|r IH|p|]; intros prev s mr; simpl.
  - intros [<-|[]]. reflexivity.
  - destruct s as [|d s]; [intros []|].
    destruct (Ascii.eqb c d); [intros [<-|[]]; reflexivity | intros []].
  - destruct s as [|d s]; [intros []|].
    destruct (p d); [intros [<-|[]]; reflexivity | intros []].
  - rewrite in_flat_map. intros [m1 [H1 H]].
    rewrite in_map_iff in H. destruct H as [m2 [<- H2]]. simpl.
    rewrite append_assoc, <- (IH2 _ _ _ H2). exact (IH1 _ _ _ H1).
  - rewrite in_app_iff. intros [H|H]; eauto.
  - rewrite in_app_iff. intros [H|[<-|[]]]; eauto.
  - apply star_runs_split.
  - destruct (at_boundary prev s); [intros [<-|[]]; reflexivity | intros []].
Qed.

Lemma matched_at_substring (r : regex) (text kw : string) :
  matched_at r text kw -> substring_of kw text.
Proof. intros [pre [post [H _]]]. now exists pre, post. Qed.

Lemma scan_matched (r : regex) (s : string) :
  forall pre skip kw,
    In kw (scan r (last_char None pre) s skip) ->
    matched_at r (String.append pre s) kw.
Proof.
  induction s as [|c s IH]; intros pre skip kw.
  - destruct skip as [|n]; [|intros []].
    cbn [scan].
    destruct (run r (last_char None pre) EmptyString) as [|[m rest] res] eqn:Hrun.
    + intros [].
    + assert (Hs : EmptyString = String.append m rest)
        by (apply (run_split r (last_char None pre) EmptyString (m, rest));
            rewrite Hrun; now left).
      destruct m as [|a m]; [|discriminate Hs].
      simpl in Hs. subst rest.
      destruct (find nonempty_match ((EmptyString, EmptyString) :: res))
        as [[[|a m] rest]|] eqn:Hfind; simpl;
        try (intros [<-|[]]; exists pre, EmptyString; split;
             [reflexivity | simpl; rewrite Hrun; now left]).
      apply find_some in Hfind. destruct Hfind as [Hin _].
      rewrite <- Hrun in Hin. apply run_split in Hin. discriminate Hin.
  - assert (Hnext : forall k, In kw (scan r (Some c) s k) ->
              matched_at r (String.append pre (String c s)) kw).
    { intros k Hk.
      replace (String.append pre (String c s))
        with (String.append (String.append pre (String c EmptyString)) s)
        by (rewrite append_assoc; reflexivity).
      apply (IH _ k). now rewrite last_char_append. }
    assert (Hhere : forall m rest,
              In (m, rest) (run r (last_char None pre) (String c s)) ->
              matched_at r (String.append pre (String c s)) m).
    { intros m rest Hin. exists pre, rest.
      pose proof (run_split _ _ _ _ Hin) as Hs. simpl in Hs.
      rewrite <- Hs. split; [reflexivity | exact Hin]. }
    destruct skip as [|n]; [|apply Hnext].
    cbn [scan].
    destruct (run r (last_char None pre) (String c s)) as [|[m rest] res] eqn:Hrun.
    + simpl. apply Hnext.
    + destruct m as [|a m].
      * destruct (find nonempty_match ((EmptyString, rest) :: res))
          as [[[|a m] rest']|] eqn:Hfind; simpl.
        -- intros [<-|H]; [apply (Hhere _ rest); now left | eapply Hnext; eauto].
        -- apply find_some in Hfind. destruct Hfind as [Hin _].
           intros [<-|[<-|H]];
             [apply (Hhere _ rest); now left | eapply Hhere; eauto
             | eapply Hnext; eauto].
        -- intros [<-|H]; [apply (Hhere _ rest); now left | eapply Hnext; eauto].
      * simpl. intros [<-|H]; [apply (Hhere _ rest); now left | eapply Hnext; eauto].
Qed.

Lemma findall_matched (r : regex) (text kw : string) :
  In kw (findall r text) -> matched_at r text kw.
Proof. intros H. apply (scan_matched r text EmptyString 0 kw H). Qed.

End RegexFacts.

(* ================================================================= *)
(** ** Facts about the sort *)

Section SortFacts.
Import PySort.
Context {A : Type}.

Section TotalOrder.
Variable lt : A -> A -> bool.

Lemma insert_desc_perm (x : A) (l : list A) :
  Permutation (insert_desc lt x l) (x :: l).
Proof.
  induction l as [|y l IH]; simpl.
  - apply Permutation_refl.
  - destruct (lt x y).
    + eapply perm_trans; [apply perm_skip, IH | apply perm_swap].
    + apply Permutation_refl.
Qed.

Lemma sort_desc_perm (l : list A) : Permutation (sort_desc lt l) l.
Proof.
  induction l as [|x l IH]; simpl.
  - apply perm_nil.
  - eapply perm_trans; [apply insert_desc_perm | apply perm_skip, IH].
Qed.

Lemma sort_desc_in (l : list A) (x : A) : In x (sort_desc lt l) <-> In x l.
Proof.
  split; apply Permutation_in;
    [apply sort_desc_perm | apply Permutation_sym, sort_desc_perm].
Qed.

(** [before a b]: the sort may leave [a] in front of [b]. The order is
    only asked to behave on the elements of [dom], and to decide between
    elements that are [apart]. *)
Variable before : A -> A -> Prop.
Variable dom : A -> Prop.
Variable apart : A -> A -> Prop.
Hypothesis before_trans :
  forall a b c, dom a -> dom b -> dom c -> before a b -> before b c -> before a c.
Hypothesis lt_before :
  forall a b, dom a -> dom b -> apart a b -> lt a b = true -> before b a.
Hypothesis not_lt_before :
  forall a b, dom a -> dom b -> apart a b -> lt a b = false -> before a b.

Lemma insert_desc_sorted (x : A) (l : list A) :
  dom x -> Forall dom l -> Forall (apart x) l ->
  StronglySorted before l -> StronglySorted before (insert_desc lt x l).
Proof.
  intros Hx. induction l as [|y l IH]; intros Hd Ha Hs; simpl.
  - constructor; constructor.
  - inversion Hs as [|? ? Hl Hy]; subst.
    inversion Hd as [|? ? Hdy Hdl]; subst.
    inversion Ha as [|? ? Hay Hal]; subst.
    destruct (lt x y) eqn:Hxy.
    + constructor; [now apply IH|].
      rewrite Forall_forall. intros z Hz.
      apply (Permutation_in _ (insert_desc_perm x l)) in Hz.
      destruct Hz as [<-|Hz]; [now apply lt_before|].
      rewrite Forall_forall in Hy. now apply Hy.
    + constructor; [exact Hs|].
      constructor; [now apply not_lt_before|].
      rewrite Forall_forall in *. intros z Hz.
      apply before_trans with y; auto.
Qed.

Lemma sort_desc_sorted (l : list A) :
  Forall dom l -> ForallOrdPairs apart l ->
  StronglySorted before (sort_desc lt l).
Proof.
  induction l as [|x l IH]; intros Hd Ha; simpl; [constructor|].
  inversion Hd as [|? ? Hdx Hdl]; subst.
  inversion Ha as [|? ? Hax Hal]; subst.
  apply insert_desc_sorted; auto.
  - eapply Permutation_Forall; [apply Permutation_sym, sort_desc_perm | exact Hdl].
  - eapply Permutation_Forall; [apply Permutation_sym, sort_desc_perm | exact Hax].
Qed.
End TotalOrder.

Section FallibleOrder.
Variable lt : A -> A -> option bool.

Lemma insert_desc_exn_total (x : A) (l : list A) :
  (forall y, In y l -> lt x y <> None) ->
  insert_desc_exn lt x l = Some (insert_desc (decided lt) x l).
Proof.
  induction l as [|y l IH]; intros H; simpl; [reflexivity|].
  unfold decided at 1.
  destruct (lt x y) as [[|]|] eqn:Hxy.
  - rewrite IH; [reflexivity | intros z Hz; apply H; now right].
  - reflexivity.
  - exfalso. apply (H y); [now left | exact Hxy].
Qed.

Lemma sort_desc_exn_total (l : list A) :
  comparable lt l -> sort_desc_exn lt l = Some (sort_desc (decided lt) l).
Proof.
  induction l as [|x l IH]; simpl; [reflexivity|].
  intros [Hx Hl]. rewrite (IH Hl).
  apply insert_desc_exn_total. intros y Hy.
  apply Hx. now apply (sort_desc_in (decided lt) l y).
Qed.
End FallibleOrder.

End SortFacts.

(* ================================================================= *)
(** ** The matches of [find_education_matches] *)

Section MatchFacts.
Import PySort.

(** What [find_education_matches] records in a match of its result. *)
Lemma find_education_matches_inv text target_levels m :
  In m (find_education_matches text target_levels) ->
  exists patterns,
    In (level m) (levels_to_check target_levels) /\
    dict_get education_patterns (level m) = Some patterns /\
    keywords_found m = keywords_of patterns (lower text) /\
    keywords_found m <> [] /\
    confidence m =
      calculate_confidence (keywords_found m)
        (lower (extract_education_section text)) (level m) /\
    context m = extract_education_section text.
Proof.
  unfold find_education_matches. rewrite in_flat_map.
  intros [lvl [Hlvl Hm]]. unfold match_level in Hm.
  destruct (dict_get education_patterns lvl) as [patterns|] eqn:Hpat; [|destruct Hm].
  destruct (keywords_of patterns (lower text)) as [|k ks] eqn:Hkw; [destruct Hm|].
  destruct Hm as [<-|[]]. exists patterns. simpl.
  repeat split; auto. discriminate.
Qed.

Lemma hd_error_in {A : Type} (l : list A) (x : A) : hd_error l = Some x -> In x l.
Proof. destruct l; simpl; [discriminate | intros [= ->]; now left]. Qed.

Lemma get_highest_education_in text target_levels m :
  get_highest_education text target_levels = Some m ->
  In m (find_education_matches text target_levels).
Proof.
  unfold get_highest_education.
  destruct (find_education_matches text target_levels) as [|m1 [|m2 ms]] eqn:Hms.
  - discriminate.
  - intros [= ->]. now left.
  - set (lt := fun a b => (ordinal a <? ordinal b)%Z).
    destruct (find good_confidence (sort_desc lt (m1 :: m2 :: ms))) as [m'|] eqn:Hf.
    + intros [= ->]. apply find_some in Hf. destruct Hf as [Hin _].
      exact (proj1 (sort_desc_in lt _ _) Hin).
    + intros H. apply hd_error_in in H.
      exact (proj1 (sort_desc_in lt _ _) H).
Qed.

End MatchFacts.

(** C9. Every string in the [keywords_found] of a match produced by
    [find_education_matches], and so of the match [get_highest_education]
    returns, is the text one of the configured patterns of that level
    consumes at some position of the lower-cased input: it is a substring
    of the lower-cased input, never a value made up elsewhere. *)
Theorem keywords_found_from_input
  (text : string) (target_levels : option (list string))
  (m : EducationMatch) (kw : string) :
  In m (find_education_matches text target_levels) \/
  get_highest_education text target_levels = Some m ->
  In kw (keywords_found m) ->
  exists patterns pattern,
    dict_get education_patterns (level m) = Some patterns /\
    In pattern patterns /\
    matched_at pattern (lower text) kw /\
    substring_of kw (lower text) /\
    contains kw (lower text) = true.
Proof.
  intros Hm Hkw.
  assert (Hin : In m (find_education_matches text target_levels))
    by (destruct Hm as [H|H]; [exact H | now apply get_highest_education_in]).
  destruct (find_education_matches_inv _ _ _ Hin) as [patterns [_ [Hpat [Hk _]]]].
  rewrite Hk in Hkw. unfold keywords_of in Hkw. rewrite in_flat_map in Hkw.
  destruct Hkw as [pattern [Hp Hfound]].
  apply findall_matched in Hfound.
  exists patterns, pattern. repeat split; auto.
  - now apply matched_at_substring with pattern.
  - apply contains_substring. now apply matched_at_substring with pattern.
Qed.

Lemma keywords_found_from_input_witness :
  exists patterns pattern,
    dict_get education_patterns "masters" = Some patterns /\
    In pattern patterns /\
    matched_at pattern (lower "MBA, Pune University") "mba" /\
    substring_of "mba" (lower "MBA, Pune University") /\
    contains "mba" (lower "MBA, Pune University") = true.
Proof.
  apply (keywords_found_from_input "MBA, Pune University" (Some ["masters"])
           {| level := "masters"; confidence := Float.f1_0;
              context := "MBA, Pune University"; keywords_found := ["mba"; "mba"] |}).
  - left. vm_compute. left. reflexivity.
  - simpl. left. reflexivity.
Defined.

(* ================================================================= *)
(** ** Confidence *)

Section ConfidenceFacts.
Import Float.

Lemma mem_exists (x : string) (xs : list string) : mem x xs = true <-> In x xs.
Proof.
  unfold mem. rewrite existsb_exists. split.
  - intros [y [Hy Heq]]. apply String.eqb_eq in Heq. now subst.
  - intros H. exists x. split; [exact H | apply String.eqb_refl].
Qed.

(** Some strong keyword is among the matched ones exactly when some
    matched keyword is a strong one. *)
Lemma strong_keyword_swap (kws strong : list string) :
  existsb (fun keyword => mem keyword kws) strong =
  existsb (fun keyword => mem keyword strong) kws.
Proof.
  apply eq_true_iff_eq. rewrite !existsb_exists.
  split; intros [x [Hx Hm]]; apply mem_exists in Hm; exists x;
    (split; [exact Hm | now apply mem_exists]).
Qed.

End ConfidenceFacts.

(** C5. The confidence is 0.5, plus 0.3 when some matched keyword occurs in
    the education-section text, plus 0.2 when some matched keyword is one of
    phd, doctorate, masters, mba, btech, bachelor, minus 0.1 when the section
    text contains "experience" or "work", clamped to [0,1]; the additions
    are those of binary64, taken in this order, and the eight values they
    give are listed; every confidence lies between 0 and 1. *)
Theorem calculate_confidence_formula
  (keywords : list string) (section_text : string) (lvl : string) :
  let in_section := existsb (fun keyword => contains keyword section_text) keywords in
  let strong := existsb (fun keyword => mem keyword specific_keywords) keywords in
  let leaked := contains "experience" section_text || contains "work" section_text in
  let c := calculate_confidence keywords section_text lvl in
  c = Float.py_min Float.f1_0 (Float.py_max Float.f0_0
        (Float.sub
           (Float.add
              (Float.add Float.f0_5 (if in_section then Float.f0_3 else Float.f0_0))
              (if strong then Float.f0_2 else Float.f0_0))
           (if leaked then Float.f0_1 else Float.f0_0))) /\
  c = match in_section, strong, leaked with
      | false, false, false => Float.f0_5
      | true, false, false => Float.f0_8
      | false, true, false => Float.f0_7
      | true, true, false => Float.f1_0
      | false, false, true => Float.f0_4
      | true, false, true => S754_finite false 6305039478318695 (-53)
      | false, true, true => Float.f0_6
      | true, true, true => Float.f0_9
      end /\
  Float.leb Float.f0_0 c = true /\ Float.leb c Float.f1_0 = true.
Proof.
  intros in_section strong leaked c. subst c. unfold calculate_confidence.
  rewrite strong_keyword_swap. fold in_section strong leaked.
  destruct in_section, strong, leaked; vm_compute; repeat split.
Qed.

(* ================================================================= *)
(** ** The match of one level *)

Section DefaultLevels.

Lemma match_level_found text_lower section_text lvl patterns :
  dict_get education_patterns lvl = Some patterns ->
  keywords_of patterns text_lower <> [] ->
  match_level text_lower section_text lvl =
    [ {| level := lvl;
         confidence :=
           calculate_confidence (keywords_of patterns text_lower)
             (lower section_text) lvl;
         context := section_text;
         keywords_found := keywords_of patterns text_lower |} ].
Proof.
  intros Hp Hk. unfold match_level. rewrite Hp.
  destruct (keywords_of patterns text_lower); [contradiction | reflexivity].
Qed.

End DefaultLevels.

(* ================================================================= *)
(** ** Resolution of the dominant level *)

Section Resolution.
Import PySort.

Lemma flat_map_nil {A B : Type} (f : A -> list B) (l : list A) :
  flat_map f l = [] <-> forall x, In x l -> f x = [].
Proof.
  induction l as [|a l IH]; simpl.
  - split; [intros _ x [] | reflexivity].
  - split.
    + intros H x [<-|Hx].
      * now destruct (app_eq_nil _ _ H).
      * apply IH; [now destruct (app_eq_nil _ _ H) | exact Hx].
    + intros H. rewrite (H a (or_introl eq_refl)). simpl.
      apply IH. intros x Hx. apply H. now right.
Qed.

Lemma find_education_matches_nil text target_levels :
  find_education_matches text target_levels = [] <->
  forall lvl patterns pattern,
    In lvl (levels_to_check target_levels) ->
    dict_get education_patterns lvl = Some patterns ->
    In pattern patterns ->
    findall pattern (lower text) = [].
Proof.
  unfold find_education_matches. rewrite flat_map_nil. split.
  - intros H lvl patterns pattern Hl Hp Hin.
    specialize (H lvl Hl). unfold match_level in H. rewrite Hp in H.
    destruct (keywords_of patterns (lower text)) eqn:Hk; [|discriminate H].
    unfold keywords_of in Hk. rewrite flat_map_nil in Hk. now apply Hk.
  - intros H lvl Hl. unfold match_level.
    destruct (dict_get education_patterns lvl) as [patterns|] eqn:Hp; [|reflexivity].
    assert (Hk : keywords_of patterns (lower text) = []).
    { unfold keywords_of. apply flat_map_nil. intros p Hin. now apply (H lvl patterns). }
    now rewrite Hk.
Qed.

Lemma sort_by_ordinal_sorted (l : list EducationMatch) :
  StronglySorted ordinal_descending (sort_desc by_ordinal l).
Proof.
  apply (sort_desc_sorted by_ordinal ordinal_descending
           (fun _ => True) (fun _ _ => True));
    unfold ordinal_descending, by_ordinal.
  - intros a b c _ _ _; lia.
  - intros a b _ _ _ H. apply Z.ltb_lt in H. lia.
  - intros a b _ _ _ H. apply Z.ltb_ge in H. lia.
  - apply Forall_forall. auto.
  - induction l; constructor; [apply Forall_forall; auto | assumption].
Qed.

Lemma get_highest_education_none text target_levels :
  get_highest_education text target_levels = None <->
  find_education_matches text target_levels = [].
Proof.
  unfold get_highest_education.
  destruct (find_education_matches text target_levels) as [|m1 [|m2 ms]] eqn:Hms.
  - split; reflexivity.
  - split; discriminate.
  - split; [|discriminate].
    fold by_ordinal.
    destruct (find good_confidence (sort_desc by_ordinal (m1 :: m2 :: ms))); [discriminate|].
    destruct (sort_desc by_ordinal (m1 :: m2 :: ms)) eqn:Hs; [|discriminate].
    pose proof (sort_desc_perm by_ordinal (m1 :: m2 :: ms)) as Hp.
    rewrite Hs in Hp. apply Permutation_nil in Hp. discriminate Hp.
Qed.

Lemma level_of_pattern_table lvl patterns :
  dict_get education_patterns lvl = Some patterns ->
  lvl = "phd" \/ lvl = "masters" \/ lvl = "bachelors".
Proof.
  unfold education_patterns. cbn [dict_get].
  destruct (String.eqb lvl "phd") eqn:E1; [apply String.eqb_eq in E1; auto|].
  destruct (String.eqb lvl "masters") eqn:E2; [apply String.eqb_eq in E2; auto|].
  destruct (String.eqb lvl "bachelors") eqn:E3; [apply String.eqb_eq in E3; auto|].
  discriminate.
Qed.

End Resolution.

(* ================================================================= *)
(** ** Absent and empty target levels *)

(** C10. With [target_levels] absent or empty, [find_education_matches] and
    [get_highest_education] scan all three levels, phd, masters and
    bachelors: the result is that of the explicit list of the three; every
    level whose patterns match the text has its match among the matches
    found, and then [get_highest_education] returns one of the matches
    found, of one of the three levels and with its keywords; it returns none
    exactly when the patterns of none of the three levels match. Yet
    [strict_education_filter] on the empty list is false for every text. *)
Theorem empty_target_levels_scan_all (text : string) :
  find_education_matches text None =
    find_education_matches text (Some ["phd"; "masters"; "bachelors"]) /\
  find_education_matches text (Some []) =
    find_education_matches text (Some ["phd"; "masters"; "bachelors"]) /\
  get_highest_education text None =
    get_highest_education text (Some ["phd"; "masters"; "bachelors"]) /\
  get_highest_education text (Some []) =
    get_highest_education text (Some ["phd"; "masters"; "bachelors"]) /\
  (forall lvl patterns,
      In lvl ["phd"; "masters"; "bachelors"] ->
      dict_get education_patterns lvl = Some patterns ->
      keywords_of patterns (lower text) <> [] ->
      (exists m, In m (find_education_matches text (Some [])) /\ level m = lvl) /\
      (exists m, In m (find_education_matches text None) /\ level m = lvl) /\
      (exists top,
         get_highest_education text (Some []) = Some top /\
         get_highest_education text None = Some top /\
         In top (find_education_matches text (Some [])) /\
         In (level top) ["phd"; "masters"; "bachelors"] /\
         keywords_found top = surface_forms (level top) text /\
         keywords_found top <> [])) /\
  (get_highest_education text (Some []) = None <->
   forall lvl, In lvl ["phd"; "masters"; "bachelors"] -> surface_forms lvl text = []) /\
  (get_highest_education text None = None <->
   forall lvl, In lvl ["phd"; "masters"; "bachelors"] -> surface_forms lvl text = []) /\
  strict_education_filter text [] = false.
Proof.
  assert (Hfound : forall lvl patterns,
            In lvl ["phd"; "masters"; "bachelors"] ->
            dict_get education_patterns lvl = Some patterns ->
            keywords_of patterns (lower text) <> [] ->
            exists m, In m (find_education_matches text (Some [])) /\ level m = lvl).
  { intros lvl patterns Hl Hp Hk. eexists. split.
    - unfold find_education_matches. apply in_flat_map. exists lvl.
      split; [exact Hl|].
      rewrite (match_level_found _ _ _ _ Hp Hk). left. reflexivity.
    - reflexivity. }
  assert (Hnone : get_highest_education text (Some []) = None <->
                  forall lvl, In lvl ["phd"; "masters"; "bachelors"] ->
                              surface_forms lvl text = []).
  { rewrite get_highest_education_none, find_education_matches_nil.
    change (levels_to_check (Some [])) with ["phd"; "masters"; "bachelors"].
    split.
    - intros H lvl Hl. unfold surface_forms.
      destruct (dict_get education_patterns lvl) as [patterns|] eqn:Hp; [|reflexivity].
      unfold keywords_of. apply flat_map_nil. intros pattern Hin.
      now apply (H lvl patterns).
    - intros H lvl patterns pattern Hl Hp Hin. specialize (H lvl Hl).
      unfold surface_forms in H. rewrite Hp in H. unfold keywords_of in H.
      rewrite flat_map_nil in H. now apply H. }
  split; [reflexivity|]. split; [reflexivity|].
  split; [reflexivity|]. split; [reflexivity|].
  split; [|split; [exact Hnone | split; [exact Hnone|]]].
  - intros lvl patterns Hl Hp Hk.
    destruct (Hfound lvl patterns Hl Hp Hk) as [m [Hm Hlvl]].
    split; [now exists m|]. split; [now exists m|].
    destruct (get_highest_education text (Some [])) as [top|] eqn:Htop.
    + exists top. split; [reflexivity|]. split; [exact Htop|].
      pose proof (get_highest_education_in _ _ _ Htop) as Hin.
      split; [exact Hin|].
      destruct (find_education_matches_inv _ _ _ Hin)
        as [pats [Hlv [Hpat [Hkw [Hne _]]]]].
      split; [exact Hlv|]. split; [|exact Hne].
      unfold surface_forms. now rewrite Hpat.
    + apply get_highest_education_none in Htop. rewrite Htop in Hm. destruct Hm.
  - unfold strict_education_filter.
    destruct (get_highest_education text (Some [])); reflexivity.
Qed.

Lemma empty_target_levels_scan_all_witness :
  exists top,
    get_highest_education "PhD in Physics" (Some []) = Some top /\
    get_highest_education "PhD in Physics" None = Some top /\
    In top (find_education_matches "PhD in Physics" (Some [])) /\
    In (level top) ["phd"; "masters"; "bachelors"] /\
    keywords_found top = surface_forms (level top) "PhD in Physics" /\
    keywords_found top <> [].
Proof.
  apply (proj1 (proj2 (proj2 (proj2 (proj2
           (empty_target_levels_scan_all "PhD in Physics")))))
           "phd" [ word_pattern "ph\.?d\.?|doctor of philosophy|doctorate|doctoral|d\.phil|dphil";
                   word_pattern "phd|ph\.d|ph\.d\.|doctor of philosophy|doctorate|doctoral|d\.phil|dphil" ]).
  - simpl. left. reflexivity.
  - reflexivity.
  - vm_compute. discriminate.
Defined.

(** A text with forms of two levels, asked with no level. *)
Example empty_target_levels_example :
  let text := "PhD in Physics, B.Tech in ECE" in
  map level (find_education_matches text (Some [])) = ["phd"; "bachelors"] /\
  option_map level (get_highest_education text (Some [])) = Some "phd" /\
  option_map level (get_highest_education text None) = Some "phd" /\
  strict_education_filter text [] = false.
Proof. vm_compute. repeat split. Qed.

(* ================================================================= *)
(** ** The dominant level *)

(** C1. For a non-empty list of requested levels, [get_highest_education]
    returns none exactly when no configured pattern of a requested level
    matches the lower-cased text; the one match when the matches are all one
    match; and with several matches the first of them, in an order sorted by
    hierarchy ordinal descending (bachelors 1, masters 2, phd 3), whose
    confidence is strictly above 0.6, or the first of that order, a match of
    highest ordinal, when none is; the result is none or one match of
    [find_education_matches]. *)
Theorem get_highest_education_resolution (text : string) (levels : list string) :
  levels <> [] ->
  let found := find_education_matches text (Some levels) in
  let result := get_highest_education text (Some levels) in
  (result = None <->
   forall lvl patterns pattern,
     In lvl levels ->
     dict_get education_patterns lvl = Some patterns ->
     In pattern patterns ->
     findall pattern (lower text) = []) /\
  (forall m, found <> [] -> (forall m', In m' found -> m' = m) -> result = Some m) /\
  (2 <= List.length found ->
   exists sorted,
     Permutation sorted found /\
     StronglySorted (fun a b => (ordinal b <= ordinal a)%Z) sorted /\
     (forall m, In m sorted ->
        (level m = "bachelors" /\ ordinal m = 1%Z) \/
        (level m = "masters" /\ ordinal m = 2%Z) \/
        (level m = "phd" /\ ordinal m = 3%Z)) /\
     result =
       match find (fun m => Float.ltb Float.f0_6 (confidence m)) sorted with
       | Some m => Some m
       | None => hd_error sorted
       end /\
     (forall m, find (fun m => Float.ltb Float.f0_6 (confidence m)) sorted = None ->
        In m found -> exists top, result = Some top /\ (ordinal m <= ordinal top)%Z)) /\
  (result = None \/ exists m, result = Some m /\ In m found).
Proof.
  intros Hne found result.
  assert (Hlv : levels_to_check (Some levels) = levels)
    by (destruct levels; [contradiction | reflexivity]).
  split; [|split; [|split]].
  - subst result. rewrite get_highest_education_none, find_education_matches_nil.
    now rewrite Hlv.
  - intros m Hfound Hall.
    destruct result as [r|] eqn:Hr.
    + f_equal. apply Hall. now apply get_highest_education_in.
    + apply get_highest_education_none in Hr. contradiction.
  - intros Hlen. exists (PySort.sort_desc by_ordinal found).
    split; [apply sort_desc_perm|].
    split; [apply sort_by_ordinal_sorted|].
    split; [|split].
    + intros m Hm. apply sort_desc_in in Hm.
      destruct (find_education_matches_inv _ _ _ Hm) as [patterns [_ [Hp _]]].
      unfold ordinal.
      destruct (level_of_pattern_table _ _ Hp) as [E|[E|E]]; rewrite E; auto.
    + subst result. unfold get_highest_education. fold found.
      destruct found as [|m1 [|m2 ms]]; simpl in Hlen; try lia. reflexivity.
    + intros m Hnone Hm.
      assert (Hres : result = hd_error (PySort.sort_desc by_ordinal found)).
      { subst result. unfold get_highest_education. fold found.
        destruct found as [|m1 [|m2 ms]]; simpl in Hlen; try lia.
        fold by_ordinal. unfold good_confidence.
        now rewrite Hnone. }
      pose proof (sort_by_ordinal_sorted found) as Hs.
      apply (sort_desc_in by_ordinal) in Hm.
      destruct (PySort.sort_desc by_ordinal found) as [|top rest]; [destruct Hm|].
      exists top. split; [exact Hres|].
      destruct Hm as [<-|Hm]; [lia|].
      inversion Hs as [|? ? _ Hall]; subst.
      rewrite Forall_forall in Hall. exact (Hall m Hm).
  - destruct result as [r|] eqn:Hr; [right | now left].
    exists r. split; [reflexivity | now apply get_highest_education_in].
Qed.

Lemma get_highest_education_resolution_witness :
  ["masters"; "bachelors"] <> [] /\
  let text := "Masters in Computer Science from University of Texas, B.Sc in Mathematics from State University" in
  let result := get_highest_education text (Some ["masters"; "bachelors"]) in
  result = None \/
  exists m, result = Some m /\
            In m (find_education_matches text (Some ["masters"; "bachelors"])).
Proof.
  split; [discriminate|].
  refine (proj2 (proj2 (proj2
    (get_highest_education_resolution
       "Masters in Computer Science from University of Texas, B.Sc in Mathematics from State University"
       ["masters"; "bachelors"] _)))).
  discriminate.
Defined.

(* ================================================================= *)
(** ** A text with forms of both phd and btech *)

(** C6, as the code has it. When a text holds forms of phd and of a
    bachelor degree and is queried with the levels phd and bachelors, the
    result is the phd match if the confidence of phd is above 0.6 or that of
    bachelors is not, and the bachelors match when only the confidence of
    bachelors is above 0.6. *)
Theorem phd_and_bachelors_resolution (text : string) :
  surface_forms "phd" text <> [] ->
  surface_forms "bachelors" text <> [] ->
  exists m,
    get_highest_education text (Some ["phd"; "bachelors"]) = Some m /\
    level m =
      (if Float.ltb Float.f0_6 (level_confidence "phd" text)
          || negb (Float.ltb Float.f0_6 (level_confidence "bachelors" text))
       then "phd" else "bachelors").
Proof.
  unfold level_confidence, surface_forms.
  destruct (dict_get education_patterns "phd") as [pp|] eqn:Epp;
    [|intros H; contradiction].
  destruct (dict_get education_patterns "bachelors") as [pb|] eqn:Epb;
    [|intros _ H; contradiction].
  intros Hp Hb.
  unfold get_highest_education, find_education_matches, levels_to_check.
  cbn [flat_map].
  rewrite (match_level_found _ _ _ _ Epp Hp), (match_level_found _ _ _ _ Epb Hb).
  set (cp := calculate_confidence (keywords_of pp (lower text))
               (lower (extract_education_section text)) "phd").
  set (cb := calculate_confidence (keywords_of pb (lower text))
               (lower (extract_education_section text)) "bachelors").
  cbn [app PySort.sort_desc PySort.insert_desc].
  change (ordinal _ <? ordinal _)%Z with false.
  cbn [find hd_error]. unfold good_confidence. cbn [confidence].
  destruct (Float.ltb Float.f0_6 cp), (Float.ltb Float.f0_6 cb); simpl;
    eexists; split; reflexivity.
Qed.

Lemma phd_and_bachelors_resolution_witness :
  exists m,
    get_highest_education "PhD in Physics, B.Tech in ECE" (Some ["phd"; "bachelors"]) = Some m /\
    level m =
      (if Float.ltb Float.f0_6 (level_confidence "phd" "PhD in Physics, B.Tech in ECE")
          || negb (Float.ltb Float.f0_6
                     (level_confidence "bachelors" "PhD in Physics, B.Tech in ECE"))
       then "phd" else "bachelors").
Proof.
  apply (phd_and_bachelors_resolution "PhD in Physics, B.Tech in ECE");
    vm_compute; discriminate.
Defined.

(** C6 as stated fails: the text has the forms "phd" and "btech", the phd
    match has confidence 0.6, not above the threshold, the bachelors match
    has 0.9, and the result is the bachelors match. *)
Lemma phd_and_btech_counterexample :
  let text := String.append "phd" (String newline "university btech work") in
  surface_forms "phd" text = ["phd"; "phd"] /\
  surface_forms "bachelors" text = ["btech"; "btech"] /\
  level_confidence "phd" text = Float.f0_6 /\
  level_confidence "bachelors" text = Float.f0_9 /\
  option_map level (get_highest_education text (Some ["phd"; "bachelors"]))
    = Some "bachelors" /\
  option_map level (get_highest_education text (Some ["phd"; "bachelors"]))
    <> Some "phd".
Proof. vm_compute. repeat split. discriminate. Qed.

(* ================================================================= *)
(** ** The education section *)

Section StripFacts.

Lemma lstrip_suffix (s : string) : exists ws, s = String.append ws (lstrip s).
Proof.
  induction s as [|c s [ws IH]]; simpl.
  - now exists EmptyString.
  - destruct (is_space c).
    + exists (String c ws). simpl. now rewrite <- IH.
    + now exists EmptyString.
Qed.

Lemma rstrip_prefix (s : string) : exists ws, s = String.append (rstrip s) ws.
Proof.
  induction s as [|c s [ws IH]]; simpl.
  - now exists EmptyString.
  - destruct (rstrip s) as [|r rs] eqn:Hr.
    + destruct (is_space c).
      * now exists (String c s).
      * exists s. reflexivity.
    + exists ws. simpl. simpl in IH. now rewrite <- IH.
Qed.

Lemma lstrip_keeps (pre rest : string) (c : ascii) :
  is_space c = false ->
  exists pre', lstrip (String.append pre (String c rest)) = String.append pre' (String c rest).
Proof.
  intros Hc. induction pre as [|a pre [pre' IH]]; simpl.
  - rewrite Hc. now exists EmptyString.
  - destruct (is_space a).
    + now exists pre'.
    + now exists (String a pre).
Qed.

Lemma rstrip_keeps (pre post : string) (d : ascii) :
  is_space d = false ->
  exists post', rstrip (String.append pre (String d post)) = String.append pre (String d post').
Proof.
  intros Hd. induction pre as [|a pre [post' IH]]; simpl.
  - destruct (rstrip post) as [|r rs].
    + rewrite Hd. now exists EmptyString.
    + now exists (String r rs).
  - rewrite IH. exists post'. destruct pre; reflexivity.
Qed.

Lemma last_char_split (k : string) (prev : option ascii) :
  k <> EmptyString ->
  exists k0 d, k = String.append k0 (String d EmptyString) /\ last_char prev k = Some d.
Proof.
  revert prev. induction k as [|c k IH]; intros prev Hk; [contradiction|].
  destruct k as [|c' k'].
  - exists EmptyString, c. split; reflexivity.
  - destruct (IH (Some c)) as [k0 [d [Hk0 Hl]]]; [discriminate|].
    exists (String c k0), d. split.
    + simpl. now rewrite <- Hk0.
    + exact Hl.
Qed.

Lemma contains_strip (k s : string) :
  solid k = true -> contains k (strip s) = contains k s.
Proof.
  intros Hk. apply eq_true_iff_eq. rewrite !contains_substring.
  unfold substring_of, strip. split.
  - intros [pre [post H]].
    destruct (lstrip_suffix s) as [w1 H1].
    destruct (rstrip_prefix (lstrip s)) as [w2 H2].
    exists (String.append w1 pre), (String.append post w2).
    rewrite H1, H2, H. now rewrite !append_assoc.
  - intros [pre [post H]]. subst s.
    destruct k as [|c k']; [discriminate Hk|].
    unfold solid in Hk. apply andb_true_iff in Hk. destruct Hk as [Hc Hd].
    apply negb_true_iff in Hc.
    destruct (last_char_split (String c k') None) as [k0 [d [Hk0 Hl]]]; [discriminate|].
    rewrite Hl in Hd. apply negb_true_iff in Hd.
    change (String.append (String c k') post) with (String c (String.append k' post)).
    destruct (lstrip_keeps pre (String.append k' post) c Hc) as [pre' ->].
    change (String c (String.append k' post)) with (String.append (String c k') post).
    rewrite Hk0, append_assoc. simpl String.append at 3.
    rewrite <- append_assoc.
    destruct (rstrip_keeps (String.append pre' k0) post d Hd) as [post' ->].
    exists pre', post'. now rewrite !append_assoc.
Qed.

Lemma any_in_strip (keys : list string) (s : string) :
  forallb solid keys = true -> any_in keys (strip s) = any_in keys s.
Proof.
  unfold any_in. induction keys as [|k keys IH]; simpl; [reflexivity|].
  intros H. apply andb_true_iff in H. destruct H as [Hk Hks].
  now rewrite contains_strip, IH.
Qed.

Lemma header_test (line : string) :
  any_in education_keywords (strip (lower line)) = has_header line.
Proof. now apply any_in_strip. Qed.

Lemma closing_test (line : string) :
  any_in section_keywords (strip (lower line)) = has_closing line.
Proof. now apply any_in_strip. Qed.

End StripFacts.

Section SectionFacts.

Lemma collect_lines_step (in_education : bool) (line : string) (rest : list string) :
  collect_lines in_education (line :: rest) =
    if has_header line then line :: collect_lines true rest
    else if in_education then
      if has_closing line then [] else line :: collect_lines true rest
    else collect_lines false rest.
Proof. cbn [collect_lines]. now rewrite header_test, closing_test. Qed.

Lemma collect_lines_before (pre rest : list string) :
  (forall l, In l pre -> has_header l = false) ->
  collect_lines false (pre ++ rest) = collect_lines false rest.
Proof.
  induction pre as [|l pre IH]; intros H; [reflexivity|].
  rewrite <- app_comm_cons, collect_lines_step.
  rewrite (H l (or_introl eq_refl)). apply IH. intros x Hx. apply H. now right.
Qed.

Lemma collect_lines_inside (mid rest : list string) :
  (forall l, In l mid -> has_header l = true \/ has_closing l = false) ->
  collect_lines true (mid ++ rest) = mid ++ collect_lines true rest.
Proof.
  induction mid as [|l mid IH]; intros H; [reflexivity|].
  rewrite <- !app_comm_cons, collect_lines_step.
  assert (Hmid : forall x, In x mid -> has_header x = true \/ has_closing x = false)
    by (intros x Hx; apply H; now right).
  destruct (H l (or_introl eq_refl)) as [Hh|Hc].
  - rewrite Hh. now rewrite IH.
  - rewrite Hc. destruct (has_header l); now rewrite IH.
Qed.

End SectionFacts.

(** C4, as the code has it. The section begins at the first line with a
    header keyword and holds the lines after it up to, and without, the
    first line that has a closing keyword and no header keyword; it runs to
    the end of the text when there is no such line. It is the empty string
    when no line has a header keyword, and the header line alone when that
    line is the last one. *)
Theorem extract_education_section_range (text : string) :
  let nl := String newline EmptyString in
  let lines := split newline text in
  ((forall l, In l lines -> has_header l = false) ->
   extract_education_section text = EmptyString) /\
  (forall pre h mid c post,
      lines = pre ++ h :: mid ++ c :: post ->
      (forall l, In l pre -> has_header l = false) ->
      has_header h = true ->
      (forall l, In l mid -> has_header l = true \/ has_closing l = false) ->
      has_closing c = true -> has_header c = false ->
      extract_education_section text = join nl (h :: mid)) /\
  (forall pre h mid,
      lines = pre ++ h :: mid ->
      (forall l, In l pre -> has_header l = false) ->
      has_header h = true ->
      (forall l, In l mid -> has_header l = true \/ has_closing l = false) ->
      extract_education_section text = join nl (h :: mid)) /\
  (forall pre h,
      lines = pre ++ [h] ->
      (forall l, In l pre -> has_header l = false) ->
      has_header h = true ->
      extract_education_section text = h).
Proof.
  intros nl lines. unfold extract_education_section. fold lines. fold nl.
  assert (Hopen : forall pre h mid,
            lines = pre ++ h :: mid ->
            (forall l, In l pre -> has_header l = false) ->
            has_header h = true ->
            (forall l, In l mid -> has_header l = true \/ has_closing l = false) ->
            join nl (collect_lines false lines) = join nl (h :: mid)).
  { intros pre h mid -> Hpre Hh Hmid.
    rewrite (collect_lines_before _ _ Hpre), collect_lines_step, Hh.
    rewrite <- (app_nil_r mid) at 1.
    rewrite (collect_lines_inside _ _ Hmid). simpl collect_lines.
    now rewrite app_nil_r. }
  repeat split.
  - intros H. rewrite <- (app_nil_r lines).
    now rewrite (collect_lines_before _ _ H).
  - intros pre h mid c post -> Hpre Hh Hmid Hc Hch.
    rewrite (collect_lines_before _ _ Hpre), collect_lines_step, Hh.
    rewrite (collect_lines_inside _ _ Hmid), collect_lines_step, Hch, Hc.
    now rewrite app_nil_r.
  - exact Hopen.
  - intros pre h Hl Hpre Hh.
    rewrite (Hopen pre h [] Hl Hpre Hh); [reflexivity | intros l []].
Qed.

Lemma extract_education_section_range_witness :
  let nl := String newline EmptyString in
  extract_education_section
    (join nl ["Name"; "Education"; "B.Tech, ITER"; "School projects"; "Skills"; "Python"])
  = join nl ["Education"; "B.Tech, ITER"; "School projects"].
Proof.
  intros nl.
  apply (proj1 (proj2 (extract_education_section_range
           (join nl ["Name"; "Education"; "B.Tech, ITER"; "School projects"; "Skills"; "Python"])))
           ["Name"] "Education" ["B.Tech, ITER"; "School projects"] "Skills" ["Python"]).
  - vm_compute. reflexivity.
  - intros l [<-|[]]. vm_compute. reflexivity.
  - vm_compute. reflexivity.
  - intros l [<-|[<-|[]]]; [right | left]; vm_compute; reflexivity.
  - vm_compute. reflexivity.
  - vm_compute. reflexivity.
Defined.

(** C4 as stated fails: the line after the header has the closing keyword
    "projects", so the described section is the header line alone; it also
    has the header keyword "school", and the code keeps it. *)
Lemma section_end_counterexample :
  let nl := String newline EmptyString in
  let text := join nl ["Education"; "School projects"; "Skills"] in
  split newline text = ["Education"; "School projects"; "Skills"] /\
  has_header "Education" = true /\
  has_closing "School projects" = true /\
  described_section text = "Education" /\
  extract_education_section text = join nl ["Education"; "School projects"] /\
  extract_education_section text <> described_section text.
Proof. vm_compute. repeat split. discriminate. Qed.

(* ================================================================= *)
(** ** The order of floats and of strings *)

Section OrderFacts.
Import Float.

Ltac finite_case e e' m m' :=
  change (Pos.compare_cont Eq m m') with (Pos.compare m m');
  destruct (Z.compare_spec e e'); destruct (Pos.compare_spec m m');
  simpl; split; intros; try discriminate; try reflexivity; try lia.

Lemma ltb_rank (x y : float) :
  is_number x = true -> is_number y = true ->
  (ltb x y = true <-> lt3 (rank x) (rank y)).
Proof.
  unfold ltb, SFltb, SFcompare, lt3, rank.
  destruct x as [[]|[]| |[] m e], y as [[]|[]| |[] m' e']; simpl;
    try discriminate; intros _ _;
    try (split; intros; try discriminate; try reflexivity; lia);
    finite_case e e' m m'.
Qed.

Lemma eqb_rank (x y : float) :
  is_number x = true -> is_number y = true ->
  (eqb x y = true <-> rank x = rank y).
Proof.
  unfold eqb, SFeqb, SFcompare, rank.
  destruct x as [[]|[]| |[] m e], y as [[]|[]| |[] m' e']; simpl;
    try discriminate; intros _ _;
    try (split; intros; try discriminate; try reflexivity; congruence);
    change (Pos.compare_cont Eq m m') with (Pos.compare m m');
    destruct (Z.compare_spec e e'); destruct (Pos.compare_spec m m');
    simpl; split; intros H1; try discriminate; try reflexivity;
    try (injection H1; intros; lia); subst; reflexivity.
Qed.

Lemma ascii_compare_lt_trans (a b c : ascii) :
  Ascii.compare a b = Lt -> Ascii.compare b c = Lt -> Ascii.compare a c = Lt.
Proof.
  unfold Ascii.compare. rewrite !N.compare_lt_iff. apply N.lt_trans.
Qed.

Lemma ascii_compare_eq (a b : ascii) : Ascii.compare a b = Eq -> a = b.
Proof.
  unfold Ascii.compare. rewrite N.compare_eq_iff. intros H.
  rewrite <- (ascii_N_embedding a), <- (ascii_N_embedding b). now rewrite H.
Qed.

Lemma string_compare_lt_trans (a b c : string) :
  String.compare a b = Lt -> String.compare b c = Lt -> String.compare a c = Lt.
Proof.
  revert b c. induction a as [|x a IH]; intros [|y b] [|z c]; simpl;
    try discriminate; try reflexivity.
  destruct (Ascii.compare x y) eqn:Hxy; try discriminate;
    destruct (Ascii.compare y z) eqn:Hyz; try discriminate; intros H1 H2.
  - apply ascii_compare_eq in Hxy, Hyz. subst.
    rewrite (proj2 (N.compare_eq_iff _ _) eq_refl : Ascii.compare z z = Eq).
    now apply IH with b.
  - apply ascii_compare_eq in Hxy. subst. now rewrite Hyz.
  - apply ascii_compare_eq in Hyz. subst. now rewrite Hxy.
  - now rewrite (ascii_compare_lt_trans _ _ _ Hxy Hyz).
Qed.

Lemma string_ltb_trans (a b c : string) :
  String.ltb a b = true -> String.ltb b c = true -> String.ltb a c = true.
Proof.
  unfold String.ltb.
  destruct (String.compare a b) eqn:Hab; try discriminate.
  destruct (String.compare b c) eqn:Hbc; try discriminate.
  now rewrite (string_compare_lt_trans _ _ _ Hab Hbc).
Qed.

Lemma string_ltb_total (a b : string) :
  a <> b -> String.ltb a b = false -> String.ltb b a = true.
Proof.
  unfold String.ltb. intros Hne.
  pose proof (String.compare_antisym a b) as H.
  destruct (String.compare b a) eqn:Hba; simpl in H.
  - apply String.compare_eq_iff in Hba. congruence.
  - reflexivity.
  - rewrite H. discriminate.
Qed.

End OrderFacts.

Section FloatOrder.
Import Float.
Variables x y z : float.
Hypothesis Hx : is_number x = true.
Hypothesis Hy : is_number y = true.
Hypothesis Hz : is_number z = true.

Lemma float_eqb_sym : eqb x y = true -> eqb y x = true.
Proof. rewrite !eqb_rank by assumption. auto. Qed.

Lemma float_eqb_trans : eqb x y = true -> eqb y z = true -> eqb x z = true.
Proof. rewrite !eqb_rank by assumption. congruence. Qed.

Lemma float_ltb_trans : ltb x y = true -> ltb y z = true -> ltb x z = true.
Proof.
  rewrite !ltb_rank by assumption. unfold lt3.
  destruct (rank x) as [[x1 x2] x3], (rank y) as [[y1 y2] y3],
           (rank z) as [[z1 z2] z3]. lia.
Qed.

Lemma float_ltb_eqb : ltb x y = true -> eqb y z = true -> ltb x z = true.
Proof.
  rewrite !ltb_rank, eqb_rank by assumption. intros H E. now rewrite <- E.
Qed.

Lemma float_eqb_ltb : eqb x y = true -> ltb y z = true -> ltb x z = true.
Proof.
  rewrite !ltb_rank, eqb_rank by assumption. intros E H. now rewrite E.
Qed.

Lemma float_trichotomy : eqb x y = false -> ltb x y = false -> ltb y x = true.
Proof.
  intros E L.
  assert (E' : rank x <> rank y)
    by (intros H; apply eqb_rank in H; auto; congruence).
  assert (L' : ~ lt3 (rank x) (rank y))
    by (intros H; apply ltb_rank in H; auto; congruence).
  apply ltb_rank; auto. unfold lt3 in *.
  destruct (rank x) as [[x1 x2] x3], (rank y) as [[y1 y2] y3].
  destruct (Z.eq_dec x1 y1), (Z.eq_dec x2 y2), (Z.eq_dec x3 y3);
    subst; try lia. now contradiction E'.
Qed.

End FloatOrder.

(* ================================================================= *)
(** ** The order of the re-scored rows *)

Section RowFacts.
Import PySort.

Lemma row_lt_apart (a b : row) :
  row_id a <> row_id b ->
  row_lt a b =
    Some (if Float.eqb (combined a) (combined b)
          then String.ltb (row_id a) (row_id b)
          else Float.ltb (combined a) (combined b)).
Proof.
  intros Hne. unfold row_lt. fold (row_id a) (row_id b).
  destruct (Float.eqb (combined a) (combined b)); simpl; [|reflexivity].
  apply String.eqb_neq in Hne. now rewrite Hne.
Qed.

Lemma distinct_ids_apart (rows : list row) :
  NoDup (map row_id rows) ->
  ForallOrdPairs (fun a b => row_id a <> row_id b) rows.
Proof.
  induction rows as [|r rows IH]; simpl; intros H; [constructor|].
  inversion H as [|? ? Hn Hd]; subst. constructor; [|now apply IH].
  apply Forall_forall. intros b Hb E. apply Hn. rewrite E. now apply in_map.
Qed.

Lemma rows_comparable (rows : list row) :
  NoDup (map row_id rows) -> comparable row_lt rows.
Proof.
  induction rows as [|r rows IH]; simpl; intros H; [exact I|].
  inversion H as [|? ? Hn Hd]; subst. split; [|now apply IH].
  intros b Hb. rewrite row_lt_apart; [discriminate|].
  intros E. apply Hn. rewrite E. now apply in_map.
Qed.

Lemma row_before_trans (a b c : row) :
  is_scored a -> is_scored b -> is_scored c ->
  row_before a b -> row_before b c -> row_before a c.
Proof.
  unfold is_scored, row_before. intros Ha Hb Hc [H1|[E1 S1]] [H2|[E2 S2]].
  - left. now apply float_ltb_trans with (combined b).
  - left. apply float_eqb_ltb with (combined b); auto.
    now apply float_eqb_sym.
  - left. apply float_ltb_eqb with (combined b); auto.
    now apply float_eqb_sym.
  - right. split.
    + now apply float_eqb_trans with (combined b).
    + now apply string_ltb_trans with (row_id b).
Qed.

Lemma row_lt_before (a b : row) :
  is_scored a -> is_scored b -> row_id a <> row_id b ->
  decided row_lt a b = true -> row_before b a.
Proof.
  unfold is_scored, row_before, decided. intros Ha Hb Hne.
  rewrite (row_lt_apart a b Hne).
  destruct (Float.eqb (combined a) (combined b)) eqn:E.
  - intros H. right. split; [now apply float_eqb_sym|].
    now destruct (String.ltb (row_id a) (row_id b)).
  - intros H. left. now destruct (Float.ltb (combined a) (combined b)).
Qed.

Lemma row_not_lt_before (a b : row) :
  is_scored a -> is_scored b -> row_id a <> row_id b ->
  decided row_lt a b = false -> row_before a b.
Proof.
  unfold is_scored, row_before, decided. intros Ha Hb Hne.
  rewrite (row_lt_apart a b Hne).
  destruct (Float.eqb (combined a) (combined b)) eqn:E.
  - intros H. right. split; [reflexivity|].
    apply string_ltb_total; [exact Hne|].
    now destruct (String.ltb (row_id a) (row_id b)).
  - intros H. left. apply float_trichotomy; auto.
    now destruct (Float.ltb (combined a) (combined b)).
Qed.

(** With distinct ids the sort raises nothing and returns a permutation. *)
Lemma sort_rows_defined (rows : list row) :
  NoDup (map row_id rows) ->
  exists sorted, sort_rows rows = Some sorted /\ Permutation sorted rows.
Proof.
  intros Hd. exists (sort_desc (decided row_lt) rows). split.
  - apply sort_desc_exn_total. now apply rows_comparable.
  - apply sort_desc_perm.
Qed.

Lemma sort_rows_sorted (rows sorted : list row) :
  NoDup (map row_id rows) -> Forall is_scored rows ->
  sort_rows rows = Some sorted ->
  StronglySorted row_before sorted.
Proof.
  intros Hd Hs Hsort. unfold sort_rows in Hsort.
  rewrite (sort_desc_exn_total row_lt rows (rows_comparable rows Hd)) in Hsort.
  injection Hsort as <-.
  apply (sort_desc_sorted (decided row_lt) row_before is_scored
           (fun a b => row_id a <> row_id b)).
  - exact row_before_trans.
  - exact row_lt_before.
  - exact row_not_lt_before.
  - exact Hs.
  - now apply distinct_ids_apart.
Qed.

Lemma firstn_in {A : Type} (n : nat) (l : list A) (x : A) :
  In x (firstn n l) -> In x l.
Proof.
  intros H. rewrite <- (firstn_skipn n l). apply in_or_app. now left.
Qed.

Lemma firstn_sorted {A : Type} (R : A -> A -> Prop) (n : nat) (l : list A) :
  StronglySorted R l -> StronglySorted R (firstn n l).
Proof.
  revert n. induction l as [|x l IH]; intros [|n] H; simpl; try constructor.
  - inversion H; subst. now apply IH.
  - inversion H as [|? ? _ Hall]; subst.
    rewrite Forall_forall in *. intros y Hy. apply Hall.
    now apply (firstn_in n).
Qed.

End RowFacts.

(* ================================================================= *)
(** ** Runs of digits and the digit limit *)

Section DigitFacts.

Lemma star_runs_class (p : ascii -> bool) (s : string) :
  forall m rest, In (m, rest) (star_runs p s) ->
  forall c, char_in c m -> p c = true.
Proof.
  induction s as [|d s IH]; intros m rest; cbn [star_runs].
  - intros [E|[]] c. injection E as <- <-. intros [].
  - destruct (p d) eqn:Hd.
    + rewrite in_app_iff, in_map_iff.
      intros [[[m' r'] [E Hx]] | [E|[]]] c; injection E as <- <-.
      * cbn [fst]. intros [<-|Hc]; [exact Hd | now apply (IH m' r')].
      * intros [].
    + intros [E|[]] c. injection E as <- <-. intros [].
Qed.

(** A match of the digits pattern is made of digits. *)
Lemma run_digits_class (prev : option ascii) (s m rest : string) :
  In (m, rest) (run Scorer.digits prev s) ->
  forall c, char_in c m -> is_digit c = true.
Proof.
  unfold Scorer.digits. cbn [run]. destruct s as [|d s]; [intros []|].
  destruct (is_digit d) eqn:Hd; [|intros []].
  cbn [flat_map fst snd]. rewrite app_nil_r, in_map_iff.
  intros [[m' r'] [E Hx]] c. injection E as <- <-.
  cbn [fst String.append]. intros [<-|Hc]; [exact Hd|].
  now apply (star_runs_class is_digit s m' r').
Qed.

Lemma findall_digits_class (s d : string) :
  In d (findall Scorer.digits s) -> forall c, char_in c d -> is_digit c = true.
Proof.
  intros H. apply findall_matched in H. destruct H as [pre [post [_ H]]].
  exact (run_digits_class _ _ _ _ H).
Qed.

Lemma digit_value_bound (c : ascii) : is_digit c = true -> (digit_value c <= 9)%N.
Proof.
  unfold is_digit, in_range, digit_value. intros H.
  apply andb_true_iff in H. destruct H as [H1 H2].
  apply N.leb_le in H1, H2. lia.
Qed.

(** A run of [n] digits writes a number below the [n]-th power of ten. *)
Lemma int_of_digits_bound (d : string) :
  (forall c, char_in c d -> is_digit c = true) ->
  (int_of_digits d < 10 ^ N.of_nat (String.length d))%N.
Proof.
  unfold int_of_digits.
  set (go := fix go (acc : N) (s : string) : N :=
               match s with
               | EmptyString => acc
               | String c s' => go (10 * acc + digit_value c)%N s'
               end).
  intros H.
  assert (G : forall acc, (go acc d + 1 <= (acc + 1) * 10 ^ N.of_nat (String.length d))%N).
  { induction d as [|c d IH]; intros acc.
    - cbn [go String.length N.of_nat]. rewrite N.pow_0_r. lia.
    - cbn [go String.length]. rewrite Nat2N.inj_succ, N.pow_succ_r'.
      pose proof (digit_value_bound c (H c (or_introl eq_refl))) as Hc.
      eapply N.le_trans; [apply IH; intros x Hx; apply H; now right|].
      set (P := (10 ^ N.of_nat (String.length d))%N).
      replace ((acc + 1) * (10 * P))%N with ((10 * acc + 10) * P)%N by lia.
      apply N.mul_le_mono_r. lia. }
  specialize (G 0%N). lia.
Qed.

Lemma string_of_uint_length (u : Decimal.uint) :
  String.length (NilEmpty.string_of_uint u) = Decimal.nb_digits u.
Proof. induction u; simpl; congruence. Qed.

(** The decimal number a run of digits spells has the value the run
    writes. *)
Lemma digits_uint (d : string) :
  (forall c, char_in c d -> is_digit c = true) ->
  exists u,
    Decimal.nb_digits u = String.length d /\
    Pos.of_uint u = int_of_digits d.
Proof.
  unfold int_of_digits.
  set (go := fix go (acc : N) (s : string) : N :=
               match s with
               | EmptyString => acc
               | String c s' => go (10 * acc + digit_value c)%N s'
               end).
  intros H.
  assert (G : exists u,
            Decimal.nb_digits u = String.length d /\
            (forall acc, go (Npos acc) d = Npos (Pos.of_uint_acc u acc)) /\
            go 0%N d = Pos.of_uint u).
  { induction d as [|c d IH].
    - exists Decimal.Nil. repeat split.
    - destruct IH as [u [Hn [Hacc H0]]]; [intros x Hx; apply H; now right|].
      pose proof (H c (or_introl eq_refl)) as Hc.
      destruct c as [[] [] [] [] [] [] [] []]; try discriminate Hc;
        cbn [go String.length];
        match goal with
        | |- context [digit_value ?c] =>
            let v := eval vm_compute in (digit_value c) in
            change (digit_value c) with v;
            lazymatch v with
            | 0%N => exists (Decimal.D0 u)
            | 1%N => exists (Decimal.D1 u)
            | 2%N => exists (Decimal.D2 u)
            | 3%N => exists (Decimal.D3 u)
            | 4%N => exists (Decimal.D4 u)
            | 5%N => exists (Decimal.D5 u)
            | 6%N => exists (Decimal.D6 u)
            | 7%N => exists (Decimal.D7 u)
            | 8%N => exists (Decimal.D8 u)
            | 9%N => exists (Decimal.D9 u)
            end
        end;
        (split; [cbn [Decimal.nb_digits]; now rewrite Hn|]);
        (split;
         [ intros acc; cbn [Pos.of_uint_acc]; rewrite <- Hacc; f_equal; lia
         | cbn [Pos.of_uint]; first [rewrite <- Hacc | rewrite <- H0];
           f_equal ]). }
  destruct G as [u [Hn [_ H0]]]. exists u. split; [exact Hn | now rewrite H0].
Qed.

(** [str] writes the number a run of digits spells with no more digits
    than the run has, one at least. *)
Lemma of_N_digits_length (d : string) :
  (forall c, char_in c d -> is_digit c = true) ->
  String.length (of_N (int_of_digits d)) <= Nat.max 1 (String.length d).
Proof.
  intros H. destruct (digits_uint d H) as [u [Hn Hu]].
  unfold of_N. rewrite <- Hu.
  rewrite DecimalPos.Unsigned.to_of, string_of_uint_length.
  destruct u as [|u|u|u|u|u|u|u|u|u|u];
    try (rewrite <- Hn;
         eapply Nat.le_trans; [apply DecimalFacts.nb_digits_unorm; discriminate | apply Nat.le_max_r]).
  exact (Nat.le_max_l 1 (String.length d)).
Qed.

(** The years of the form are an integer [str] prints: it was read from at
    most [max_str_digits] digits. *)
Lemma parse_years_printable (s : string) : str_raises (parse_years s) = false.
Proof.
  unfold str_raises. apply N.ltb_ge.
  assert (H0 : (N.of_nat (String.length (of_N (Z.abs_N 0))) <= max_str_digits)%N)
    by (vm_compute; discriminate).
  unfold parse_years. destruct (truthy s); [|exact H0].
  destruct (findall Scorer.digits s) as [|d l] eqn:E; [exact H0|].
  unfold int_exn.
  destruct (N.of_nat (String.length d) <=? max_str_digits)%N eqn:L; [|exact H0].
  apply N.leb_le in L.
  assert (Hd : forall c, char_in c d -> is_digit c = true)
    by (apply (findall_digits_class s); rewrite E; now left).
  pose proof (of_N_digits_length d Hd) as Hb.
  rewrite Zabs2N.id. unfold max_str_digits in *. lia.
Qed.

(** The years of the form stay below the power of ten of the limit. *)
Lemma parse_years_below (s : string) :
  (parse_years s < 10 ^ Z.of_N max_str_digits)%Z.
Proof.
  assert (Hpos : (0 < 10 ^ Z.of_N max_str_digits)%Z)
    by (apply Z.pow_pos_nonneg; [reflexivity | apply N2Z.is_nonneg]).
  unfold parse_years. destruct (truthy s); [|exact Hpos].
  destruct (findall Scorer.digits s) as [|d l] eqn:E; [exact Hpos|].
  unfold int_exn.
  destruct (N.of_nat (String.length d) <=? max_str_digits)%N eqn:L; [|exact Hpos].
  apply N.leb_le in L.
  assert (Hd : forall c, char_in c d -> is_digit c = true)
    by (apply (findall_digits_class s); rewrite E; now left).
  pose proof (int_of_digits_bound d Hd) as Hb.
  apply Z.lt_le_trans with (Z.of_N (10 ^ N.of_nat (String.length d))).
  - now apply N2Z.inj_lt.
  - rewrite N2Z.inj_pow. apply Z.pow_le_mono_r; [reflexivity|].
    now apply N2Z.inj_le.
Qed.

End DigitFacts.

(* ================================================================= *)
(** ** The handlers *)

Section HandlerFacts.
Variable round4 : Float.float -> Float.float.
Variable index : string -> nat -> bool -> list candidate.

Lemma api_search_skills_exec (form : list (string * string)) :
  let skills := skills_of form in
  let min_years := years_of form in
  let q := HireSight.skills_query skills min_years in
  exec index (api_search_skills round4 form) =
    (one_call q 10 false,
     match sort_rows (map (skills_row skills min_years) (index q 10 false)) with
     | Some sorted =>
         inl {| results := map (scored_entry round4) (firstn 5 sorted);
                search_type := None |}
     | None => inr TypeError
     end).
Proof.
  intros skills min_years q. unfold api_search_skills.
  rewrite parse_years_printable, andb_false_r.
  fold (skills_of form) (years_of form). fold skills min_years.
  fold (HireSight.skills_query skills min_years). fold q.
  cbn [exec].
  destruct (sort_rows (map (skills_row skills min_years) (index q 10 false)));
    reflexivity.
Qed.

Lemma api_search_education_exec (form : list (string * string)) :
  let levels := levels_of form in
  let q := education_query levels in
  let pool := index q 30 false in
  let kept := filter (fun c => keyword_filter_education (doc c) levels) pool in
  let tag := match kept with
             | _ :: _ => keyword_search_type (List.length kept)
             | [] => semantic_search_type
             end in
  exec index (api_search_education round4 form) =
    (one_call q 30 false,
     match sort_rows (map (education_row levels)
                        (match kept with _ :: _ => kept | [] => pool end)) with
     | Some sorted =>
         inl {| results := map (education_entry round4 levels tag) (firstn 5 sorted);
                search_type := Some tag |}
     | None => inr TypeError
     end).
Proof.
  intros levels q pool kept tag. unfold api_search_education.
  fold (levels_of form). fold levels. fold (education_query levels). fold q.
  cbn [exec]. fold pool. fold kept. subst tag.
  destruct kept as [|c kept']; cbn [fst snd];
    match goal with
    | |- context [sort_rows ?l] => destruct (sort_rows l)
    end; reflexivity.
Qed.

Lemma rescored_ids (f : candidate -> row) (pool : list candidate) :
  (forall c, cand (f c) = c) -> map row_id (map f pool) = map rid pool.
Proof.
  intros H. rewrite map_map. apply map_ext. intros c. unfold row_id. now rewrite H.
Qed.

Lemma filter_nil_iff {A : Type} (f : A -> bool) (l : list A) :
  filter f l = [] <-> forall x, In x l -> f x = false.
Proof.
  induction l as [|a l IH]; simpl.
  - split; [intros _ x [] | reflexivity].
  - destruct (f a) eqn:Ha; split.
    + discriminate.
    + intros H. rewrite (H a (or_introl eq_refl)) in Ha. discriminate.
    + intros H x [<-|Hx]; [exact Ha | now apply IH].
    + intros H. apply IH. intros x Hx. apply H. now right.
Qed.

Lemma search_types_differ (found : nat) :
  semantic_search_type <> keyword_search_type found.
Proof.
  unfold semantic_search_type, keyword_search_type. simpl. discriminate.
Qed.

End HandlerFacts.

Section RerankFacts.
Variable round4 : Float.float -> Float.float.
Variable index : string -> nat -> bool -> list candidate.

(** Every entry of a re-ranked response is made from a candidate of the
    pool. *)
Lemma entries_from_pool (f : candidate -> row) (mk : row -> entry)
  (pool : list candidate) (sorted : list row) (n : nat) (e : entry) :
  Permutation sorted (map f pool) ->
  In e (map mk (firstn n sorted)) ->
  exists c, In c pool /\ e = mk (f c).
Proof.
  intros Hp He. apply in_map_iff in He. destruct He as [r [<- Hr]].
  apply firstn_in in Hr. apply (Permutation_in _ Hp) in Hr.
  apply in_map_iff in Hr. destruct Hr as [c [<- Hc]]. now exists c.
Qed.

Lemma search_by_education_exec (levels : list string) (top_k : nat) :
  let q := education_query levels in
  exec index (HireSight.search_by_education round4 levels top_k) =
    (one_call q top_k false,
     match sort_rows (map (HireSight.education_row levels) (index q top_k false)) with
     | Some sorted => inl (map (scored_entry round4) (firstn top_k sorted))
     | None => inr TypeError
     end).
Proof.
  intros q. unfold HireSight.search_by_education.
  fold (education_query levels). fold q. cbn [exec].
  destruct (sort_rows (map (HireSight.education_row levels) (index q top_k false)));
    reflexivity.
Qed.

Lemma api_search_jd_exec (form : list (string * string)) :
  let jd := strip (form_get form "jd" EmptyString) in
  exec index (api_search_jd round4 form) =
    if truthy jd
    then (one_call jd 5 false,
          inl {| results := map (plain_entry round4) (index jd 5 false);
                 search_type := None |})
    else ([], inl {| results := []; search_type := None |}).
Proof.
  intros jd. unfold api_search_jd. fold jd. destruct (truthy jd); reflexivity.
Qed.

Lemma api_search_general_exec (form : list (string * string)) :
  let q := strip (form_get form "q" EmptyString) in
  let notes := String.eqb (lower (form_get form "include_notes" "n")) "y" in
  exec index (api_search_general round4 form) =
    (one_call q 5 notes,
     inl {| results := map (plain_entry round4) (index q 5 notes);
            search_type := None |}).
Proof. reflexivity. Qed.

Lemma float_eqb_refl (x : Float.float) :
  Float.is_number x = true -> Float.eqb x x = true.
Proof. intros H. now apply eqb_rank. Qed.

(** With weight 0 and a finite heuristic score the composite score is the
    similarity. *)
Lemma composite_weight_zero (d h : Float.float) :
  Float.is_number (Float.sub Float.f1_0 d) = true ->
  match h with S754_zero _ | S754_finite _ _ _ => True | _ => False end ->
  Float.eqb (composite Float.f0_0 d h) (Float.sub Float.f1_0 d) = true.
Proof.
  unfold composite. intros Hn Hh.
  assert (Hm : exists s, Float.mul Float.f0_0 h = S754_zero s)
    by (destruct h; try contradiction; eexists; reflexivity).
  destruct Hm as [s ->].
  destruct (Float.sub Float.f1_0 d) as [sx|sx| |sx mx ex] eqn:E;
    try discriminate Hn.
  - destruct sx, s; reflexivity.
  - destruct sx; reflexivity.
  - apply float_eqb_refl. reflexivity.
Qed.

Lemma search_by_skills_exec (skills : list string) (min_years : Z) (top_k : nat) :
  let q := HireSight.skills_query skills min_years in
  exec index (HireSight.search_by_skills round4 skills min_years top_k) =
    if negb (min_years =? 0)%Z && str_raises min_years
    then ([], inr ValueError)
    else (one_call q top_k false,
          match sort_rows (map (skills_row skills min_years) (index q top_k false)) with
          | Some sorted => inl (map (scored_entry round4) (firstn top_k sorted))
          | None => inr TypeError
          end).
Proof.
  intros q. unfold HireSight.search_by_skills. fold q.
  destruct (negb (min_years =? 0)%Z && str_raises min_years); [reflexivity|].
  cbn [exec].
  destruct (sort_rows (map (skills_row skills min_years) (index q top_k false)));
    reflexivity.
Qed.

Lemma search_by_jd_exec (jd : string) (top_k : nat) :
  exec index (HireSight.search_by_jd round4 jd top_k) =
    (one_call jd top_k false, inl (map (plain_entry round4) (index jd top_k false))).
Proof. reflexivity. Qed.

Lemma NoDup_rid_filter (p : candidate -> bool) (pool : list candidate) :
  NoDup (map rid pool) -> NoDup (map rid (filter p pool)).
Proof.
  induction pool as [|c pool IH]; simpl; intros Hd; [constructor|].
  inversion Hd as [|? ? Hn Hd0]; subst.
  destruct (p c); simpl; [|now apply IH].
  constructor; [|now apply IH].
  intros Hin. apply Hn. apply in_map_iff in Hin. destruct Hin as [x [Hx Hin]].
  apply filter_In in Hin. apply in_map_iff. exists x. tauto.
Qed.

Lemma reranked_pool_ids (levels : list string) (pool : list candidate) :
  NoDup (map rid pool) -> NoDup (map rid (reranked_pool levels pool)).
Proof.
  intros Hd. unfold reranked_pool.
  pose proof (NoDup_rid_filter (fun c => strict_education_filter (doc c) levels) pool Hd) as Hk.
  fold (passing levels pool) in Hk.
  destruct (passing levels pool); [exact Hd | exact Hk].
Qed.

(** The education search of the web application, in the terms of the pool
    it re-ranks and of the tag of its path. *)
Lemma api_search_education_ranked (form : list (string * string)) :
  let levels := levels_of form in
  let pool := index (education_query levels) 30 false in
  let tag := path_tag levels pool in
  snd (exec index (api_search_education round4 form)) =
    match sort_rows (map (education_row levels) (reranked_pool levels pool)) with
    | Some sorted =>
        inl {| results := map (education_entry round4 levels tag) (firstn 5 sorted);
               search_type := Some tag |}
    | None => inr TypeError
    end.
Proof.
  intros levels pool tag. rewrite api_search_education_exec. cbn [snd].
  fold levels. fold pool. subst tag. unfold path_tag, reranked_pool, passing.
  unfold keyword_filter_education.
  destruct (filter (fun c => strict_education_filter (doc c) levels) pool);
    reflexivity.
Qed.

(** What the sort and the cut to the first [n] rows give, for any way [f]
    of scoring a candidate and any way [mk] of making an entry. *)
Lemma rerank_results (f : candidate -> row) (mk : row -> entry)
  (pool : list candidate) (n : nat) :
  (forall c, cand (f c) = c) ->
  NoDup (map rid pool) ->
  exists sorted,
    sort_rows (map f pool) = Some sorted /\
    Permutation sorted (map f pool) /\
    (Forall is_scored (map f pool) ->
     StronglySorted row_before sorted /\ StronglySorted row_before (firstn n sorted)) /\
    List.length (map mk (firstn n sorted)) = Nat.min n (List.length pool) /\
    (forall e, In e (map mk (firstn n sorted)) -> exists c, In c pool /\ e = mk (f c)) /\
    (List.length pool <= n ->
     forall c, In c pool -> In (mk (f c)) (map mk (firstn n sorted))).
Proof.
  intros Hf Hd.
  assert (Hd' : NoDup (map row_id (map f pool)))
    by (rewrite rescored_ids; auto).
  destruct (sort_rows_defined (map f pool) Hd') as [sorted [Hsort Hperm]].
  assert (Hlen : List.length sorted = List.length pool)
    by (rewrite (Permutation_length Hperm); apply length_map).
  exists sorted. split; [exact Hsort|]. split; [exact Hperm|].
  split; [|split; [|split]].
  - intros Hs. pose proof (sort_rows_sorted (map f pool) sorted Hd' Hs Hsort) as H.
    split; [exact H | now apply firstn_sorted].
  - now rewrite length_map, length_firstn, Hlen.
  - intros e He. exact (entries_from_pool f mk pool sorted n e Hperm He).
  - intros Hle c Hc. apply in_map. rewrite firstn_all2 by (rewrite Hlen; exact Hle).
    apply (Permutation_in _ (Permutation_sym Hperm)). now apply in_map.
Qed.

(** The same in the terms of the specification. *)
Lemma rerank_composite (weight : Float.float) (heuristic : string -> Float.float)
  (mk : row -> entry) (pool : list candidate) (n : nat) :
  (forall r, e_id (mk r) = rid (cand r) /\
             e_score (mk r) = Some (round4 (combined r)) /\
             e_similarity (mk r) = round4 (Float.sub Float.f1_0 (dist (cand r)))) ->
  NoDup (map rid pool) ->
  exists sorted,
    sort_rows (map (scored_by weight heuristic) pool) = Some sorted /\
    composite_ranking round4 weight heuristic pool n mk (map mk (firstn n sorted)).
Proof.
  intros Hmk Hd.
  destruct (rerank_results (scored_by weight heuristic) mk pool n (fun c => eq_refl) Hd)
    as [sorted [Hsort [Hperm [_ [Hlen [Hin Hall]]]]]].
  exists sorted. split; [exact Hsort|].
  exists sorted. split; [exact Hsort|]. split; [exact Hperm|].
  split; [reflexivity|]. split; [exact Hlen|]. split.
  - intros e He. destruct (Hin e He) as [c [Hc ->]]. exists c.
    split; [exact Hc|]. exact (Hmk (scored_by weight heuristic c)).
  - intros Hle c Hc. exists (mk (scored_by weight heuristic c)).
    split; [now apply Hall|]. exact (Hmk (scored_by weight heuristic c)).
Qed.

Lemma rerank_ranked (f : candidate -> row) (mk : row -> entry)
  (pool : list candidate) (n : nat) :
  (forall c, cand (f c) = c) ->
  NoDup (map rid pool) ->
  Forall is_scored (map f pool) ->
  exists sorted,
    sort_rows (map f pool) = Some sorted /\
    ranked_output (map f pool) n mk (map mk (firstn n sorted)).
Proof.
  intros Hf Hd Hs.
  destruct (rerank_results f mk pool n Hf Hd)
    as [sorted [Hsort [Hperm [Hsorted _]]]].
  exists sorted. split; [exact Hsort|].
  exists sorted. split; [reflexivity|]. split; [exact Hperm|]. exact (Hsorted Hs).
Qed.

End RerankFacts.

(** C7, as the code has it. Whenever the ids of the candidate pool are
    distinct and the composite scores are numbers, the output of every
    search that re-ranks (the skills search and the education search of the
    web application, the latter on its keyword path as on its fallback path,
    and the skills and education searches of [hiresight_engine.py]) is made
    from the first rows of a permutation of the re-scored candidates that is
    sorted by composite score descending, two rows with equal composite
    scores standing in descending order of their ids. The JD and general
    searches sort nothing: their output is the pool in the order the index
    gave it. *)
Theorem reranked_output_order
  (round4 : Float.float -> Float.float)
  (index : string -> nat -> bool -> list candidate) :
  (forall form,
      let skills := skills_of form in
      let min_years := years_of form in
      let pool := index (HireSight.skills_query skills min_years) 10 false in
      let rescored := map (skills_row skills min_years) pool in
      NoDup (map rid pool) ->
      Forall is_scored rescored ->
      exists sorted,
        snd (exec index (api_search_skills round4 form)) =
          inl {| results := map (scored_entry round4) (firstn 5 sorted);
                 search_type := None |} /\
        Permutation sorted rescored /\
        StronglySorted row_before sorted /\
        StronglySorted row_before (firstn 5 sorted)) /\
  (forall form,
      let levels := levels_of form in
      let pool := index (education_query levels) 30 false in
      let kept := filter (fun c => strict_education_filter (doc c) levels) pool in
      let rescored := map (education_row levels) kept in
      kept <> [] ->
      NoDup (map rid pool) ->
      Forall is_scored rescored ->
      exists resp,
        snd (exec index (api_search_education round4 form)) = inl resp /\
        search_type resp = Some (keyword_search_type (List.length kept)) /\
        ranked_output rescored 5
          (education_entry round4 levels (keyword_search_type (List.length kept)))
          (results resp)) /\
  (forall form,
      let levels := levels_of form in
      let pool := index (education_query levels) 30 false in
      let rescored := map (education_row levels) pool in
      (forall c, In c pool -> strict_education_filter (doc c) levels = false) ->
      NoDup (map rid pool) ->
      Forall is_scored rescored ->
      exists resp,
        snd (exec index (api_search_education round4 form)) = inl resp /\
        search_type resp = Some semantic_search_type /\
        ranked_output rescored 5
          (education_entry round4 levels semantic_search_type) (results resp)) /\
  (forall skills min_years top_k,
      let pool := index (HireSight.skills_query skills min_years) top_k false in
      let rescored := map (skills_row skills min_years) pool in
      min_years = 0%Z \/ str_raises min_years = false ->
      NoDup (map rid pool) ->
      Forall is_scored rescored ->
      exists entries,
        snd (exec index (HireSight.search_by_skills round4 skills min_years top_k)) =
          inl entries /\
        ranked_output rescored top_k (scored_entry round4) entries) /\
  (forall levels top_k,
      let pool := index (education_query levels) top_k false in
      let rescored := map (HireSight.education_row levels) pool in
      NoDup (map rid pool) ->
      Forall is_scored rescored ->
      exists entries,
        snd (exec index (HireSight.search_by_education round4 levels top_k)) =
          inl entries /\
        ranked_output rescored top_k (scored_entry round4) entries) /\
  (forall form,
      let jd := strip (form_get form "jd" EmptyString) in
      truthy jd = true ->
      snd (exec index (api_search_jd round4 form)) =
        inl {| results := map (plain_entry round4) (index jd 5 false);
               search_type := None |}) /\
  (forall form,
      let q := strip (form_get form "q" EmptyString) in
      let notes := String.eqb (lower (form_get form "include_notes" "n")) "y" in
      snd (exec index (api_search_general round4 form)) =
        inl {| results := map (plain_entry round4) (index q 5 notes);
               search_type := None |}) /\
  (forall jd top_k,
      snd (exec index (HireSight.search_by_jd round4 jd top_k)) =
        inl (map (plain_entry round4) (index jd top_k false))).
Proof.
  repeat apply conj.
  - intros form skills min_years pool rescored Hd Hs.
    destruct (rerank_results (skills_row skills min_years) (scored_entry round4)
                pool 5 (fun c => eq_refl) Hd)
      as [sorted [Hsort [Hperm [Hsorted _]]]].
    destruct (Hsorted Hs) as [H1 H2].
    exists sorted. repeat split; auto.
    rewrite api_search_skills_exec. cbn [snd].
    fold skills min_years pool. now rewrite Hsort.
  - intros form levels pool kept rescored Hne Hd Hs.
    assert (Hk : NoDup (map rid kept)) by (now apply NoDup_rid_filter).
    destruct (rerank_ranked (education_row levels)
                (education_entry round4 levels (keyword_search_type (List.length kept)))
                kept 5 (fun c => eq_refl) Hk Hs)
      as [sorted [Hsort Hranked]].
    exists {| results := map (education_entry round4 levels
                                (keyword_search_type (List.length kept)))
                            (firstn 5 sorted);
              search_type := Some (keyword_search_type (List.length kept)) |}.
    split; [|split; [reflexivity | exact Hranked]].
    rewrite (api_search_education_ranked round4 index form).
    fold levels. fold pool. unfold path_tag, reranked_pool, passing. fold kept.
    destruct kept as [|c kept'] eqn:E; [contradiction|].
    now rewrite Hsort.
  - intros form levels pool rescored Hnone Hd Hs.
    destruct (rerank_ranked (education_row levels)
                (education_entry round4 levels semantic_search_type)
                pool 5 (fun c => eq_refl) Hd Hs)
      as [sorted [Hsort Hranked]].
    exists {| results := map (education_entry round4 levels semantic_search_type)
                            (firstn 5 sorted);
              search_type := Some semantic_search_type |}.
    split; [|split; [reflexivity | exact Hranked]].
    rewrite (api_search_education_ranked round4 index form).
    fold levels. fold pool. unfold path_tag, reranked_pool, passing.
    rewrite (proj2 (filter_nil_iff _ pool) Hnone). now rewrite Hsort.
  - intros skills min_years top_k pool rescored Hm Hd Hs.
    destruct (rerank_ranked (skills_row skills min_years) (scored_entry round4)
                pool top_k (fun c => eq_refl) Hd Hs)
      as [sorted [Hsort Hranked]].
    exists (map (scored_entry round4) (firstn top_k sorted)).
    split; [|exact Hranked].
    rewrite search_by_skills_exec.
    assert (Hg : negb (min_years =? 0)%Z && str_raises min_years = false).
    { destruct Hm as [-> | ->]; [reflexivity | apply andb_false_r]. }
    rewrite Hg. cbn [snd]. fold pool. now rewrite Hsort.
  - intros levels top_k pool rescored Hd Hs.
    destruct (rerank_ranked (HireSight.education_row levels) (scored_entry round4)
                pool top_k (fun c => eq_refl) Hd Hs)
      as [sorted [Hsort Hranked]].
    exists (map (scored_entry round4) (firstn top_k sorted)).
    split; [|exact Hranked].
    rewrite search_by_education_exec. cbn [snd]. fold pool. now rewrite Hsort.
  - intros form jd Hjd. rewrite api_search_jd_exec. fold jd. now rewrite Hjd.
  - intros form q notes. now rewrite api_search_general_exec.
  - intros jd top_k. now rewrite search_by_jd_exec.
Qed.

Lemma reranked_output_order_witness :
  let a := {| rid := "a.txt"; doc := "java developer"; dist := Float.f0_1;
              meta := Some [("type", "resume")] |} in
  let b := {| rid := "b.txt"; doc := "python sql 1 year, B.Tech"; dist := Float.f0_5;
              meta := Some [("type", "resume")] |} in
  let index := fun (_ : string) (_ : nat) (_ : bool) => [a; b] in
  let form := [("skills", "python, sql"); ("years", "3"); ("levels", "bachelors")] in
  (exists sorted,
     snd (exec index (api_search_skills (fun x => x) form)) =
       inl {| results := map (scored_entry (fun x => x)) (firstn 5 sorted);
              search_type := None |} /\
     Permutation sorted (map (skills_row (skills_of form) (years_of form)) [a; b]) /\
     StronglySorted row_before sorted /\
     StronglySorted row_before (firstn 5 sorted)) /\
  (exists resp,
     snd (exec index (api_search_education (fun x => x) form)) = inl resp /\
     search_type resp = Some (keyword_search_type 1) /\
     ranked_output (map (education_row ["bachelors"]) [b]) 5
       (education_entry (fun x => x) ["bachelors"] (keyword_search_type 1))
       (results resp)) /\
  (exists entries,
     snd (exec index (HireSight.search_by_skills (fun x => x) ["python"] (-3) 10)) =
       inl entries /\
     ranked_output (map (skills_row ["python"] (-3)) [a; b]) 10
       (scored_entry (fun x => x)) entries).
Proof.
  intros a b index form.
  pose proof (reranked_output_order (fun x => x) index) as H.
  split; [|split].
  - apply (proj1 H form).
    + simpl. repeat constructor; simpl; intuition discriminate.
    + repeat constructor; vm_compute; reflexivity.
  - apply (proj1 (proj2 H) form).
    + vm_compute. discriminate.
    + simpl. repeat constructor; simpl; intuition discriminate.
    + repeat constructor; vm_compute; reflexivity.
  - apply (proj1 (proj2 (proj2 (proj2 H))) ["python"] (-3)%Z 10).
    + right. vm_compute. reflexivity.
    + simpl. repeat constructor; simpl; intuition discriminate.
    + repeat constructor; vm_compute; reflexivity.
Defined.

(** C7 as stated fails: two candidates with equal composite scores come out
    of the sort with the greater id first, not in the order of the pool. *)
Lemma rerank_ties_counterexample :
  let a := {| rid := "a.txt"; doc := "python"; dist := Float.f0_5;
              meta := Some [("type", "resume")] |} in
  let b := {| rid := "b.txt"; doc := "python"; dist := Float.f0_5;
              meta := Some [("type", "resume")] |} in
  let index := fun (_ : string) (_ : nat) (_ : bool) => [a; b] in
  let form := [("skills", "python")] in
  let rescored := map (skills_row (skills_of form) (years_of form)) [a; b] in
  match rescored with
  | [ra; rb] => Float.eqb (combined ra) (combined rb) = true
  | _ => False
  end /\
  map row_id (stable_by_composite rescored) = ["a.txt"; "b.txt"] /\
  option_map (map row_id) (sort_rows rescored) = Some ["b.txt"; "a.txt"] /\
  sort_rows rescored <> Some (stable_by_composite rescored) /\
  match snd (exec index (api_search_skills (fun x => x) form)) with
  | inl resp => map e_id (results resp) = ["b.txt"; "a.txt"]
  | inr _ => False
  end.
Proof. vm_compute. repeat split. discriminate. Qed.

(** C2. For an education query whose pool is not empty, has distinct ids and
    holds no candidate that passes the strict education filter, the search
    re-scores the whole pool with the composite of weight 0.4, sorts it, and
    returns its first five rows, as many as the smaller of five and the size
    of the pool and so at least one; the response carries the tag of the
    semantic path, which differs from every tag of the keyword path. *)
Theorem education_funnel_fallback
  (round4 : Float.float -> Float.float)
  (index : string -> nat -> bool -> list candidate)
  (form : list (string * string)) :
  let levels := levels_of form in
  let pool := index (education_query levels) 30 false in
  let rescored := map (education_row levels) pool in
  pool <> [] ->
  (forall c, In c pool -> strict_education_filter (doc c) levels = false) ->
  NoDup (map rid pool) ->
  exists sorted,
    exec index (api_search_education round4 form) =
      (one_call (education_query levels) 30 false,
       inl {| results := map (education_entry round4 levels semantic_search_type)
                           (firstn 5 sorted);
              search_type := Some semantic_search_type |}) /\
    sort_rows rescored = Some sorted /\
    Permutation sorted rescored /\
    (Forall is_scored rescored -> StronglySorted row_before sorted) /\
    (forall r, In r sorted ->
       In (cand r) pool /\
       combined r =
         composite Float.f0_4 (dist (cand r)) (score_education (doc (cand r)) levels)) /\
    List.length (map (education_entry round4 levels semantic_search_type) (firstn 5 sorted))
      = Nat.min 5 (List.length pool) /\
    map (education_entry round4 levels semantic_search_type) (firstn 5 sorted) <> [] /\
    (forall found, semantic_search_type <> keyword_search_type found).
Proof.
  intros levels pool rescored Hne Hnone Hd.
  assert (Hd' : NoDup (map row_id rescored))
    by (unfold rescored; rewrite rescored_ids; auto).
  destruct (sort_rows_defined rescored Hd') as [sorted [Hsort Hperm]].
  assert (Hlen : List.length sorted = List.length pool).
  { rewrite (Permutation_length Hperm). unfold rescored. apply length_map. }
  assert (Hcount : List.length (map (education_entry round4 levels semantic_search_type)
                                  (firstn 5 sorted)) = Nat.min 5 (List.length pool))
    by (now rewrite length_map, length_firstn, Hlen).
  exists sorted. repeat split; auto.
  - rewrite api_search_education_exec. fold levels. fold pool.
    assert (Hf : filter (fun c => keyword_filter_education (doc c) levels) pool = [])
      by (apply filter_nil_iff; exact Hnone).
    rewrite Hf. fold rescored. now rewrite Hsort.
  - intros Hs. now apply (sort_rows_sorted rescored).
  - apply (Permutation_in _ Hperm) in H. apply in_map_iff in H.
    destruct H as [c [<- Hc]]. exact Hc.
  - apply (Permutation_in _ Hperm) in H. apply in_map_iff in H.
    destruct H as [c [<- Hc]]. reflexivity.
  - intros Hnil. rewrite Hnil in Hcount. simpl in Hcount.
    destruct pool; [contradiction | simpl in Hcount; discriminate].
  - apply search_types_differ.
Qed.

Lemma education_funnel_fallback_witness :
  let a := {| rid := "a.txt"; doc := "java developer"; dist := Float.f0_1;
              meta := Some [("type", "resume")] |} in
  let b := {| rid := "b.txt"; doc := "B.Tech in ECE"; dist := Float.f0_5;
              meta := Some [("type", "resume")] |} in
  let index := fun (_ : string) (_ : nat) (_ : bool) => [a; b] in
  let form := [("levels", "phd")] in
  exists sorted,
    exec index (api_search_education (fun x => x) form) =
      (one_call "candidates with phd" 30 false,
       inl {| results := map (education_entry (fun x => x) ["phd"] semantic_search_type)
                           (firstn 5 sorted);
              search_type := Some semantic_search_type |}) /\
    map (education_entry (fun x => x) ["phd"] semantic_search_type) (firstn 5 sorted) <> [].
Proof.
  intros a b index form.
  destruct (education_funnel_fallback (fun x => x) index form) as [sorted H].
  - discriminate.
  - intros c [<-|[<-|[]]]; vm_compute; reflexivity.
  - simpl. repeat constructor; simpl; intuition discriminate.
  - exists sorted. split; [exact (proj1 H)|].
    exact (proj1 (proj2 (proj2 (proj2 (proj2 (proj2 (proj2 H))))))).
Defined.

(** The keyword path of the education search: when some candidate passes
    the strict filter, only those are re-scored, with the same composite,
    and the tag counts them. *)
Lemma education_keyword_path
  (round4 : Float.float -> Float.float)
  (index : string -> nat -> bool -> list candidate)
  (form : list (string * string)) :
  let levels := levels_of form in
  let pool := index (education_query levels) 30 false in
  let kept := filter (fun c => strict_education_filter (doc c) levels) pool in
  kept <> [] ->
  NoDup (map rid pool) ->
  exists sorted,
    snd (exec index (api_search_education round4 form)) =
      inl {| results := map (education_entry round4 levels
                               (keyword_search_type (List.length kept)))
                           (firstn 5 sorted);
             search_type := Some (keyword_search_type (List.length kept)) |} /\
    Permutation sorted (map (education_row levels) kept).
Proof.
  intros levels pool kept Hne Hd.
  assert (Hd' : NoDup (map row_id (map (education_row levels) kept))).
  { rewrite rescored_ids by reflexivity. unfold kept.
    clear Hne. induction pool as [|c pool IH]; simpl; [constructor|].
    inversion Hd as [|? ? Hn Hd0]; subst.
    destruct (strict_education_filter (doc c) levels); simpl; [|now apply IH].
    constructor; [|now apply IH].
    intros Hin. apply Hn. apply in_map_iff in Hin. destruct Hin as [x [Hx Hin]].
    apply filter_In in Hin. apply in_map_iff. exists x. tauto. }
  destruct (sort_rows_defined _ Hd') as [sorted [Hsort Hperm]].
  exists sorted. split; [|exact Hperm].
  rewrite api_search_education_exec. cbn [snd]. fold levels. fold pool.
  unfold keyword_filter_education. fold kept.
  destruct kept as [|c kept']; [contradiction|]. now rewrite Hsort.
Qed.

(** C3. Every search that re-ranks gives each candidate it re-ranks the
    composite [(1 - distance) + weight * heuristic score] in binary64, with
    weight 0.3 and the skill score for the skills searches and weight 0.4
    and the education score for the education searches: the response is made
    from the first rows (five in the web application) of the pool so scored
    and sorted, it has as many entries as the smaller of that number and the
    size of the pool, every entry carries the id, the rounded composite and
    the rounded similarity of a candidate of the pool, and every candidate of
    a pool that is not cut has its entry. The JD and general searches give
    each candidate of the pool, in order, an entry with the similarity
    [1 - distance] alone, which is the composite of weight 0. When the index
    returns two candidates of similarity 0.9 and 0.5 whose skill scores are
    0 and 2.0, the skills search answers with the second before the first,
    with the scores 1.1 and 0.9. *)
Theorem composite_score_formula
  (round4 : Float.float -> Float.float)
  (index : string -> nat -> bool -> list candidate) :
  (forall form,
      let skills := skills_of form in
      let min_years := years_of form in
      let pool := index (HireSight.skills_query skills min_years) 10 false in
      let heuristic := fun text => Scorer.score_skills_and_experience text skills min_years in
      NoDup (map rid pool) ->
      exists resp,
        snd (exec index (api_search_skills round4 form)) = inl resp /\
        composite_ranking round4 Float.f0_3 heuristic pool 5
          (scored_entry round4) (results resp)) /\
  (forall form,
      let levels := levels_of form in
      let pool := index (education_query levels) 30 false in
      let heuristic := fun text => score_education text levels in
      NoDup (map rid pool) ->
      exists resp,
        snd (exec index (api_search_education round4 form)) = inl resp /\
        composite_ranking round4 Float.f0_4 heuristic (reranked_pool levels pool) 5
          (education_entry round4 levels (path_tag levels pool)) (results resp)) /\
  (forall skills min_years top_k,
      let pool := index (HireSight.skills_query skills min_years) top_k false in
      let heuristic := fun text => Scorer.score_skills_and_experience text skills min_years in
      min_years = 0%Z \/ str_raises min_years = false ->
      NoDup (map rid pool) ->
      exists entries,
        snd (exec index (HireSight.search_by_skills round4 skills min_years top_k)) =
          inl entries /\
        composite_ranking round4 Float.f0_3 heuristic pool top_k
          (scored_entry round4) entries) /\
  (forall levels top_k,
      let pool := index (education_query levels) top_k false in
      let heuristic := fun text => HireSight.score_education text levels in
      NoDup (map rid pool) ->
      exists entries,
        snd (exec index (HireSight.search_by_education round4 levels top_k)) =
          inl entries /\
        composite_ranking round4 Float.f0_4 heuristic pool top_k
          (scored_entry round4) entries) /\
  (forall form,
      let jd := strip (form_get form "jd" EmptyString) in
      truthy jd = true ->
      snd (exec index (api_search_jd round4 form)) =
        inl {| results := map (plain_entry round4) (index jd 5 false);
               search_type := None |}) /\
  (forall form,
      let q := strip (form_get form "q" EmptyString) in
      let notes := String.eqb (lower (form_get form "include_notes" "n")) "y" in
      snd (exec index (api_search_general round4 form)) =
        inl {| results := map (plain_entry round4) (index q 5 notes);
               search_type := None |}) /\
  (forall c h,
      e_id (plain_entry round4 c) = rid c /\
      e_score (plain_entry round4 c) = None /\
      e_similarity (plain_entry round4 c) = round4 (Float.sub Float.f1_0 (dist c)) /\
      (Float.is_number (Float.sub Float.f1_0 (dist c)) = true ->
       match h with S754_zero _ | S754_finite _ _ _ => True | _ => False end ->
       Float.eqb (composite Float.f0_0 (dist c) h) (Float.sub Float.f1_0 (dist c)) = true)) /\
  (forall form c1 c2,
      let skills := skills_of form in
      let min_years := years_of form in
      index (HireSight.skills_query skills min_years) 10 false = [c1; c2] ->
      Float.sub Float.f1_0 (dist c1) = Float.f0_9 ->
      Scorer.score_skills_and_experience (doc c1) skills min_years = Float.f0_0 ->
      Float.sub Float.f1_0 (dist c2) = Float.f0_5 ->
      Scorer.score_skills_and_experience (doc c2) skills min_years = Float.f2_0 ->
      composite Float.f0_3 (dist c1) Float.f0_0 = Float.f0_9 /\
      composite Float.f0_3 (dist c2) Float.f2_0 = Float.f1_1 /\
      snd (exec index (api_search_skills round4 form)) =
        inl {| results :=
                 [ {| e_id := rid c2;
                      e_score := Some (round4 Float.f1_1);
                      e_similarity := round4 Float.f0_5;
                      e_search_type := None;
                      e_education_keywords := None;
                      e_found_keywords := [] |};
                   {| e_id := rid c1;
                      e_score := Some (round4 Float.f0_9);
                      e_similarity := round4 Float.f0_9;
                      e_search_type := None;
                      e_education_keywords := None;
                      e_found_keywords := [] |} ];
               search_type := None |}).
Proof.
  repeat apply conj.
  - intros form skills min_years pool heuristic Hd.
    destruct (rerank_composite round4 Float.f0_3 heuristic (scored_entry round4) pool 5)
      as [sorted [Hsort Hranking]]; [intros r; repeat split | exact Hd |].
    exists {| results := map (scored_entry round4) (firstn 5 sorted);
              search_type := None |}.
    split; [|exact Hranking].
    rewrite api_search_skills_exec. cbn [snd]. fold skills min_years pool.
    change (map (skills_row skills min_years) pool)
      with (map (scored_by Float.f0_3 heuristic) pool).
    now rewrite Hsort.
  - intros form levels pool heuristic Hd.
    destruct (rerank_composite round4 Float.f0_4 heuristic
                (education_entry round4 levels (path_tag levels pool))
                (reranked_pool levels pool) 5)
      as [sorted [Hsort Hranking]];
      [intros r; repeat split | now apply reranked_pool_ids |].
    exists {| results := map (education_entry round4 levels (path_tag levels pool))
                            (firstn 5 sorted);
              search_type := Some (path_tag levels pool) |}.
    split; [|exact Hranking].
    rewrite (api_search_education_ranked round4 index form). fold levels. fold pool.
    change (map (education_row levels) (reranked_pool levels pool))
      with (map (scored_by Float.f0_4 heuristic) (reranked_pool levels pool)).
    now rewrite Hsort.
  - intros skills min_years top_k pool heuristic Hm Hd.
    destruct (rerank_composite round4 Float.f0_3 heuristic (scored_entry round4) pool top_k)
      as [sorted [Hsort Hranking]]; [intros r; repeat split | exact Hd |].
    exists (map (scored_entry round4) (firstn top_k sorted)).
    split; [|exact Hranking].
    rewrite search_by_skills_exec.
    assert (Hg : negb (min_years =? 0)%Z && str_raises min_years = false).
    { destruct Hm as [-> | ->]; [reflexivity | apply andb_false_r]. }
    rewrite Hg. cbn [snd]. fold pool.
    change (map (skills_row skills min_years) pool)
      with (map (scored_by Float.f0_3 heuristic) pool).
    now rewrite Hsort.
  - intros levels top_k pool heuristic Hd.
    destruct (rerank_composite round4 Float.f0_4 heuristic (scored_entry round4) pool top_k)
      as [sorted [Hsort Hranking]]; [intros r; repeat split | exact Hd |].
    exists (map (scored_entry round4) (firstn top_k sorted)).
    split; [|exact Hranking].
    rewrite search_by_education_exec. cbn [snd]. fold pool.
    change (map (HireSight.education_row levels) pool)
      with (map (scored_by Float.f0_4 heuristic) pool).
    now rewrite Hsort.
  - intros form jd Hjd. rewrite api_search_jd_exec. fold jd. now rewrite Hjd.
  - intros form q notes. now rewrite api_search_general_exec.
  - intros c h. repeat split. apply composite_weight_zero.
  - intros form c1 c2 skills min_years Hpool H1 S1 H2 S2.
    assert (E1 : combined (skills_row skills min_years c1) = Float.f0_9)
      by (unfold skills_row; cbn [combined]; rewrite H1, S1; reflexivity).
    assert (E2 : combined (skills_row skills min_years c2) = Float.f1_1)
      by (unfold skills_row; cbn [combined]; rewrite H2, S2; reflexivity).
    split; [unfold composite; rewrite H1; reflexivity|].
    split; [unfold composite; rewrite H2; reflexivity|].
    rewrite api_search_skills_exec. cbn [snd]. fold skills min_years.
    rewrite Hpool. cbn [map].
    assert (Hsort : sort_rows [skills_row skills min_years c1; skills_row skills min_years c2]
                    = Some [skills_row skills min_years c2; skills_row skills min_years c1]).
    { unfold sort_rows. cbn [PySort.sort_desc_exn PySort.insert_desc_exn].
      unfold row_lt. rewrite E1, E2. reflexivity. }
    rewrite Hsort. cbn [firstn map]. unfold scored_entry, similarity.
    rewrite E1, E2. unfold skills_row. cbn [cand]. rewrite H1, H2. reflexivity.
Qed.

Lemma composite_score_formula_witness :
  let c1 := {| rid := "a.txt"; doc := "java developer"; dist := Float.f0_1;
               meta := Some [("type", "resume")] |} in
  let c2 := {| rid := "b.txt"; doc := "python sql 1 year"; dist := Float.f0_5;
               meta := Some [("type", "resume")] |} in
  let index := fun (_ : string) (_ : nat) (_ : bool) => [c1; c2] in
  let form := [("skills", "python, sql"); ("years", "3")] in
  (composite Float.f0_3 Float.f0_1 Float.f0_0 = Float.f0_9 /\
   composite Float.f0_3 Float.f0_5 Float.f2_0 = Float.f1_1 /\
   snd (exec index (api_search_skills (fun x => x) form)) =
     inl {| results :=
              [ {| e_id := "b.txt"; e_score := Some Float.f1_1;
                   e_similarity := Float.f0_5; e_search_type := None;
                   e_education_keywords := None; e_found_keywords := [] |};
                {| e_id := "a.txt"; e_score := Some Float.f0_9;
                   e_similarity := Float.f0_9; e_search_type := None;
                   e_education_keywords := None; e_found_keywords := [] |} ];
            search_type := None |}) /\
  (exists resp,
     snd (exec index (api_search_skills (fun x => x) form)) = inl resp /\
     composite_ranking (fun x => x) Float.f0_3
       (fun text => Scorer.score_skills_and_experience text ["python"; "sql"] 3)
       [c1; c2] 5 (scored_entry (fun x => x)) (results resp)) /\
  (exists entries,
     snd (exec index (HireSight.search_by_education (fun x => x) ["PhD"] 10)) =
       inl entries /\
     composite_ranking (fun x => x) Float.f0_4
       (fun text => HireSight.score_education text ["PhD"])
       [c1; c2] 10 (scored_entry (fun x => x)) entries).
Proof.
  intros c1 c2 index form.
  pose proof (composite_score_formula (fun x => x) index) as H.
  split; [|split].
  - apply (proj2 (proj2 (proj2 (proj2 (proj2 (proj2 (proj2 H)))))) form c1 c2);
      vm_compute; reflexivity.
  - apply (proj1 H form).
    simpl. repeat constructor; simpl; intuition discriminate.
  - apply (proj1 (proj2 (proj2 (proj2 H))) ["PhD"] 10).
    simpl. repeat constructor; simpl; intuition discriminate.
Defined.

(* ================================================================= *)
(** ** Blank queries *)

(** The JD search answers a blank query at once, without a call. *)
Lemma api_search_jd_blank
  (round4 : Float.float -> Float.float) (form : list (string * string)) :
  strip (form_get form "jd" EmptyString) = EmptyString ->
  api_search_jd round4 form = Ret {| results := []; search_type := None |}.
Proof. intros H. unfold api_search_jd. now rewrite H. Qed.

(** C8 fails in the code. The JD search returns the empty list without a
    call on a blank query, but the general search passes the blank query,
    stripped to the empty string, to the index and returns what the index
    gives; the education search asks the index for "candidates with " and
    the skills search for the empty string. *)
Theorem blank_query_reaches_index
  (round4 : Float.float -> Float.float)
  (index : string -> nat -> bool -> list candidate) :
  exec index (api_search_jd round4 [("jd", "   ")]) =
    ([], inl {| results := []; search_type := None |}) /\
  exec index (api_search_general round4 [("q", "   ")]) =
    (one_call EmptyString 5 false,
     inl {| results := map (plain_entry round4) (index EmptyString 5 false);
            search_type := None |}) /\
  fst (exec index (api_search_education round4 [("levels", "   ")])) =
    one_call "candidates with " 30 false /\
  fst (exec index (api_search_skills round4 [("skills", "   "); ("years", EmptyString)])) =
    one_call EmptyString 10 false.
Proof.
  repeat split.
  - now rewrite api_search_education_exec.
  - now rewrite api_search_skills_exec.
Qed.

(* ================================================================= *)
(** * Further properties *)

(* ================================================================= *)
(** ** The matches, level by level *)

Section MatchShape.

Lemma match_level_eq (text lvl : string) :
  match_level (lower text) (extract_education_section text) lvl =
    if has_forms text lvl then [match_of text lvl] else [].
Proof.
  unfold match_level, has_forms, match_of, level_confidence, surface_forms.
  destruct (dict_get education_patterns lvl) as [patterns|]; [|reflexivity].
  destruct (keywords_of patterns (lower text)); reflexivity.
Qed.

Lemma find_education_matches_eq (text : string) (target_levels : option (list string)) :
  find_education_matches text target_levels =
    map (match_of text) (filter (has_forms text) (levels_to_check target_levels)).
Proof.
  unfold find_education_matches.
  induction (levels_to_check target_levels) as [|lvl levels IH]; [reflexivity|].
  cbn [flat_map filter]. rewrite match_level_eq, IH.
  destruct (has_forms text lvl); reflexivity.
Qed.

(** The eight confidences, without the conditions that select them. *)
Lemma confidence_range (keywords : list string) (section_text lvl : string) :
  Float.leb Float.f0_4 (calculate_confidence keywords section_text lvl) = true /\
  Float.leb (calculate_confidence keywords section_text lvl) Float.f1_0 = true.
Proof.
  unfold calculate_confidence.
  destruct (existsb (fun keyword => contains keyword section_text) keywords),
    (existsb (fun keyword => mem keyword keywords) specific_keywords),
    (contains "experience" section_text || contains "work" section_text);
    vm_compute; split; reflexivity.
Qed.

Lemma has_forms_table (text lvl : string) :
  has_forms text lvl = true -> dict_get education_patterns lvl <> None.
Proof.
  unfold has_forms, surface_forms.
  destruct (dict_get education_patterns lvl); [discriminate | discriminate].
Qed.

Lemma lower_level_name (lvl : string) :
  dict_get education_patterns lvl <> None -> lower lvl = lvl.
Proof.
  destruct (dict_get education_patterns lvl) as [patterns|] eqn:Hp; [|contradiction].
  intros _. destruct (level_of_pattern_table _ _ Hp) as [E|[E|E]]; rewrite E; reflexivity.
Qed.

End MatchShape.

(** X1. The matches are one per requested level whose patterns find
    something, in the order of the request, each with the keywords of its
    level, the section of the text and a confidence between 0.4 and 1; so
    there are never more matches than requested levels. *)
Theorem find_education_matches_shape
  (text : string) (target_levels : option (list string)) :
  find_education_matches text target_levels =
    map (match_of text) (filter (has_forms text) (levels_to_check target_levels)) /\
  List.length (find_education_matches text target_levels)
    <= List.length (levels_to_check target_levels) /\
  (forall m, In m (find_education_matches text target_levels) ->
     In (level m) (levels_to_check target_levels) /\
     keywords_found m <> [] /\
     Float.leb Float.f0_4 (confidence m) = true /\
     Float.leb (confidence m) Float.f1_0 = true).
Proof.
  rewrite find_education_matches_eq. repeat split.
  - rewrite length_map. apply filter_length_le.
  - apply in_map_iff in H. destruct H as [lvl [<- Hl]].
    apply filter_In in Hl. apply Hl.
  - apply in_map_iff in H. destruct H as [lvl [<- Hl]].
    apply filter_In in Hl. destruct Hl as [_ Hf].
    unfold has_forms in Hf. cbn [keywords_found match_of].
    destruct (surface_forms lvl text); [discriminate Hf | discriminate].
  - apply in_map_iff in H. destruct H as [lvl [<- Hl]].
    apply confidence_range.
  - apply in_map_iff in H. destruct H as [lvl [<- Hl]].
    apply confidence_range.
Qed.

Lemma find_education_matches_shape_witness :
  List.length (find_education_matches "MBA, Pune University" (Some ["phd"; "masters"]))
  <= List.length (levels_to_check (Some ["phd"; "masters"])).
Proof.
  exact (proj1 (proj2
    (find_education_matches_shape "MBA, Pune University" (Some ["phd"; "masters"])))).
Defined.

(* ================================================================= *)
(** ** What the strict filter tests *)

Section StrictFilter.

Lemma levels_to_check_some (levels : list string) :
  levels <> [] -> levels_to_check (Some levels) = levels.
Proof. destruct levels; [contradiction | reflexivity]. Qed.

Lemma found_iff_forms (text : string) (target_levels : option (list string)) :
  find_education_matches text target_levels <> [] <->
  exists lvl, In lvl (levels_to_check target_levels) /\ has_forms text lvl = true.
Proof.
  rewrite find_education_matches_eq. split.
  - intros H.
    destruct (filter (has_forms text) (levels_to_check target_levels)) as [|lvl ls] eqn:Hf;
      [contradiction|].
    exists lvl. apply filter_In. rewrite Hf. now left.
  - intros [lvl Hl] Hnil. apply filter_In in Hl.
    apply (in_map (match_of text)) in Hl. rewrite Hnil in Hl. destruct Hl.
Qed.

Lemma strict_filter_found (text : string) (levels : list string) :
  levels <> [] ->
  (strict_education_filter text levels = true <->
   find_education_matches text (Some levels) <> []).
Proof.
  intros Hne. unfold strict_education_filter.
  destruct (get_highest_education text (Some levels)) as [m|] eqn:Hg.
  - pose proof (get_highest_education_in _ _ _ Hg) as Hin.
    split; [intros _ Hnil; rewrite Hnil in Hin; destruct Hin|intros _].
    rewrite find_education_matches_eq in Hin. apply in_map_iff in Hin.
    destruct Hin as [lvl [<- Hl]]. apply filter_In in Hl. destruct Hl as [Hl Hf].
    rewrite (levels_to_check_some _ Hne) in Hl.
    cbn [level match_of]. apply mem_exists.
    rewrite <- (lower_level_name lvl (has_forms_table _ _ Hf)).
    now apply in_map.
  - apply get_highest_education_none in Hg. rewrite Hg.
    split; [discriminate | intros H; now contradiction H].
Qed.

Lemma keywords_found_iff (text : string) (levels : list string) :
  get_education_keywords_found text levels <> [] <->
  get_highest_education text (Some levels) <> None.
Proof.
  unfold get_education_keywords_found.
  destruct (get_highest_education text (Some levels)) as [m|] eqn:Hg.
  - split; [discriminate|intros _].
    apply get_highest_education_in in Hg.
    rewrite find_education_matches_eq in Hg. apply in_map_iff in Hg.
    destruct Hg as [lvl [<- Hl]]. apply filter_In in Hl. destruct Hl as [_ Hf].
    unfold has_forms in Hf. cbn [keywords_found match_of].
    destruct (surface_forms lvl text); [discriminate Hf | discriminate].
  - split; intros H; now contradiction H.
Qed.

End StrictFilter.

(** X2. For a non-empty list of levels the strict filter holds exactly when
    the patterns of some requested level find something in the text: the
    level of the returned match is always a requested one, so the test of
    membership adds nothing. It holds exactly when a dominant level is
    returned and exactly when keywords are reported for highlighting. *)
Theorem strict_filter_is_any_match (text : string) (levels : list string) :
  levels <> [] ->
  (strict_education_filter text levels = true <->
   exists lvl, In lvl levels /\ has_forms text lvl = true) /\
  (strict_education_filter text levels = true <->
   get_highest_education text (Some levels) <> None) /\
  (strict_education_filter text levels = true <->
   get_education_keywords_found text levels <> []).
Proof.
  intros Hne.
  assert (H1 : strict_education_filter text levels = true <->
               get_highest_education text (Some levels) <> None).
  { rewrite (strict_filter_found _ _ Hne), get_highest_education_none. tauto. }
  repeat split.
  - intros H. apply (strict_filter_found _ _ Hne), found_iff_forms in H.
    now rewrite (levels_to_check_some _ Hne) in H.
  - intros H. apply (strict_filter_found _ _ Hne), found_iff_forms.
    now rewrite (levels_to_check_some _ Hne).
  - apply H1.
  - apply H1.
  - intros H. apply keywords_found_iff, H1, H.
  - intros H. apply H1, keywords_found_iff, H.
Qed.

Lemma strict_filter_is_any_match_witness :
  strict_education_filter "B.Tech in ECE, later MBA" ["phd"; "masters"] = true <->
  exists lvl, In lvl ["phd"; "masters"] /\ has_forms "B.Tech in ECE, later MBA" lvl = true.
Proof.
  apply (strict_filter_is_any_match "B.Tech in ECE, later MBA" ["phd"; "masters"]).
  discriminate.
Defined.

(** X3. A requested level that is not a key of the pattern table, such as
    "PhD" or "Masters" with capitals or "diploma", is passed over: when no
    requested level is a key, no match is found for any text, the filter is
    false, no keyword is reported and the education score is 0.0. *)
Theorem unknown_levels_never_match (text : string) (levels : list string) :
  levels <> [] ->
  (forall lvl, In lvl levels -> dict_get education_patterns lvl = None) ->
  find_education_matches text (Some levels) = [] /\
  get_highest_education text (Some levels) = None /\
  strict_education_filter text levels = false /\
  get_education_keywords_found text levels = [] /\
  score_education text levels = Float.f0_0.
Proof.
  intros Hne Hunknown.
  assert (Hnil : find_education_matches text (Some levels) = []).
  { rewrite find_education_matches_eq, (levels_to_check_some _ Hne).
    replace (filter (has_forms text) levels) with (@nil string); [reflexivity|].
    symmetry. apply filter_nil_iff. intros lvl Hl.
    unfold has_forms, surface_forms. now rewrite (Hunknown lvl Hl). }
  assert (Hg : get_highest_education text (Some levels) = None)
    by now apply get_highest_education_none.
  unfold strict_education_filter, get_education_keywords_found, score_education.
  rewrite Hg. repeat split; assumption.
Qed.

Lemma unknown_levels_never_match_witness :
  strict_education_filter "PhD in Physics from MIT" ["PhD"; "Masters"] = false.
Proof.
  refine (proj1 (proj2 (proj2
    (unknown_levels_never_match "PhD in Physics from MIT" ["PhD"; "Masters"] _ _)))).
  - discriminate.
  - intros lvl [<-|[<-|[]]]; reflexivity.
Defined.

(** X4. The education score of the web application is 0.0 when no dominant
    level is found and otherwise the confidence of the dominant level, which
    lies between 0.4 and 1.0. *)
Theorem score_education_range (text : string) (levels : list string) :
  (get_highest_education text (Some levels) = None /\
   score_education text levels = Float.f0_0) \/
  (exists m,
     get_highest_education text (Some levels) = Some m /\
     score_education text levels = confidence m /\
     Float.leb Float.f0_4 (score_education text levels) = true /\
     Float.leb (score_education text levels) Float.f1_0 = true).
Proof.
  unfold score_education.
  destruct (get_highest_education text (Some levels)) as [m|] eqn:Hg; [right | now left].
  exists m. repeat split.
  - apply get_highest_education_in in Hg.
    rewrite find_education_matches_eq in Hg. apply in_map_iff in Hg.
    destruct Hg as [lvl [<- _]]. apply confidence_range.
  - apply get_highest_education_in in Hg.
    rewrite find_education_matches_eq in Hg. apply in_map_iff in Hg.
    destruct Hg as [lvl [<- _]]. apply confidence_range.
Qed.

(* ================================================================= *)
(** ** Lower case, lines and joins *)

Section CaseFacts.

Lemma lower_char_idem (c : ascii) : lower_char (lower_char c) = lower_char c.
Proof. destruct c as [[] [] [] [] [] [] [] []]; reflexivity. Qed.

Lemma lower_char_newline (c : ascii) :
  Ascii.eqb (lower_char c) newline = Ascii.eqb c newline.
Proof. destruct c as [[] [] [] [] [] [] [] []]; reflexivity. Qed.

Lemma lower_idem (s : string) : lower (lower s) = lower s.
Proof.
  induction s as [|c s IH]; simpl; [reflexivity|].
  now rewrite lower_char_idem, IH.
Qed.

Lemma lower_append (a b : string) :
  lower (String.append a b) = String.append (lower a) (lower b).
Proof. induction a as [|c a IH]; simpl; [reflexivity | now rewrite IH]. Qed.

Lemma split_lower (s : string) :
  split newline (lower s) = map lower (split newline s).
Proof.
  induction s as [|c s IH]; [reflexivity|].
  cbn [lower split]. rewrite lower_char_newline, IH.
  destruct (Ascii.eqb c newline); [reflexivity|].
  destruct (split newline s); reflexivity.
Qed.

Lemma join_lower (ls : list string) :
  lower (join (String newline EmptyString) ls) =
  join (String newline EmptyString) (map lower ls).
Proof.
  unfold join. induction ls as [|l ls IH]; [reflexivity|].
  destruct ls as [|l' ls]; [reflexivity|].
  cbn [String.concat map] in *. rewrite !lower_append, IH. reflexivity.
Qed.

Lemma has_header_lower (l : string) : has_header (lower l) = has_header l.
Proof. unfold has_header. now rewrite lower_idem. Qed.

Lemma has_closing_lower (l : string) : has_closing (lower l) = has_closing l.
Proof. unfold has_closing. now rewrite lower_idem. Qed.

Lemma collect_lines_lower (b : bool) (ls : list string) :
  collect_lines b (map lower ls) = map lower (collect_lines b ls).
Proof.
  revert b. induction ls as [|l ls IH]; intros b; [reflexivity|].
  cbn [map]. rewrite !collect_lines_step, has_header_lower, has_closing_lower.
  destruct (has_header l); [cbn [map]; now rewrite IH|].
  destruct b; [|apply IH].
  destruct (has_closing l); [reflexivity | cbn [map]; now rewrite IH].
Qed.

Lemma extract_lower (text : string) :
  extract_education_section (lower text) = lower (extract_education_section text).
Proof.
  unfold extract_education_section.
  now rewrite split_lower, collect_lines_lower, join_lower.
Qed.

End CaseFacts.

Section ResolveFacts.
Import PySort.

Lemma insert_desc_map {A : Type} (lt : A -> A -> bool) (f : A -> A) (x : A) (l : list A) :
  (forall a b, lt (f a) (f b) = lt a b) ->
  insert_desc lt (f x) (map f l) = map f (insert_desc lt x l).
Proof.
  intros H. induction l as [|y l IH]; [reflexivity|].
  cbn [map insert_desc]. rewrite H. destruct (lt x y); [|reflexivity].
  cbn [map]. now rewrite IH.
Qed.

Lemma sort_desc_map {A : Type} (lt : A -> A -> bool) (f : A -> A) (l : list A) :
  (forall a b, lt (f a) (f b) = lt a b) ->
  sort_desc lt (map f l) = map f (sort_desc lt l).
Proof.
  intros H. induction l as [|x l IH]; [reflexivity|].
  cbn [map sort_desc]. rewrite IH. now apply insert_desc_map.
Qed.

Lemma find_map {A : Type} (p : A -> bool) (f : A -> A) (l : list A) :
  (forall a, p (f a) = p a) ->
  find p (map f l) = option_map f (find p l).
Proof.
  intros H. induction l as [|x l IH]; [reflexivity|].
  cbn [map find]. rewrite H. destruct (p x); [reflexivity | exact IH].
Qed.

Lemma get_highest_education_resolve text target_levels :
  get_highest_education text target_levels =
  resolve (find_education_matches text target_levels).
Proof. reflexivity. Qed.

Lemma resolve_with_context (ctx : string) (found : list EducationMatch) :
  resolve (map (with_context ctx) found) = option_map (with_context ctx) (resolve found).
Proof.
  destruct found as [|m1 [|m2 ms]]; [reflexivity | reflexivity |].
  unfold resolve. cbn [map].
  change (with_context ctx m1 :: with_context ctx m2 :: map (with_context ctx) ms)
    with (map (with_context ctx) (m1 :: m2 :: ms)).
  rewrite (sort_desc_map by_ordinal (with_context ctx)) by reflexivity.
  rewrite (find_map good_confidence (with_context ctx)) by reflexivity.
  destruct (find good_confidence (sort_desc by_ordinal (m1 :: m2 :: ms)));
    [reflexivity|].
  destruct (sort_desc by_ordinal (m1 :: m2 :: ms)); reflexivity.
Qed.

Lemma surface_forms_case (t1 t2 lvl : string) :
  lower t1 = lower t2 -> surface_forms lvl t1 = surface_forms lvl t2.
Proof. intros H. unfold surface_forms. now rewrite H. Qed.

Lemma match_of_case (t1 t2 lvl : string) :
  lower t1 = lower t2 ->
  match_of t2 lvl = with_context (extract_education_section t2) (match_of t1 lvl).
Proof.
  intros H. unfold match_of, with_context, level_confidence. cbn.
  rewrite (surface_forms_case t1 t2 lvl H).
  now rewrite <- !extract_lower, H.
Qed.

Lemma find_education_matches_case (t1 t2 : string) target_levels :
  lower t1 = lower t2 ->
  find_education_matches t2 target_levels =
  map (with_context (extract_education_section t2))
      (find_education_matches t1 target_levels).
Proof.
  intros H. rewrite !find_education_matches_eq, map_map.
  replace (filter (has_forms t2) (levels_to_check target_levels))
    with (filter (has_forms t1) (levels_to_check target_levels)).
  - apply map_ext. intros lvl. now apply match_of_case.
  - apply filter_ext. intros lvl. unfold has_forms.
    now rewrite (surface_forms_case t1 t2 lvl H).
Qed.

Lemma get_highest_education_case (t1 t2 : string) target_levels :
  lower t1 = lower t2 ->
  get_highest_education t2 target_levels =
  option_map (with_context (extract_education_section t2))
             (get_highest_education t1 target_levels).
Proof.
  intros H. rewrite !get_highest_education_resolve.
  rewrite (find_education_matches_case t1 t2 target_levels H).
  apply resolve_with_context.
Qed.

End ResolveFacts.

(** X5. Education matching does not see the case of the document: for two
    texts that are equal once lower-cased, the dominant levels agree in
    level, confidence and keywords (only the quoted section differs), and so
    do the strict filter, the reported keywords and the education score. *)
Theorem matching_ignores_case (t1 t2 : string) :
  lower t1 = lower t2 ->
  (forall target_levels,
     get_highest_education t2 target_levels =
     option_map (with_context (extract_education_section t2))
                (get_highest_education t1 target_levels)) /\
  (forall levels,
     strict_education_filter t1 levels = strict_education_filter t2 levels /\
     get_education_keywords_found t1 levels = get_education_keywords_found t2 levels /\
     score_education t1 levels = score_education t2 levels).
Proof.
  intros H. split; [intros tl; now apply get_highest_education_case|].
  intros levels.
  unfold strict_education_filter, get_education_keywords_found, score_education.
  rewrite (get_highest_education_case t1 t2 (Some levels) H).
  destruct (get_highest_education t1 (Some levels)); repeat split; reflexivity.
Qed.

Lemma matching_ignores_case_witness :
  strict_education_filter "PhD in Physics" ["phd"] =
  strict_education_filter "PHD IN PHYSICS" ["phd"].
Proof.
  refine (proj1 (proj2 (matching_ignores_case "PhD in Physics" "PHD IN PHYSICS" _)
                  ["phd"])).
  reflexivity.
Defined.

(* ================================================================= *)
(** ** Lines of a text *)

Section LineFacts.
Variable sep : ascii.

Let seps : string := String sep EmptyString.

Lemma split_nonempty (s : string) : split sep s <> [].
Proof.
  destruct s as [|c s]; simpl; [discriminate|].
  destruct (Ascii.eqb c sep); [discriminate|].
  destruct (split sep s); discriminate.
Qed.

Lemma join_cons (l : string) (ls : list string) :
  ls <> [] ->
  join seps (l :: ls) = String.append l (String sep (join seps ls)).
Proof. destruct ls; [contradiction | reflexivity]. Qed.

(** Joining the lines of a text gives the text back. *)
Lemma join_split (s : string) : join seps (split sep s) = s.
Proof.
  induction s as [|c s IH]; [reflexivity|].
  cbn [split]. destruct (Ascii.eqb c sep) eqn:E.
  - apply Ascii.eqb_eq in E. subst c.
    rewrite join_cons by apply split_nonempty. simpl. now rewrite IH.
  - pose proof (split_nonempty s) as Hne.
    destruct (split sep s) as [|h t]; [contradiction|].
    destruct t as [|h' t].
    + simpl in *. now rewrite IH.
    + rewrite join_cons by discriminate.
      rewrite join_cons in IH by discriminate.
      cbn [String.append]. f_equal. exact IH.
Qed.

Lemma split_no_sep (s l : string) : In l (split sep s) -> ~ char_in sep l.
Proof.
  revert l. induction s as [|c s IH]; intros l; cbn [split].
  - intros [<-|[]] [].
  - destruct (Ascii.eqb c sep) eqn:E.
    + intros [<-|H]; [intros [] | now apply IH].
    + pose proof (split_nonempty s) as Hne.
      destruct (split sep s) as [|h t]; [contradiction|].
      intros [<-|H].
      * intros [Hc|Hc].
        -- subst c. now rewrite Ascii.eqb_refl in E.
        -- apply (IH h); [now left | exact Hc].
      * apply IH. now right.
Qed.

Lemma split_single (s : string) : ~ char_in sep s -> split sep s = [s].
Proof.
  induction s as [|c s IH]; intros H; [reflexivity|].
  cbn [split]. destruct (Ascii.eqb c sep) eqn:E.
  - apply Ascii.eqb_eq in E. subst c. exfalso. apply H. now left.
  - rewrite IH; [reflexivity|]. intros Hc. apply H. now right.
Qed.

Lemma split_append_line (l s : string) :
  ~ char_in sep l ->
  split sep (String.append l (String sep s)) = l :: split sep s.
Proof.
  induction l as [|c l IH]; intros H.
  - simpl. now rewrite Ascii.eqb_refl.
  - cbn [String.append split]. destruct (Ascii.eqb c sep) eqn:E.
    + apply Ascii.eqb_eq in E. subst c. exfalso. apply H. now left.
    + rewrite IH; [reflexivity|]. intros Hc. apply H. now right.
Qed.

(** Splitting joined lines gives the lines back. *)
Lemma split_join (ls : list string) :
  ls <> [] -> (forall l, In l ls -> ~ char_in sep l) ->
  split sep (join seps ls) = ls.
Proof.
  induction ls as [|l ls IH]; intros Hne H; [contradiction|].
  destruct ls as [|l' ls].
  - simpl. apply split_single. apply H. now left.
  - rewrite join_cons by discriminate.
    rewrite split_append_line by (apply H; now left).
    rewrite IH; [reflexivity | discriminate |].
    intros x Hx. apply H. now right.
Qed.

Lemma join_app (a b : list string) :
  a <> [] -> b <> [] ->
  join seps (a ++ b) =
  String.append (join seps a) (String sep (join seps b)).
Proof.
  induction a as [|x a IH]; intros Ha Hb; [contradiction|].
  destruct a as [|y a].
  - simpl app. now rewrite join_cons.
  - change ((x :: y :: a) ++ b) with (x :: ((y :: a) ++ b)).
    rewrite (join_cons x ((y :: a) ++ b)) by (simpl; discriminate).
    rewrite (join_cons x (y :: a)) by discriminate.
    rewrite IH by (discriminate || assumption).
    rewrite (append_assoc x). reflexivity.
Qed.

(** The join of a block of consecutive lines is a substring of the join of
    all of them. *)
Lemma join_block (pre block post : list string) :
  substring_of (join seps block) (join seps (pre ++ block ++ post)).
Proof.
  destruct block as [|b block].
  - exists EmptyString, (join seps (pre ++ post)). reflexivity.
  - remember (b :: block) as bl eqn:Ebl.
    assert (Hb : bl <> []) by (subst bl; discriminate).
    assert (Hbq : forall q post', bl ++ q :: post' <> [])
      by (intros q post' E; apply app_eq_nil in E; destruct E; contradiction).
    destruct pre as [|p pre], post as [|q post].
    + rewrite app_nil_l, app_nil_r.
      exists EmptyString, EmptyString. cbn [String.append].
      now rewrite append_empty_r.
    + rewrite app_nil_l, (join_app bl (q :: post)) by (assumption || discriminate).
      exists EmptyString, (String sep (join seps (q :: post))). reflexivity.
    + rewrite app_nil_r, (join_app (p :: pre) bl) by (assumption || discriminate).
      exists (String.append (join seps (p :: pre)) seps), EmptyString.
      rewrite append_empty_r, append_assoc. reflexivity.
    + rewrite (join_app (p :: pre) (bl ++ q :: post)) by (apply Hbq || discriminate).
      rewrite (join_app bl (q :: post)) by (assumption || discriminate).
      exists (String.append (join seps (p :: pre)) seps),
             (String sep (join seps (q :: post))).
      rewrite append_assoc. reflexivity.
Qed.

End LineFacts.

Section SectionShape.

Lemma collect_lines_in (b : bool) (ls : list string) (l : string) :
  In l (collect_lines b ls) -> In l ls.
Proof.
  revert b. induction ls as [|x ls IH]; intros b; [intros []|].
  rewrite collect_lines_step.
  destruct (has_header x).
  - intros [<-|H]; [now left | right; eapply IH; eauto].
  - destruct b; [destruct (has_closing x)|].
    + intros [].
    + intros [<-|H]; [now left | right; eapply IH; eauto].
    + intros H. right. eapply IH; eauto.
Qed.

Lemma collect_lines_true_fixed (ls : list string) :
  collect_lines true (collect_lines true ls) = collect_lines true ls.
Proof.
  induction ls as [|x ls IH]; [reflexivity|].
  rewrite collect_lines_step.
  destruct (has_header x) eqn:Hh.
  - rewrite collect_lines_step, Hh. now rewrite IH.
  - destruct (has_closing x) eqn:Hc; [reflexivity|].
    rewrite collect_lines_step, Hh, Hc. now rewrite IH.
Qed.

Lemma collect_lines_false_fixed (ls : list string) :
  collect_lines false (collect_lines false ls) = collect_lines false ls.
Proof.
  induction ls as [|x ls IH]; [reflexivity|].
  rewrite collect_lines_step.
  destruct (has_header x) eqn:Hh; [|exact IH].
  rewrite collect_lines_step, Hh. now rewrite collect_lines_true_fixed.
Qed.

Lemma collect_lines_true_prefix (ls : list string) :
  exists post, ls = collect_lines true ls ++ post.
Proof.
  induction ls as [|x ls [post IH]]; [now exists []|].
  rewrite collect_lines_step.
  destruct (has_header x).
  - exists post. simpl. now rewrite <- IH.
  - destruct (has_closing x).
    + now exists (x :: ls).
    + exists post. simpl. now rewrite <- IH.
Qed.

Lemma collect_lines_false_block (ls : list string) :
  exists pre post, ls = pre ++ collect_lines false ls ++ post.
Proof.
  induction ls as [|x ls [pre [post IH]]]; [now exists [], []|].
  rewrite collect_lines_step.
  destruct (has_header x).
  - destruct (collect_lines_true_prefix ls) as [post' H].
    exists [], post'. simpl. now rewrite <- H.
  - exists (x :: pre), post. simpl. now rewrite <- IH.
Qed.

Lemma extract_fixed (text : string) :
  extract_education_section (extract_education_section text) =
  extract_education_section text.
Proof.
  unfold extract_education_section.
  remember (collect_lines false (split newline text)) as L eqn:HL.
  destruct L as [|l L']; [reflexivity|].
  rewrite split_join.
  - rewrite HL. now rewrite collect_lines_false_fixed.
  - discriminate.
  - intros x Hx. rewrite HL in Hx. apply collect_lines_in in Hx.
    now apply (split_no_sep newline text).
Qed.

Lemma extract_substring (text : string) :
  substring_of (extract_education_section text) text.
Proof.
  unfold extract_education_section.
  destruct (collect_lines_false_block (split newline text)) as [pre [post H]].
  rewrite <- (join_split newline text) at 2. rewrite H at 2.
  apply join_block.
Qed.

Lemma extract_one_line (text : string) :
  ~ char_in newline text ->
  extract_education_section text = if has_header text then text else EmptyString.
Proof.
  intros H. unfold extract_education_section.
  rewrite (split_single newline text H), collect_lines_step.
  destruct (has_header text); reflexivity.
Qed.

End SectionShape.

(** X6. Extracting the education section twice gives the section of the
    first extraction: the section of a section is the section itself. *)
Theorem extract_education_section_idempotent (text : string) :
  extract_education_section (extract_education_section text) =
  extract_education_section text.
Proof. apply extract_fixed. Qed.

(** X7. The extracted section is a contiguous piece of the document text,
    and so is the context of every match: nothing in it is made up. *)
Theorem extract_education_section_substring
  (text : string) (target_levels : option (list string)) :
  substring_of (extract_education_section text) text /\
  contains (extract_education_section text) text = true /\
  (forall m, In m (find_education_matches text target_levels) ->
     substring_of (context m) text).
Proof.
  repeat split.
  - apply extract_substring.
  - apply contains_substring, extract_substring.
  - intros m Hm. rewrite find_education_matches_eq in Hm.
    apply in_map_iff in Hm. destruct Hm as [lvl [<- _]]. apply extract_substring.
Qed.

Lemma extract_education_section_substring_witness :
  substring_of (extract_education_section "Education: PhD, MIT") "Education: PhD, MIT".
Proof.
  exact (proj1 (extract_education_section_substring "Education: PhD, MIT" None)).
Defined.

(** X8. On a text of one line the section is all or nothing: the whole text
    when it has a header keyword, the empty string otherwise. *)
Theorem extract_education_section_one_line (text : string) :
  ~ char_in newline text ->
  extract_education_section text = if has_header text then text else EmptyString.
Proof. apply extract_one_line. Qed.

Lemma extract_education_section_one_line_witness :
  extract_education_section "B.Tech ECE from ITER University 2015 Skills Python"
  = "B.Tech ECE from ITER University 2015 Skills Python".
Proof.
  refine (extract_education_section_one_line
            "B.Tech ECE from ITER University 2015 Skills Python" _).
  vm_compute. intuition discriminate.
Defined.

(* ================================================================= *)
(** ** The two paths of the education search, entry by entry *)

Section EducationEntries.
Variable round4 : Float.float -> Float.float.
Variable index : string -> nat -> bool -> list candidate.

Lemma strict_false_nothing (text : string) (levels : list string) :
  levels <> [] ->
  strict_education_filter text levels = false ->
  get_highest_education text (Some levels) = None.
Proof.
  intros Hne Hf. apply get_highest_education_none.
  destruct (find_education_matches text (Some levels)) eqn:E; [reflexivity|].
  assert (H : strict_education_filter text levels = true)
    by (apply strict_filter_found; [exact Hne | rewrite E; discriminate]).
  congruence.
Qed.

Lemma strict_true_something (text : string) (levels : list string) :
  strict_education_filter text levels = true ->
  get_highest_education text (Some levels) <> None.
Proof.
  unfold strict_education_filter.
  destruct (get_highest_education text (Some levels)); discriminate.
Qed.

Lemma NoDup_firstn {A : Type} (n : nat) (l : list A) : NoDup l -> NoDup (firstn n l).
Proof.
  intros H. rewrite <- (firstn_skipn n l) in H. now apply NoDup_app_remove_r in H.
Qed.

Lemma sorted_ids (f : candidate -> row) (pool : list candidate) (sorted : list row) :
  (forall c, cand (f c) = c) ->
  Permutation sorted (map f pool) ->
  Permutation (map row_id sorted) (map rid pool).
Proof.
  intros Hf Hp. rewrite <- (rescored_ids f pool Hf). now apply Permutation_map.
Qed.

End EducationEntries.

(** X9. In the fallback path of the education search with at least one
    requested level, every entry comes from a candidate of the pool, reports
    no keyword, and has the score of weight 0.4 times an education score of
    0.0: the ranking of the fallback is by similarity alone. *)
Theorem fallback_entries_semantic_only
  (round4 : Float.float -> Float.float)
  (index : string -> nat -> bool -> list candidate)
  (form : list (string * string)) :
  let levels := levels_of form in
  let pool := index (education_query levels) 30 false in
  levels <> [] ->
  (forall c, In c pool -> strict_education_filter (doc c) levels = false) ->
  NoDup (map rid pool) ->
  exists resp,
    snd (exec index (api_search_education round4 form)) = inl resp /\
    forall e, In e (results resp) ->
      exists c, In c pool /\ e_id e = rid c /\
        e_found_keywords e = [] /\
        e_education_keywords e = Some "No specific education keywords found" /\
        e_score e = Some (round4 (Float.add (Float.sub Float.f1_0 (dist c)) Float.f0_0)).
Proof.
  intros levels pool Hne Hnone Hd.
  set (rescored := map (education_row levels) pool).
  assert (Hd' : NoDup (map row_id rescored))
    by (unfold rescored; rewrite rescored_ids; auto).
  destruct (sort_rows_defined rescored Hd') as [sorted [Hsort Hperm]].
  eexists. split.
  - rewrite api_search_education_exec. cbn [snd]. fold levels. fold pool.
    assert (Hf : filter (fun c => keyword_filter_education (doc c) levels) pool = [])
      by (apply filter_nil_iff; exact Hnone).
    rewrite Hf. fold rescored. rewrite Hsort. reflexivity.
  - cbn [results]. intros e He.
    destruct (entries_from_pool _ _ _ _ _ _ Hperm He) as [c [Hc ->]].
    exists c. split; [exact Hc|].
    pose proof (strict_false_nothing _ _ Hne (Hnone c Hc)) as Hg.
    unfold education_entry, education_row, find_education_keywords,
      get_education_keywords_found, score_education.
    cbn [cand combined e_id e_found_keywords e_education_keywords e_score].
    rewrite Hg. repeat split.
Qed.

Lemma fallback_entries_semantic_only_witness :
  let a := {| rid := "a.txt"; doc := "java developer"; dist := Float.f0_1;
              meta := Some [("type", "resume")] |} in
  let b := {| rid := "b.txt"; doc := "B.Tech in ECE"; dist := Float.f0_5;
              meta := Some [("type", "resume")] |} in
  let index := fun (_ : string) (_ : nat) (_ : bool) => [a; b] in
  exists resp,
    snd (exec index (api_search_education (fun x => x) [("levels", "phd")])) = inl resp /\
    forall e, In e (results resp) ->
      exists c, In c [a; b] /\ e_id e = rid c /\
        e_found_keywords e = [] /\
        e_education_keywords e = Some "No specific education keywords found" /\
        e_score e = Some (Float.add (Float.sub Float.f1_0 (dist c)) Float.f0_0).
Proof.
  intros a b index.
  apply (fallback_entries_semantic_only (fun x => x) index [("levels", "phd")]).
  - discriminate.
  - intros c [<-|[<-|[]]]; vm_compute; reflexivity.
  - simpl. repeat constructor; simpl; intuition discriminate.
Defined.

(** X10. In the keyword path of the education search every entry comes from
    a candidate that passes the strict filter and reports at least one
    keyword; the entries are the smaller of five and the number of passing
    candidates, and the tag of the response and of each entry counts the
    passing candidates, not the entries. *)
Theorem keyword_path_entries
  (round4 : Float.float -> Float.float)
  (index : string -> nat -> bool -> list candidate)
  (form : list (string * string)) :
  let levels := levels_of form in
  let pool := index (education_query levels) 30 false in
  let kept := filter (fun c => strict_education_filter (doc c) levels) pool in
  kept <> [] ->
  NoDup (map rid pool) ->
  exists resp,
    snd (exec index (api_search_education round4 form)) = inl resp /\
    search_type resp = Some (keyword_search_type (List.length kept)) /\
    List.length (results resp) = Nat.min 5 (List.length kept) /\
    forall e, In e (results resp) ->
      e_search_type e = Some (keyword_search_type (List.length kept)) /\
      e_found_keywords e <> [] /\
      e_education_keywords e = Some (join ", " (e_found_keywords e)) /\
      exists c, In c pool /\ e_id e = rid c /\
        strict_education_filter (doc c) levels = true.
Proof.
  intros levels pool kept Hne Hd.
  destruct (education_keyword_path round4 index form Hne Hd) as [sorted [Hexec Hperm]].
  fold levels pool kept in Hexec, Hperm.
  eexists. split; [exact Hexec|]. cbn [search_type results].
  split; [reflexivity|]. split.
  - rewrite length_map, length_firstn, (Permutation_length Hperm), length_map.
    reflexivity.
  - intros e He.
    destruct (entries_from_pool _ _ _ _ _ _ Hperm He) as [c [Hc ->]].
    apply filter_In in Hc. destruct Hc as [Hc Hstrict].
    assert (Hk : find_education_keywords (doc c) levels <> [])
      by (apply keywords_found_iff; now apply strict_true_something).
    unfold education_entry, education_row.
    cbn [cand e_id e_found_keywords e_education_keywords e_search_type].
    repeat split; auto.
    + destruct (find_education_keywords (doc c) levels); [contradiction | reflexivity].
    + exists c. auto.
Qed.

Lemma keyword_path_entries_witness :
  let a := {| rid := "a.txt"; doc := "PhD in Physics"; dist := Float.f0_1;
              meta := Some [("type", "resume")] |} in
  let b := {| rid := "b.txt"; doc := "B.Tech in ECE"; dist := Float.f0_5;
              meta := Some [("type", "resume")] |} in
  let index := fun (_ : string) (_ : nat) (_ : bool) => [a; b] in
  exists resp,
    snd (exec index (api_search_education (fun x => x) [("levels", "phd")])) = inl resp /\
    search_type resp = Some (keyword_search_type 1).
Proof.
  intros a b index.
  destruct (keyword_path_entries (fun x => x) index [("levels", "phd")])
    as [resp [H1 [H2 _]]].
  - vm_compute. discriminate.
  - simpl. repeat constructor; simpl; intuition discriminate.
  - exists resp. split; [exact H1 | exact H2].
Defined.

(** X11. The skills search neither invents nor repeats a candidate: for a
    pool with distinct ids the response has the smaller of five and the size
    of the pool entries, their ids are distinct ids of the pool, and when
    the pool has at most five candidates each of them has its entry. *)
Theorem skills_results_from_pool
  (round4 : Float.float -> Float.float)
  (index : string -> nat -> bool -> list candidate)
  (form : list (string * string)) :
  let skills := skills_of form in
  let min_years := years_of form in
  let pool := index (HireSight.skills_query skills min_years) 10 false in
  NoDup (map rid pool) ->
  exists resp,
    snd (exec index (api_search_skills round4 form)) = inl resp /\
    List.length (results resp) = Nat.min 5 (List.length pool) /\
    NoDup (map e_id (results resp)) /\
    (forall e, In e (results resp) -> In (e_id e) (map rid pool)) /\
    (List.length pool <= 5 -> Permutation (map e_id (results resp)) (map rid pool)).
Proof.
  intros skills min_years pool Hd.
  set (rescored := map (skills_row skills min_years) pool).
  assert (Hd' : NoDup (map row_id rescored))
    by (unfold rescored; rewrite rescored_ids; auto).
  destruct (sort_rows_defined rescored Hd') as [sorted [Hsort Hperm]].
  assert (Hids : Permutation (map row_id sorted) (map rid pool))
    by (apply (sorted_ids (skills_row skills min_years)); auto).
  assert (Hmap : forall n, map e_id (map (scored_entry round4) (firstn n sorted))
                           = firstn n (map row_id sorted)).
  { intros n. rewrite map_map, firstn_map. reflexivity. }
  eexists. split.
  - rewrite api_search_skills_exec. cbn [snd].
    fold skills min_years pool rescored. rewrite Hsort. reflexivity.
  - cbn [results]. repeat split.
    + rewrite length_map, length_firstn, (Permutation_length Hperm).
      unfold rescored. now rewrite length_map.
    + rewrite Hmap. apply NoDup_firstn.
      apply (Permutation_NoDup (Permutation_sym Hids) Hd).
    + intros e He. apply (in_map e_id) in He. rewrite Hmap in He.
      apply firstn_in in He. now apply (Permutation_in _ Hids).
    + intros Hle. rewrite Hmap, firstn_all2; [exact Hids|].
      rewrite length_map, (Permutation_length Hperm). unfold rescored.
      now rewrite length_map.
Qed.

Lemma skills_results_from_pool_witness :
  let a := {| rid := "a.txt"; doc := "java developer"; dist := Float.f0_1;
              meta := Some [("type", "resume")] |} in
  let b := {| rid := "b.txt"; doc := "python sql 1 year"; dist := Float.f0_5;
              meta := Some [("type", "resume")] |} in
  let index := fun (_ : string) (_ : nat) (_ : bool) => [a; b] in
  exists resp,
    snd (exec index (api_search_skills (fun x => x) [("skills", "python")])) = inl resp /\
    List.length (results resp) = 2.
Proof.
  intros a b index.
  destruct (skills_results_from_pool (fun x => x) index [("skills", "python")])
    as [resp [H1 [H2 _]]].
  - simpl. repeat constructor; simpl; intuition discriminate.
  - exists resp. split; [exact H1 | exact H2].
Defined.

Example clean_resume_text_sample :
  Cleaner.clean_resume_text
    (String.append "  Jane  Doe (C++, C#)" (String newline "jane@x.org - 5+ yrs. "))
  = "Jane Doe C, C janex.org  5 yrs.".
Proof. vm_compute. reflexivity. Qed.

(* ================================================================= *)
(** ** Cleaned text *)

Section CleanerFacts.
Import Cleaner.

Lemma char_in_append (c : ascii) (a b : string) :
  char_in c (String.append a b) <-> char_in c a \/ char_in c b.
Proof.
  unfold char_in. induction a as [|x a IH]; simpl.
  - tauto.
  - rewrite IH. tauto.
Qed.

Lemma star_runs_head (p : ascii -> bool) (s : string) :
  exists m rest, hd_error (star_runs p s) = Some (m, rest).
Proof.
  destruct s as [|c s]; simpl; [now exists EmptyString, EmptyString|].
  destruct (p c); [|now exists EmptyString, (String c s)].
  destruct (star_runs p s) as [|[m rest] l]; simpl; eauto.
Qed.

Lemma white_space_run_head (prev : option ascii) (c : ascii) (s : string) :
  is_space c = true ->
  exists m rest,
    hd_error (run white_space_run prev (String c s)) = Some (String c m, rest).
Proof.
  intros Hc. unfold white_space_run. cbn [run flat_map]. rewrite Hc.
  cbn [flat_map fst snd]. rewrite app_nil_r.
  destruct (star_runs_head is_space s) as [m [rest H]].
  destruct (star_runs is_space s) as [|[m' rest'] l]; [discriminate H|].
  simpl. eauto.
Qed.

Lemma collapse_chars (s : string) :
  forall prev skip c,
    char_in c (sub_scan white_space_run " " prev s skip) ->
    c = " "%char \/ (char_in c s /\ is_space c = false).
Proof.
  induction s as [|d s IH]; intros prev skip c.
  - destruct skip; intros [].
  - assert (Hrec : forall k,
              char_in c (sub_scan white_space_run " " (Some d) s k) ->
              c = " "%char \/ (char_in c (String d s) /\ is_space c = false)).
    { intros k Hk. destruct (IH _ _ _ Hk) as [H|[H1 H2]]; [now left|].
      right. split; [now right | exact H2]. }
    destruct skip as [|n]; [|apply Hrec].
    cbn [sub_scan].
    destruct (is_space d) eqn:Hd.
    + destruct (white_space_run_head prev d s Hd) as [m [rest ->]].
      intros H. apply char_in_append in H. destruct H as [[<-|[]]|H]; [now left|].
      now apply (Hrec (String.length m)).
    + destruct (hd_error (run white_space_run prev (String d s))) as [[[|a m] rest]|].
      * intros [<-|H]; [right; split; [now left | exact Hd] | now apply (Hrec 0)].
      * intros H. apply char_in_append in H.
        destruct H as [[<-|[]]|H]; [now left | now apply (Hrec (String.length m))].
      * intros [<-|H]; [right; split; [now left | exact Hd] | now apply (Hrec 0)].
Qed.

Lemma delete_chars (s : string) :
  forall prev skip c,
    char_in c (sub_scan not_kept EmptyString prev s skip) ->
    char_in c s /\ kept c = true.
Proof.
  induction s as [|d s IH]; intros prev skip c.
  - destruct skip; intros [].
  - assert (Hrec : forall k,
              char_in c (sub_scan not_kept EmptyString (Some d) s k) ->
              char_in c (String d s) /\ kept c = true).
    { intros k Hk. destruct (IH _ _ _ Hk) as [H1 H2]. split; [now right | exact H2]. }
    destruct skip as [|n]; [|apply Hrec].
    cbn [sub_scan]. unfold not_kept. cbn [run].
    destruct (kept d) eqn:Hd; cbn [negb hd_error String.append].
    + intros [<-|H]; [split; [now left | exact Hd] | now apply (Hrec 0)].
    + apply Hrec.
Qed.

Lemma strip_chars (c : ascii) (s : string) : char_in c (strip s) -> char_in c s.
Proof.
  unfold strip. intros H.
  destruct (lstrip_suffix s) as [w1 H1].
  destruct (rstrip_prefix (lstrip s)) as [w2 H2].
  rewrite H1. apply char_in_append. right.
  rewrite H2. apply char_in_append. now left.
Qed.

Lemma rstrip_cons (c : ascii) (s : string) :
  rstrip (String c s) =
    match rstrip s with
    | EmptyString => if is_space c then EmptyString else String c EmptyString
    | String a r => String c (String a r)
    end.
Proof. reflexivity. Qed.

Lemma rstrip_idem (s : string) : rstrip (rstrip s) = rstrip s.
Proof.
  induction s as [|c s IH]; [reflexivity|].
  rewrite rstrip_cons. destruct (rstrip s) as [|a r] eqn:Hr.
  - destruct (is_space c) eqn:Hc; [reflexivity|].
    rewrite rstrip_cons. cbn [rstrip]. now rewrite Hc.
  - rewrite rstrip_cons, IH. reflexivity.
Qed.

Lemma lstrip_head (s : string) :
  lstrip s = EmptyString \/
  exists c r, lstrip s = String c r /\ is_space c = false.
Proof.
  induction s as [|c s IH]; [now left|].
  cbn [lstrip]. destruct (is_space c) eqn:Hc; [exact IH|].
  right. now exists c, s.
Qed.

Lemma lstrip_rstrip_lstrip (s : string) :
  lstrip (rstrip (lstrip s)) = rstrip (lstrip s).
Proof.
  destruct (lstrip_head s) as [->|[c [r [-> Hc]]]]; [reflexivity|].
  destruct (rstrip_prefix (String c r)) as [ws H].
  destruct (rstrip (String c r)) as [|a t] eqn:E; [reflexivity|].
  simpl in H. injection H as <- _. cbn [lstrip]. now rewrite Hc.
Qed.

Lemma strip_idem (s : string) : strip (strip s) = strip s.
Proof.
  unfold strip. now rewrite lstrip_rstrip_lstrip, rstrip_idem.
Qed.

Lemma clean_chars (text : string) (c : ascii) :
  char_in c (clean_resume_text text) ->
  is_word c = true \/ c = " "%char \/ c = "."%char \/ c = ","%char.
Proof.
  unfold clean_resume_text, sub. intros H.
  apply strip_chars, delete_chars in H. destruct H as [H Hk].
  apply collapse_chars in H. destruct H as [->|[_ Hs]]; [auto|].
  unfold kept in Hk. rewrite Hs, orb_false_r in Hk.
  apply orb_true_iff in Hk. destruct Hk as [Hk|Hk].
  - apply orb_true_iff in Hk. destruct Hk as [Hk|Hk]; [now left|].
    apply Ascii.eqb_eq in Hk. auto.
  - apply Ascii.eqb_eq in Hk. auto.
Qed.

Lemma clean_one_line (text : string) : ~ char_in newline (clean_resume_text text).
Proof.
  intros H. apply clean_chars in H.
  destruct H as [H|[H|[H|H]]]; discriminate H.
Qed.

End CleanerFacts.

Section CleanerShape.
Import Cleaner.

(** The first result of a greedy repetition is the longest run. *)
Lemma star_runs_longest (p : ascii -> bool) (s : string) :
  exists m rest l,
    star_runs p s = (m, rest) :: l /\
    s = String.append m rest /\
    (forall c, char_in c m -> p c = true) /\
    match rest with
    | EmptyString => True
    | String c _ => p c = false
    end.
Proof.
  induction s as [|d s IH]; cbn [star_runs].
  - exists EmptyString, EmptyString, []. repeat split. intros c [].
  - destruct (p d) eqn:Hd.
    + destruct IH as [m [rest [l [-> [Hs [Hm Hr]]]]]].
      exists (String d m), rest, (map (fun mr => (String d (fst mr), snd mr)) l
                                   ++ [(EmptyString, String d s)]).
      cbn [map app fst snd String.append]. rewrite <- Hs.
      split; [reflexivity|]. split; [reflexivity|]. split; [|exact Hr].
      intros c [<-|Hc]; [exact Hd | now apply Hm].
    + exists EmptyString, (String d s), []. repeat split; [intros c [] | exact Hd].
Qed.

(** Passing over the rest of a match. *)
Lemma sub_scan_skip (r : regex) (repl : string) (m rest : string) :
  forall prev,
    sub_scan r repl prev (String.append m rest) (String.length m) =
    sub_scan r repl (last_char prev m) rest 0.
Proof.
  induction m as [|c m IH]; intros prev; [reflexivity|].
  cbn [String.append String.length sub_scan last_char]. apply IH.
Qed.

Lemma squeeze_run (m rest : string) :
  (forall c, char_in c m -> is_space c = true) ->
  match rest with
  | EmptyString => True
  | String c _ => is_space c = false
  end ->
  squeeze true (String.append m rest) = squeeze false rest.
Proof.
  intros Hm Hr. induction m as [|c m IH].
  - destruct rest as [|c rest]; [reflexivity|].
    cbn [String.append squeeze]. now rewrite Hr.
  - cbn [String.append squeeze]. rewrite (Hm c (or_introl eq_refl)).
    apply IH. intros x Hx. apply Hm. now right.
Qed.

Lemma length_append (a b : string) :
  String.length (String.append a b) = String.length a + String.length b.
Proof. induction a as [|c a IH]; simpl; [reflexivity | now rewrite IH]. Qed.

(** The first substitution replaces each maximal run of white space by one
    blank. *)
Lemma collapse_squeeze (n : nat) :
  forall s prev,
    String.length s <= n ->
    sub_scan white_space_run " " prev s 0 = squeeze false s.
Proof.
  induction n as [|n IH]; intros s prev Hn.
  - destruct s; [reflexivity | simpl in Hn; lia].
  - destruct s as [|c s]; [reflexivity|].
    simpl in Hn. cbn [sub_scan squeeze].
    destruct (is_space c) eqn:Hc.
    + unfold white_space_run. cbn [run flat_map]. rewrite Hc.
      cbn [flat_map fst snd]. rewrite app_nil_r.
      destruct (star_runs_longest is_space s) as [m [rest [l [-> [Hs [Hm Hr]]]]]].
      cbn [map hd_error fst snd String.append].
      assert (Hlen : String.length rest <= n)
        by (rewrite Hs, length_append in Hn; lia).
      rewrite Hs, sub_scan_skip, (squeeze_run m rest Hm Hr). f_equal.
      now apply IH.
    + unfold white_space_run. cbn [run flat_map]. rewrite Hc.
      cbn [flat_map hd_error]. f_equal. apply IH. lia.
Qed.

(** The second substitution deletes the characters that are not kept. *)
Lemma delete_only (s : string) :
  forall prev, sub_scan not_kept EmptyString prev s 0 = only kept s.
Proof.
  induction s as [|c s IH]; intros prev; [reflexivity|].
  cbn [sub_scan only]. unfold not_kept. cbn [run].
  destruct (kept c); cbn [negb hd_error String.append String.length].
  - f_equal. apply IH.
  - apply IH.
Qed.

End CleanerShape.

(** X12. On a text of ASCII characters, cleaning replaces each maximal run
    of white space, line breaks included, by one blank, then deletes every
    character that is no word character, white space, full stop or comma,
    then strips the ends. So the cleaned text holds only word characters,
    blanks, full stops and commas, each of them a character of the raw text
    or a blank, and has no white space at either end. Two blanks can stand
    side by side where a deleted character stood between them. *)
Theorem clean_resume_text_alphabet (text : string) :
  ascii_text text ->
  Cleaner.clean_resume_text text = strip (only Cleaner.kept (squeeze false text)) /\
  (forall c, char_in c (Cleaner.clean_resume_text text) ->
     is_word c = true \/ c = " "%char \/ c = "."%char \/ c = ","%char) /\
  (forall c, char_in c (Cleaner.clean_resume_text text) ->
     is_space c = true -> c = " "%char) /\
  (forall c, char_in c (Cleaner.clean_resume_text text) ->
     char_in c text \/ c = " "%char) /\
  ascii_text (Cleaner.clean_resume_text text) /\
  strip (Cleaner.clean_resume_text text) = Cleaner.clean_resume_text text /\
  Cleaner.clean_resume_text "a - b" = "a  b".
Proof.
  intros Hascii.
  assert (Hfrom : forall c, char_in c (Cleaner.clean_resume_text text) ->
                            char_in c text \/ c = " "%char).
  { intros c H. unfold Cleaner.clean_resume_text, Cleaner.sub in H.
    apply strip_chars, delete_chars in H. destruct H as [H _].
    apply collapse_chars in H. destruct H as [->|[H _]]; auto. }
  split; [|split; [|split; [|split; [|split; [|split]]]]].
  - unfold Cleaner.clean_resume_text, Cleaner.sub.
    rewrite (collapse_squeeze (String.length text) text None (Nat.le_refl _)).
    now rewrite delete_only.
  - apply clean_chars.
  - intros c H Hs. apply clean_chars in H.
    destruct H as [H|[H|[H|H]]]; auto.
    + destruct c as [[] [] [] [] [] [] [] []]; discriminate.
    + subst c. discriminate Hs.
    + subst c. discriminate Hs.
  - exact Hfrom.
  - intros c H. destruct (Hfrom c H) as [Hc | ->]; [now apply Hascii | reflexivity].
  - unfold Cleaner.clean_resume_text. apply strip_idem.
  - vm_compute. reflexivity.
Qed.

Lemma clean_resume_text_alphabet_witness :
  Cleaner.clean_resume_text "Jane (C++) - 5 yrs" =
    strip (only Cleaner.kept (squeeze false "Jane (C++) - 5 yrs")) /\
  Cleaner.clean_resume_text "Jane (C++) - 5 yrs" = "Jane C  5 yrs".
Proof.
  split; [|vm_compute; reflexivity].
  refine (proj1 (clean_resume_text_alphabet "Jane (C++) - 5 yrs" _)).
  intros c H. unfold char_in in H. simpl in H.
  repeat (destruct H as [<-|H]; [reflexivity|]). destruct H.
Defined.

(** X13. A cleaned resume is one line, so its education section is the
    whole resume when a header keyword occurs anywhere in it and empty
    otherwise: on indexed documents the section extractor selects nothing. *)
Theorem cleaned_resume_section (raw : string) :
  let text := Cleaner.clean_resume_text raw in
  ~ char_in newline text /\
  extract_education_section text = if has_header text then text else EmptyString.
Proof.
  intros text. split; [apply clean_one_line|].
  apply extract_one_line, clean_one_line.
Qed.

(* ================================================================= *)
(** ** One-line texts with a header keyword *)

Section OneLine.
Import PySort.

Lemma surface_form_contained (text lvl kw : string) :
  In kw (surface_forms lvl text) -> contains kw (lower text) = true.
Proof.
  unfold surface_forms.
  destruct (dict_get education_patterns lvl) as [patterns|]; [|intros []].
  unfold keywords_of. rewrite in_flat_map. intros [pattern [_ H]].
  apply contains_substring, (matched_at_substring pattern), findall_matched, H.
Qed.

Lemma one_line_confidence (text lvl : string) :
  ~ char_in newline text -> has_header text = true ->
  has_forms text lvl = true ->
  Float.ltb Float.f0_6 (level_confidence lvl text) = true.
Proof.
  intros Hl Hh Hf. unfold level_confidence.
  rewrite (extract_one_line text Hl), Hh.
  unfold has_forms in Hf.
  destruct (surface_forms lvl text) as [|k ks] eqn:E; [discriminate Hf|].
  assert (Hk : contains k (lower text) = true)
    by (apply (surface_form_contained text lvl); rewrite E; now left).
  unfold calculate_confidence. cbn [existsb]. rewrite Hk. cbn [orb].
  destruct (existsb (fun keyword => mem keyword (k :: ks)) specific_keywords),
    (contains "experience" (lower text) || contains "work" (lower text));
    vm_compute; reflexivity.
Qed.

Lemma find_all_good {A : Type} (p : A -> bool) (l : list A) :
  (forall x, In x l -> p x = true) -> find p l = hd_error l.
Proof.
  destruct l as [|x l]; [reflexivity|].
  intros H. simpl. now rewrite (H x (or_introl eq_refl)).
Qed.

Lemma resolve_all_good (found : list EducationMatch) :
  (forall m, In m found -> good_confidence m = true) ->
  resolve found = hd_error (sort_desc by_ordinal found).
Proof.
  intros H. destruct found as [|m1 [|m2 ms]]; [reflexivity | reflexivity |].
  unfold resolve. rewrite find_all_good.
  - destruct (sort_desc by_ordinal (m1 :: m2 :: ms)); reflexivity.
  - intros m Hm. apply H. exact (proj1 (sort_desc_in by_ordinal _ _) Hm).
Qed.

End OneLine.

(** X14. On a one-line text that has a header keyword, as a cleaned resume
    with the word "university" anywhere, every match has a confidence above
    0.6, so the threshold never decides: the dominant level is a match of
    the highest ordinal among those found. *)
Theorem one_line_highest_wins (text : string) (target_levels : option (list string)) :
  ~ char_in newline text ->
  has_header text = true ->
  (forall m, In m (find_education_matches text target_levels) ->
     Float.ltb Float.f0_6 (confidence m) = true) /\
  (forall m, In m (find_education_matches text target_levels) ->
     exists top,
       get_highest_education text target_levels = Some top /\
       In top (find_education_matches text target_levels) /\
       (ordinal m <= ordinal top)%Z).
Proof.
  intros Hl Hh.
  assert (Hgood : forall m, In m (find_education_matches text target_levels) ->
                            good_confidence m = true).
  { intros m Hm. rewrite find_education_matches_eq in Hm.
    apply in_map_iff in Hm. destruct Hm as [lvl [<- Hf]].
    apply filter_In in Hf. now apply one_line_confidence. }
  split; [exact Hgood|].
  intros m Hm.
  rewrite get_highest_education_resolve, (resolve_all_good _ Hgood).
  pose proof (sort_by_ordinal_sorted (find_education_matches text target_levels)) as Hs.
  pose proof (sort_desc_in by_ordinal (find_education_matches text target_levels)) as Hin.
  destruct (PySort.sort_desc by_ordinal (find_education_matches text target_levels))
    as [|top rest].
  - apply Hin in Hm. destruct Hm.
  - exists top. split; [reflexivity|]. split; [apply Hin; now left|].
    apply Hin in Hm. destruct Hm as [<-|Hm]; [apply Z.le_refl|].
    inversion Hs as [|? ? _ Hall]; subst.
    rewrite Forall_forall in Hall. exact (Hall m Hm).
Qed.

Lemma one_line_highest_wins_witness :
  Float.ltb Float.f0_6
    (confidence (match_of "B.Tech ECE and PhD, ITER University" "phd")) = true.
Proof.
  refine (proj1 (one_line_highest_wins "B.Tech ECE and PhD, ITER University" None _ _)
            (match_of "B.Tech ECE and PhD, ITER University" "phd") _).
  - vm_compute. intuition discriminate.
  - vm_compute. reflexivity.
  - vm_compute. left. reflexivity.
Defined.

(* ================================================================= *)
(** ** The fields of the forms *)

Section FormFacts.

Lemma digits_run_none (prev : option ascii) (c : ascii) (s : string) :
  is_digit c = false -> run Scorer.digits prev (String c s) = [].
Proof. intros H. unfold Scorer.digits. cbn [run]. now rewrite H. Qed.

Lemma scan_digits_pass (pre rest : string) :
  forall prev,
    (forall c, char_in c pre -> is_digit c = false) ->
    scan Scorer.digits prev (String.append pre rest) 0 =
    scan Scorer.digits (last_char prev pre) rest 0.
Proof.
  induction pre as [|c pre IH]; intros prev H; [reflexivity|].
  cbn [String.append scan last_char].
  rewrite (digits_run_none prev c _ (H c (or_introl eq_refl))).
  cbn [hd_error app]. apply IH. intros x Hx. apply H. now right.
Qed.

Lemma star_digits_head (ds post : string) :
  (forall c, char_in c ds -> is_digit c = true) ->
  no_digit_ahead post ->
  exists l, star_runs is_digit (String.append ds post) = (ds, post) :: l.
Proof.
  intros Hd Hp. induction ds as [|d ds IH].
  - destruct post as [|c post]; simpl; [now exists []|].
    simpl in Hp. rewrite Hp. now exists [].
  - cbn [String.append star_runs]. rewrite (Hd d (or_introl eq_refl)).
    destruct IH as [l ->]; [intros x Hx; apply Hd; now right|].
    cbn [map app fst snd]. eauto.
Qed.

Lemma findall_digits_first (pre ds post : string) :
  ds <> EmptyString ->
  (forall c, char_in c pre -> is_digit c = false) ->
  (forall c, char_in c ds -> is_digit c = true) ->
  no_digit_ahead post ->
  exists l, findall Scorer.digits (String.append pre (String.append ds post)) = ds :: l.
Proof.
  intros Hne Hpre Hds Hpost. unfold findall.
  rewrite (scan_digits_pass pre _ None Hpre).
  destruct ds as [|d ds]; [contradiction|].
  destruct (star_digits_head ds post) as [l Hl];
    [intros x Hx; apply Hds; now right | exact Hpost |].
  assert (Hrun : exists l', run Scorer.digits (last_char None pre)
                              (String d (String.append ds post))
                            = (String d ds, post) :: l').
  { unfold Scorer.digits. cbn [run flat_map].
    rewrite (Hds d (or_introl eq_refl)). cbn [flat_map fst snd].
    rewrite Hl. cbn [map app fst snd String.append]. eauto. }
  destruct Hrun as [l' Hrun].
  cbn [String.append scan]. rewrite Hrun. cbn [hd_error app]. eauto.
Qed.

Lemma findall_digits_none (s : string) :
  (forall c, char_in c s -> is_digit c = false) ->
  findall Scorer.digits s = [].
Proof.
  intros H. unfold findall.
  rewrite <- (append_empty_r s), (scan_digits_pass s EmptyString None H).
  reflexivity.
Qed.

End FormFacts.

(** X15. The years field of the skills form never fails and is never
    negative: it is 0 when the field has no digit; otherwise, whatever
    stands around the first run of digits, it is the number that run writes
    when the run has at most 4300 digits, and 0 when it has more, [int]
    raising then; so it is always a number [str] can write in the query. *)
Theorem parse_years_first_integer :
  (forall s, (0 <= parse_years s)%Z) /\
  (forall s, (forall c, char_in c s -> is_digit c = false) -> parse_years s = 0%Z) /\
  (forall pre ds post,
     ds <> EmptyString ->
     (forall c, char_in c pre -> is_digit c = false) ->
     (forall c, char_in c ds -> is_digit c = true) ->
     no_digit_ahead post ->
     ((N.of_nat (String.length ds) <= 4300)%N ->
      parse_years (String.append pre (String.append ds post)) = Z.of_N (int_of_digits ds)) /\
     ((4300 < N.of_nat (String.length ds))%N ->
      parse_years (String.append pre (String.append ds post)) = 0%Z)) /\
  (forall s, (parse_years s < 10 ^ 4300)%Z /\ str_raises (parse_years s) = false).
Proof.
  repeat apply conj.
  - intros s. unfold parse_years.
    destruct (truthy s); [|apply Z.le_refl].
    destruct (findall Scorer.digits s) as [|d l]; [apply Z.le_refl|].
    destruct (int_exn d); [apply N2Z.is_nonneg | apply Z.le_refl].
  - intros s H. unfold parse_years. rewrite (findall_digits_none s H).
    now destruct (truthy s).
  - intros pre ds post Hne Hpre Hds Hpost.
    assert (E : parse_years (String.append pre (String.append ds post)) =
                match int_exn ds with Some n => Z.of_N n | None => 0%Z end).
    { unfold parse_years.
      destruct (findall_digits_first pre ds post Hne Hpre Hds Hpost) as [l ->].
      destruct (truthy (String.append pre (String.append ds post))) eqn:E; [reflexivity|].
      destruct pre; [destruct ds; [contradiction | discriminate E] | discriminate E]. }
    rewrite E. unfold int_exn, max_str_digits. split; intros Hlen.
    + apply N.leb_le in Hlen. now rewrite Hlen.
    + apply N.leb_gt in Hlen. now rewrite Hlen.
  - intros s. split; [exact (parse_years_below s) | apply parse_years_printable].
Qed.

Lemma parse_years_first_integer_witness :
  parse_years "abt 3-4 yrs" = Z.of_N (int_of_digits "3").
Proof.
  refine (proj1 (proj1 (proj2 (proj2 parse_years_first_integer))
                   "abt " "3" "-4 yrs" _ _ _ _) _).
  - discriminate.
  - intros c [<-|[<-|[<-|[<-|[]]]]]; reflexivity.
  - intros c [<-|[]]; reflexivity.
  - reflexivity.
  - vm_compute. discriminate.
Defined.

Section CommaList.

Lemma split_chars (sep c : ascii) (s l : string) :
  In l (split sep s) -> char_in c l -> char_in c s.
Proof.
  revert l. induction s as [|d s IH]; intros l; cbn [split].
  - intros [<-|[]] [].
  - destruct (Ascii.eqb d sep).
    + intros [<-|H]; [intros [] | intros Hc; right; now apply (IH l)].
    + pose proof (split_nonempty sep s) as Hne.
      destruct (split sep s) as [|h t]; [contradiction|].
      intros [<-|H].
      * intros [<-|Hc]; [now left | right; apply (IH h); [now left | exact Hc]].
      * intros Hc. right. apply (IH l); [now right | exact Hc].
Qed.

Lemma lstrip_blank (s : string) :
  (forall c, char_in c s -> is_space c = true) -> lstrip s = EmptyString.
Proof.
  induction s as [|c s IH]; intros H; [reflexivity|].
  cbn [lstrip]. rewrite (H c (or_introl eq_refl)). apply IH.
  intros x Hx. apply H. now right.
Qed.

End CommaList.

(** X16. The skills and the levels read from a form are the items between
    the commas of the field with the white space around them removed and
    the blank items dropped: no item is empty, padded or holds a comma, and
    a field of white space and commas alone gives no item at all. *)
Theorem comma_list_items (text : string) :
  (forall item, In item (comma_list text) ->
     item <> EmptyString /\ strip item = item /\ ~ char_in ","%char item /\
     (forall c, char_in c item -> char_in c text)) /\
  ((forall c, char_in c text -> is_space c = true \/ c = ","%char) ->
   comma_list text = []).
Proof.
  unfold comma_list. split.
  - intros item H. apply filter_In in H. destruct H as [H Ht].
    apply in_map_iff in H. destruct H as [x [<- Hx]].
    repeat split.
    + intros E. rewrite E in Ht. discriminate Ht.
    + apply strip_idem.
    + intros Hc. apply strip_chars in Hc. now apply (split_no_sep ","%char text x).
    + intros c Hc. apply strip_chars in Hc. now apply (split_chars ","%char c text x).
  - intros H. apply filter_nil_iff. intros item Hi.
    apply in_map_iff in Hi. destruct Hi as [x [<- Hx]].
    unfold strip. rewrite lstrip_blank; [reflexivity|].
    intros c Hc. destruct (H c (split_chars ","%char c text x Hx Hc)) as [Hs | ->]; [exact Hs|].
    exfalso. now apply (split_no_sep ","%char text x Hx).
Qed.

Lemma comma_list_items_witness : comma_list " , ,, " = [].
Proof.
  refine (proj2 (comma_list_items " , ,, ") _).
  intros c [<-|[<-|[<-|[<-|[<-|[<-|[]]]]]]]; auto.
Defined.

(* ================================================================= *)
(** ** The skill and experience score *)

Section ScorerFacts.

Lemma fold_left_map {A B C : Type} (g : C -> B -> C) (f : A -> B) (l : list A) (a : C) :
  fold_left (fun acc x => g acc (f x)) l a = fold_left g (map f l) a.
Proof. revert a. induction l as [|x l IH]; intros a; [reflexivity | apply IH]. Qed.

Lemma skill_hits_case (t1 t2 : string) (s1 s2 : list string) :
  lower t1 = lower t2 -> map lower s1 = map lower s2 ->
  skill_hits t1 s1 = skill_hits t2 s2.
Proof.
  intros Ht Hs. unfold skill_hits.
  rewrite (fold_left_map
             (fun score skill =>
                if contains skill (lower t1) then Float.add score Float.f1_0 else score)
             lower s1).
  rewrite (fold_left_map
             (fun score skill =>
                if contains skill (lower t2) then Float.add score Float.f1_0 else score)
             lower s2).
  now rewrite Ht, Hs.
Qed.

Lemma score_as_hits (text : string) (skills : list string) (min_years : Z) :
  Scorer.score_skills_and_experience text skills min_years =
    if (min_years <=? fold_left Z.max (Scorer.years_found (lower text)) 0)%Z
    then Float.add (skill_hits text skills) Float.f0_5
    else skill_hits text skills.
Proof. reflexivity. Qed.

Lemma fold_max_ge (l : list Z) (a : Z) : (a <= fold_left Z.max l a)%Z.
Proof.
  revert a. induction l as [|x l IH]; intros a; simpl; [apply Z.le_refl|].
  eapply Z.le_trans; [apply Z.le_max_l | apply IH].
Qed.

End ScorerFacts.

(** X17. The skill and experience score sees neither the case of the
    document nor the case of the required skills: texts equal once
    lower-cased, with skill lists equal once lower-cased, have the same
    score. *)
Theorem skill_score_ignores_case
  (t1 t2 : string) (s1 s2 : list string) (min_years : Z) :
  lower t1 = lower t2 ->
  map lower s1 = map lower s2 ->
  Scorer.score_skills_and_experience t1 s1 min_years =
  Scorer.score_skills_and_experience t2 s2 min_years.
Proof.
  intros Ht Hs. rewrite !score_as_hits.
  now rewrite (skill_hits_case t1 t2 s1 s2 Ht Hs), Ht.
Qed.

Lemma skill_score_ignores_case_witness :
  Scorer.score_skills_and_experience "Python and SQL, 4 Years" ["PYTHON"; "sql"] 3 =
  Scorer.score_skills_and_experience "python and sql, 4 years" ["python"; "SQL"] 3.
Proof.
  apply skill_score_ignores_case; reflexivity.
Defined.

(** X18. The experience bonus of 0.5 is granted whenever the required years
    are 0 or less, whatever the document says about years: the score is
    then the count of the skills found plus 0.5, so with the default of the
    form every candidate has the bonus. Without required skills the score
    is 0.5. *)
Theorem experience_bonus_without_requirement
  (text : string) (skills : list string) (min_years : Z) :
  (min_years <= 0)%Z ->
  Scorer.score_skills_and_experience text skills min_years =
    Float.add (skill_hits text skills) Float.f0_5 /\
  Scorer.score_skills_and_experience text skills min_years =
    Scorer.score_skills_and_experience text skills 0 /\
  Scorer.score_skills_and_experience text [] min_years = Float.f0_5.
Proof.
  intros Hm.
  assert (H : forall sk m, (m <= 0)%Z ->
            Scorer.score_skills_and_experience text sk m =
            Float.add (skill_hits text sk) Float.f0_5).
  { intros sk m Hle. rewrite score_as_hits.
    pose proof (fold_max_ge (Scorer.years_found (lower text)) 0) as Hge.
    destruct (m <=? fold_left Z.max (Scorer.years_found (lower text)) 0)%Z eqn:E;
      [reflexivity|].
    apply Z.leb_gt in E. lia. }
  repeat split.
  - now apply H.
  - rewrite (H skills min_years Hm), (H skills 0%Z (Z.le_refl 0)). reflexivity.
  - now rewrite (H [] min_years Hm).
Qed.

Lemma experience_bonus_without_requirement_witness :
  Scorer.score_skills_and_experience "fresh graduate, no experience" [] 0 = Float.f0_5.
Proof.
  refine (proj2 (proj2
    (experience_bonus_without_requirement "fresh graduate, no experience" [] 0 _))).
  apply Z.le_refl.
Defined.

(** X19. The education score of [hiresight_engine.py] lower-cases the
    requested levels as well as the document: texts equal once lower-cased,
    with level lists equal once lower-cased, have the same score (so "PhD"
    counts there, while the matcher of the web application passes it over). *)
Theorem hiresight_score_ignores_case (t1 t2 : string) (l1 l2 : list string) :
  lower t1 = lower t2 ->
  map lower l1 = map lower l2 ->
  HireSight.score_education t1 l1 = HireSight.score_education t2 l2.
Proof.
  intros Ht Hl. unfold HireSight.score_education.
  rewrite (fold_left_map
             (fun score lvl =>
                if any_in match dict_get HireSight.keywords lvl with
                          | Some kws => kws
                          | None => []
                          end (lower t1)
                then Float.add score Float.f1_0 else score)
             lower l1).
  rewrite (fold_left_map
             (fun score lvl =>
                if any_in match dict_get HireSight.keywords lvl with
                          | Some kws => kws
                          | None => []
                          end (lower t2)
                then Float.add score Float.f1_0 else score)
             lower l2).
  now rewrite Ht, Hl.
Qed.

Lemma hiresight_score_ignores_case_witness :
  HireSight.score_education "PhD in Physics" ["PhD"] =
  HireSight.score_education "phd in physics" ["phd"].
Proof. apply hiresight_score_ignores_case; reflexivity. Defined.

(* ================================================================= *)
(** ** Loading and indexing *)

Section IndexerFacts.
Import Indexer.

Lemma load_folder_inv (txt_only : bool) (doc_type : string) (f : folder) (d : loaded) :
  In d (load_folder txt_only doc_type f) ->
  exists entries content,
    f = Some entries /\ In (l_id d, Some content) entries /\
    l_doc d = strip content /\ l_doc d <> EmptyString /\
    l_meta d = [("type", doc_type); ("filename", l_id d)] /\
    (txt_only = true -> ends_with ".txt" (l_id d) = true).
Proof.
  unfold load_folder. destruct f as [entries|]; [|intros []].
  rewrite in_flat_map. intros [[name file] [He Hd]].
  unfold load_entry in Hd. cbn [fst snd] in Hd.
  destruct file as [content|]; [|destruct Hd].
  destruct (negb txt_only || ends_with ".txt" name) eqn:Ht; [|destruct Hd].
  destruct (truthy (strip content)) eqn:Hs; [|destruct Hd].
  destruct Hd as [<-|[]]. cbn [l_doc l_id l_meta].
  exists entries, content. repeat split; auto.
  - intros E. rewrite E in Hs. discriminate Hs.
  - intros ->. exact Ht.
Qed.

Lemma fold_add_ids
  (collection : Type) (get_ids : collection -> list string)
  (add : collection -> item -> collection) (embed_text : string -> list Float.float)
  (docs : list loaded) (c : collection) :
  (forall c' it, get_ids (add c' it) <> []) ->
  docs <> [] ->
  get_ids (fold_left (add_document collection add embed_text) docs c) <> [].
Proof.
  intros Hadd. revert c. induction docs as [|d docs IH]; intros c Hne; [contradiction|].
  cbn [fold_left]. destruct docs as [|d' docs].
  - cbn [fold_left]. apply Hadd.
  - apply IH. discriminate.
Qed.

End IndexerFacts.

(** X20. Every document loaded for indexing comes from a file of one of the
    two folders: its text is the stripped, non-empty text of the file (a
    blank file is never indexed), its id is the file name, and its metadata
    carry that name and the type resume for the cleaned folder, note for the
    interview folder. A missing folder loads nothing. *)
Theorem load_documents_invariant
  (txt_only : bool) (cleaned_folder interview_folder : Indexer.folder) (d : Indexer.loaded) :
  In d (Indexer.load_documents txt_only cleaned_folder interview_folder) ->
  Indexer.l_doc d <> EmptyString /\
  strip (Indexer.l_doc d) = Indexer.l_doc d /\
  dict_get (Indexer.l_meta d) "filename" = Some (Indexer.l_id d) /\
  ((dict_get (Indexer.l_meta d) "type" = Some "resume" /\
    exists entries content,
      cleaned_folder = Some entries /\ In (Indexer.l_id d, Some content) entries /\
      Indexer.l_doc d = strip content) \/
   (dict_get (Indexer.l_meta d) "type" = Some "note" /\
    exists entries content,
      interview_folder = Some entries /\ In (Indexer.l_id d, Some content) entries /\
      Indexer.l_doc d = strip content)).
Proof.
  unfold Indexer.load_documents. rewrite in_app_iff.
  intros [H|H]; apply load_folder_inv in H;
    destruct H as [entries [content [Hf [Hin [Hdoc [Hne [Hmeta _]]]]]]];
    (split; [exact Hne|]);
    (split; [rewrite Hdoc; apply strip_idem|]);
    (split; [rewrite Hmeta; reflexivity|]);
    [left | right]; (split; [rewrite Hmeta; reflexivity|]);
    exists entries, content; auto.
Qed.

Lemma load_documents_invariant_witness :
  let d := {| Indexer.l_doc := "PhD in Physics";
              Indexer.l_id := "jane_cleaned.txt";
              Indexer.l_meta := [("type", "resume"); ("filename", "jane_cleaned.txt")] |} in
  Indexer.l_doc d <> EmptyString /\ strip (Indexer.l_doc d) = Indexer.l_doc d.
Proof.
  intros d.
  destruct (load_documents_invariant true
              (Some [("jane_cleaned.txt", Some "  PhD in Physics "); ("blank.txt", Some "  ");
                     ("notes.md", Some "x"); ("dir", None)])
              None d) as [H1 [H2 _]].
  - vm_compute. left. reflexivity.
  - split; [exact H1 | exact H2].
Defined.

(** X21. Indexing is done once: on a collection that reports an id
    [index_if_needed] adds nothing, and after any run a second run, with
    the same folders, leaves the collection as the first left it; this
    asks of the store only that a collection reports an id after an add. *)
Theorem index_if_needed_once
  (collection : Type) (get_ids : collection -> list string)
  (add : collection -> Indexer.item -> collection)
  (embed_text : string -> list Float.float)
  (txt_only : bool) (cleaned_folder interview_folder : Indexer.folder) (c : collection) :
  (forall c' it, get_ids (add c' it) <> []) ->
  let run := Indexer.index_if_needed collection get_ids add embed_text
               txt_only cleaned_folder interview_folder in
  (get_ids c <> [] -> run c = (c, false)) /\
  fst (run (fst (run c))) = fst (run c) /\
  (Indexer.load_documents txt_only cleaned_folder interview_folder <> [] ->
   run (fst (run c)) = (fst (run c), false)).
Proof.
  intros Hadd run. subst run. unfold Indexer.index_if_needed.
  set (docs := Indexer.load_documents txt_only cleaned_folder interview_folder).
  assert (Hdocs : docs <> [] ->
            get_ids (fold_left (Indexer.add_document collection add embed_text) docs c) <> [])
    by (apply fold_add_ids; exact Hadd).
  repeat split.
  - intros Hc. destruct (get_ids c); [contradiction | reflexivity].
  - destruct (get_ids c) as [|i ids] eqn:Hc; cbn [fst].
    + destruct docs as [|d docs'] eqn:Hd.
      * cbn [fold_left]. now rewrite Hc.
      * assert (Hg := Hdocs ltac:(discriminate)).
        destruct (get_ids (fold_left (Indexer.add_document collection add embed_text)
                             (d :: docs') c)); [now contradiction Hg | reflexivity].
    + now rewrite Hc.
  - intros Hne. destruct (get_ids c) as [|i ids] eqn:Hc; cbn [fst].
    + assert (Hg := Hdocs Hne).
      destruct (get_ids (fold_left (Indexer.add_document collection add embed_text) docs c));
        [now contradiction Hg | reflexivity].
    + now rewrite Hc.
Qed.

Lemma index_if_needed_once_witness :
  let get_ids := map Indexer.it_id in
  let add := fun (c : list Indexer.item) (it : Indexer.item) => c ++ [it] in
  let run := Indexer.index_if_needed (list Indexer.item) get_ids add (fun _ => [])
               false (Some [("a.txt", Some "PhD")]) None in
  fst (run (fst (run []))) = fst (run []).
Proof.
  intros get_ids add run.
  refine (proj1 (proj2
    (index_if_needed_once (list Indexer.item) get_ids add (fun _ => [])
       false (Some [("a.txt", Some "PhD")]) None [] _))).
  intros c' it. unfold get_ids, add. rewrite map_app. simpl.
  intros E. apply app_eq_nil in E. destruct E as [_ E]. discriminate E.
Defined.
